(** * Energy cost analyser

    A shallow embedding of the tariff resolver ([src/pricing.py]), the
    billing aggregator ([src/main.py]) and the converter, the merge step
    and the update of the meter-data importer
    ([src/aemo_data_downloader.py]), followed by the properties proved
    about them.

    Conventions of the embedding.
    - A Python call that may raise returns a [result]; the exception classes
      that occur are the constructors of [exn].
    - A Python [dict] whose iteration order matters (every JSON object of the
      pricing configuration, the [usage_breakdown] accumulator) is an
      association list in insertion order.
    - Energy and money are Python floats in the source.  The aggregator
      is embedded twice: with exact rationals ([Qc]), for the statements
      about amounts that are added exactly, and once more in [Float64]
      with binary64 numbers and the rounded operations the interpreter
      performs.
    - A calendar day ([datetime.date]) is represented by its proleptic
      Gregorian ordinal, as [date.toordinal()] computes it.
    - A date cell of a data frame is the text of the CSV or a parsed
      timestamp, and the canonical file holds text.  What [pd.concat],
      [pd.to_datetime] and [to_csv] do with such cells follows pandas 2,
      the version [main.py] is written for.
    - The canonical file is passed through the merge explicitly, together
      with a [fault] that says how the write goes wrong, if it does.  A
      file is a header line and rows of cells; the types [read_csv]
      infers for the text columns are not modelled, and
      [read_as_written] describes the files for which they make no
      difference. *)

From Stdlib Require Import ZArith List String Ascii Bool Lia.
From Stdlib Require Import QArith Qcanon Permutation Sorted.
From Stdlib Require Floats.
Import ListNotations.

Local Open Scope Z_scope.
Local Open Scope list_scope.

(* ===================================================================== *)
(** * Part I: definitions                                                  *)
(* ===================================================================== *)

(** ** Python basics: exceptions, dictionaries, [str.split], [int] *)

Inductive exn : Type :=
| KeyError      (* d[k] with k missing; the spec calls it ConfigNotFound *)
| TypeError     (* an operator applied to None *)
| ValueError    (* int(), tuple unpacking, strptime *)
| OSError.      (* a failed file operation *)

Inductive result (A : Type) : Type :=
| Ok (a : A)
| Raise (e : exn).

Arguments Ok {A} a.
Arguments Raise {A} e.

Definition bind {A B : Type} (c : result A) (k : A -> result B) : result B :=
  match c with
  | Ok a => k a
  | Raise e => Raise e
  end.

Notation "x <- c ;; k" := (bind c (fun x => k))
  (at level 61, c at next level, right associativity).
Notation "' p <- c ;; k" := (bind c (fun x => let 'p := x in k))
  (at level 61, p pattern, c at next level, right associativity).

Definition is_raise {A : Type} (c : result A) : Prop :=
  exists e, c = Raise e.

(** A [dict] with string keys, in insertion order. *)
Definition dict (V : Type) : Type := list (string * V).

(** [d.get(k)] *)
Fixpoint dict_get {V : Type} (d : dict V) (k : string) : option V :=
  match d with
  | [] => None
  | (k', v) :: rest => if String.eqb k' k then Some v else dict_get rest k
  end.

(** [d[k]] *)
Definition getitem {V : Type} (d : dict V) (k : string) : result V :=
  match dict_get d k with
  | Some v => Ok v
  | None => Raise KeyError
  end.

(** [d[k] = v]: an existing key keeps its position, a new key is appended. *)
Fixpoint setitem {V : Type} (d : dict V) (k : string) (v : V) : dict V :=
  match d with
  | [] => [(k, v)]
  | (k', v') :: rest =>
      if String.eqb k' k then (k', v) :: rest else (k', v') :: setitem rest k v
  end.

(** [d.values()] *)
Definition values {V : Type} (d : dict V) : list V := map snd d.

(** [s.split(sep)] for a one-character separator. *)
Fixpoint split (sep : ascii) (s : string) : list string :=
  match s with
  | EmptyString => [EmptyString]
  | String c s' =>
      if Ascii.eqb c sep then EmptyString :: split sep s'
      else match split sep s' with
           | piece :: pieces => String c piece :: pieces
           | [] => [String c EmptyString]
           end
  end.

Definition digit_value (c : ascii) : option Z :=
  let n := Z.of_nat (nat_of_ascii c) in
  if (48 <=? n) && (n <=? 57) then Some (n - 48) else None.

Fixpoint digits_value (acc : Z) (s : string) : option Z :=
  match s with
  | EmptyString => Some acc
  | String c s' =>
      match digit_value c with
      | Some d => digits_value (10 * acc + d) s'
      | None => None
      end
  end.

(** [int(s)] on a string of decimal digits, where it returns the number
    they spell.  Python's [int] also accepts surrounding blanks, a sign
    and underscores between digits; those spellings are mapped to
    [ValueError] here.  So a string that is read here ([= Ok]) is read
    by Python to the same number, while a string that is refused here
    may be accepted by Python. *)
Definition int (s : string) : result Z :=
  match s with
  | EmptyString => Raise ValueError
  | _ => match digits_value 0 s with
         | Some n => Ok n
         | None => Raise ValueError
         end
  end.

(** ** Timestamps *)

(** A timestamp to the second, as the CSV and the NEM12 intervals carry
    them.  A [pd.Timestamp] can also hold a fraction of a second; it is
    taken to be zero. *)
Record datetime : Type := mk_datetime {
  year : Z; month : Z; day : Z; hour : Z; minute : Z; second : Z
}.

Definition is_leap (y : Z) : bool :=
  (y mod 4 =? 0) && (negb (y mod 100 =? 0) || (y mod 400 =? 0)).

Definition days_before_year (y : Z) : Z :=
  let y' := y - 1 in y' * 365 + y' / 4 - y' / 100 + y' / 400.

Definition days_in_month (y m : Z) : Z :=
  if m =? 2 then (if is_leap y then 29 else 28)
  else if (m =? 4) || (m =? 6) || (m =? 9) || (m =? 11) then 30
  else 31.

Definition days_before_month (y m : Z) : Z :=
  nth (Z.to_nat m) [0; 0; 31; 59; 90; 120; 151; 181; 212; 243; 273; 304; 334] 0
  + (if (2 <? m) && is_leap y then 1 else 0).

(** [d.toordinal()]: 1 for 0001-01-01. *)
Definition toordinal (d : datetime) : Z :=
  days_before_year (year d) + days_before_month (year d) (month d) + day d.

(** [d.weekday()]: 0 for Monday, 6 for Sunday. *)
Definition weekday (d : datetime) : Z := (toordinal d + 6) mod 7.

(** Seconds since the start of day 0, for comparing two timestamps. *)
Definition to_seconds (d : datetime) : Z :=
  toordinal d * 86400 + hour d * 3600 + minute d * 60 + second d.

(** [pd.date_range(start=start_date, end=end_date, freq='D')]: the
    timestamps [start_date + k days] that are not after [end_date].  The
    callers only use [.date()] of each, so the days are returned. *)
Definition date_range (start_date end_date : datetime) : list Z :=
  let n := (to_seconds end_date - to_seconds start_date) / 86400 + 1 in
  map (fun k => toordinal start_date + Z.of_nat k) (seq 0 (Z.to_nat n)).

(** ** pricing.py: [PricingManager] *)

(** One rate-type entry: ['hours'] and ['rate'] are indexed by the code,
    ['solar_rate'] is read with [.get] and may be missing. *)
Record rate_details : Type := mk_details {
  hours : list string;
  rate : Qc;
  solar_rate : option Qc
}.

(** [pricing_config[vendor]]: the ['periods'] object (season -> months),
    ['supply_charge'], and one object per season holding the
    ['weekday'] / ['weekend'] rate tables.  In the JSON file the season
    objects are members of the vendor object next to ['periods'] and
    ['supply_charge']; [seasons] holds the other members, so an index by
    a season named "periods" or "supply_charge" is not covered. *)
Record vendor_config : Type := mk_vendor {
  periods : dict (list Z);
  supply_charge : Qc;
  seasons : dict (dict (dict rate_details))
}.

Definition pricing_config : Type := dict vendor_config.

(** [start, end = map(int, hour_range.split('-'))] *)
Definition parse_hour_range (hour_range : string) : result (Z * Z) :=
  match split "-"%char hour_range with
  | [a; b] => start <- int a ;; end_ <- int b ;; Ok (start, end_)
  | _ => Raise ValueError
  end.

Fixpoint _is_hour_in_range (hour : Z) (ranges : list string) : result bool :=
  match ranges with
  | [] => Ok false
  | hour_range :: rest =>
      '(start, end_) <- parse_hour_range hour_range ;;
      if start <? end_ then
        if (start <=? hour) && (hour <? end_) then Ok true
        else _is_hour_in_range hour rest
      else
        if (hour >=? start) || (hour <? end_) then Ok true
        else _is_hour_in_range hour rest
  end.

(** The loop of [_get_season]; falling off the end returns [None]. *)
Fixpoint season_of_month (m : Z) (ps : dict (list Z)) : option string :=
  match ps with
  | [] => None
  | (value, months) :: rest =>
      if existsb (Z.eqb m) months then Some value else season_of_month m rest
  end.

Definition _get_season (cfg : pricing_config) (vendor : string)
    (timestamp : datetime) : result (option string) :=
  v <- getitem cfg vendor ;;
  Ok (season_of_month (month timestamp) (periods v)).

Definition day_type_of (timestamp : datetime) : string :=
  if weekday timestamp >=? 5 then "weekend"%string else "weekday"%string.

(** [self.pricing_config[vendor][season][day_type]]; a season of [None]
    is not a key of the vendor object. *)
Definition vendor_rates_of (cfg : pricing_config) (vendor : string)
    (season : option string) (day_type : string) : result (dict rate_details) :=
  v <- getitem cfg vendor ;;
  match season with
  | None => Raise KeyError
  | Some s => by_day <- getitem (seasons v) s ;; getitem by_day day_type
  end.

Fixpoint get_rate_loop (hour : Z) (items : dict rate_details) : result Qc :=
  match items with
  | [] => Ok 0%Qc
  | (rate_type, details) :: rest =>
      inside <- _is_hour_in_range hour (hours details) ;;
      if inside then Ok (rate details) else get_rate_loop hour rest
  end.

Definition get_rate (cfg : pricing_config) (vendor : string)
    (timestamp : datetime) : result Qc :=
  season <- _get_season cfg vendor timestamp ;;
  let day_type := day_type_of timestamp in
  let hour := hour timestamp in
  vendor_rates <- vendor_rates_of cfg vendor season day_type ;;
  get_rate_loop hour vendor_rates.

Fixpoint get_solar_rate_loop (hour : Z) (items : dict rate_details)
    : result (option Qc) :=
  match items with
  | [] => Ok None
  | (rate_type, details) :: rest =>
      inside <- _is_hour_in_range hour (hours details) ;;
      if inside then Ok (solar_rate details) else get_solar_rate_loop hour rest
  end.

Definition get_solar_rate (cfg : pricing_config) (vendor : string)
    (timestamp : datetime) : result (option Qc) :=
  season <- _get_season cfg vendor timestamp ;;
  let day_type := day_type_of timestamp in
  let hour := hour timestamp in
  vendor_rates <- vendor_rates_of cfg vendor season day_type ;;
  get_solar_rate_loop hour vendor_rates.

Definition get_supply_charge (cfg : pricing_config) (vendor : string)
    : result Qc :=
  v <- getitem cfg vendor ;;
  Ok (supply_charge v).

Fixpoint get_rate_type_loop (hour : Z) (items : dict rate_details)
    : result string :=
  match items with
  | [] => Ok "off_peak"%string
  | (rate_type, details) :: rest =>
      inside <- _is_hour_in_range hour (hours details) ;;
      if inside then Ok rate_type else get_rate_type_loop hour rest
  end.

Definition get_rate_type (cfg : pricing_config) (vendor : string)
    (timestamp : datetime) : result string :=
  period <- _get_season cfg vendor timestamp ;;
  let day_type := day_type_of timestamp in
  let hour := hour timestamp in
  vendor_rates <- vendor_rates_of cfg vendor period day_type ;;
  get_rate_type_loop hour vendor_rates.


(** ** The data frame: one row per interval reading *)

(** The fifteen columns of the canonical CSV.  [D] is the type of the two
    date cells: text in the file, a timestamp once parsed. *)
Record row (D : Type) : Type := mk_row {
  AccountNumber : string;
  NMI : string;
  DeviceNumber : string;
  DeviceType : string;
  RegisterCode : string;
  RateTypeDescription : string;
  StartDate : D;
  Start_Day : Z;
  Start_Month : Z;
  Start_Quarter : Z;
  Start_Year : Z;
  EndDate : D;
  ProfileReadValue : Qc;
  RegisterReadValue : Z;
  QualityFlag : string
}.

Arguments mk_row {D}.
Arguments AccountNumber {D} r.
Arguments NMI {D} r.
Arguments DeviceNumber {D} r.
Arguments DeviceType {D} r.
Arguments RegisterCode {D} r.
Arguments RateTypeDescription {D} r.
Arguments StartDate {D} r.
Arguments Start_Day {D} r.
Arguments Start_Month {D} r.
Arguments Start_Quarter {D} r.
Arguments Start_Year {D} r.
Arguments EndDate {D} r.
Arguments ProfileReadValue {D} r.
Arguments RegisterReadValue {D} r.
Arguments QualityFlag {D} r.

(** Rewrites the two date cells and keeps every other column. *)
Definition with_dates {D E : Type} (r : row D) (s e : E) : row E :=
  mk_row (AccountNumber r) (NMI r) (DeviceNumber r) (DeviceType r)
         (RegisterCode r) (RateTypeDescription r) s
         (Start_Day r) (Start_Month r) (Start_Quarter r) (Start_Year r) e
         (ProfileReadValue r) (RegisterReadValue r) (QualityFlag r).

(** ** main.py: [MeterDataParser] *)

(** [self.df] as [__init__] loads it: both date columns parsed. *)
Definition frame : Type := list (row datetime).

(** [self.df[self.df['StartDate'].dt.date == date.date()]] *)
Definition date_data (df : frame) (date : Z) : frame :=
  filter (fun r => toordinal (StartDate r) =? date) df.

Section Aggregator.

(** [self.pricing_manager.pricing_config] and [self.df]. *)
Variable cfg : pricing_config.
Variable df : frame.

Fixpoint calculate_cost_rows (vendor : string) (rows : frame)
    (total_cost : Qc) : result Qc :=
  match rows with
  | [] => Ok total_cost
  | r :: rest =>
      if String.eqb (RateTypeDescription r) "Usage" then
        rate <- get_rate cfg vendor (StartDate r) ;;
        calculate_cost_rows vendor rest
          (total_cost + ProfileReadValue r * rate)%Qc
      else calculate_cost_rows vendor rest total_cost
  end.

Definition calculate_cost (date : Z) (vendor : string) : result Qc :=
  calculate_cost_rows vendor (date_data df date) 0%Qc.

(** [row['ProfileReadValue'] * rate] raises [TypeError] when
    [get_solar_rate] returned [None]. *)
Definition mul_rate (value : Qc) (rate : option Qc) : result Qc :=
  match rate with
  | Some r => Ok (value * r)%Qc
  | None => Raise TypeError
  end.

Fixpoint calculate_solar_feedin_rows (vendor : string) (rows : frame)
    (total_credit : Qc) : result Qc :=
  match rows with
  | [] => Ok total_credit
  | r :: rest =>
      if String.eqb (RateTypeDescription r) "Solar" then
        rate <- get_solar_rate cfg vendor (StartDate r) ;;
        credit <- mul_rate (ProfileReadValue r) rate ;;
        calculate_solar_feedin_rows vendor rest (total_credit + credit)%Qc
      else calculate_solar_feedin_rows vendor rest total_credit
  end.

Definition calculate_solar_feedin (date : Z) (vendor : string) : result Qc :=
  calculate_solar_feedin_rows vendor (date_data df date) 0%Qc.

(** The dictionary [calculate_cost_range] returns.  The two per-day
    dictionaries are keyed by the days of the range, which are distinct,
    so each assignment appends an item. *)
Record cost_range : Type := mk_cost_range {
  daily_costs : list (Z * Qc);
  daily_solar : list (Z * Qc);
  total_usage_cost : Qc;
  total_solar_credit : Qc;
  cr_total_supply_charges : Qc;
  cr_net_cost : Qc;
  cr_start_date : Z;
  cr_end_date : Z;
  cr_total_days : Z;
  cr_vendor : string
}.

(** The running variables of the loop over [date_range]. *)
Record range_state : Type := mk_range_state {
  rs_daily_costs : list (Z * Qc);
  rs_daily_solar : list (Z * Qc);
  rs_total_cost : Qc;
  rs_total_solar : Qc;
  rs_total_supply_charges : Qc;
  rs_total_days : Z
}.

Fixpoint calculate_cost_range_days (vendor : string) (dates : list Z)
    (st : range_state) : result range_state :=
  match dates with
  | [] => Ok st
  | date :: rest =>
      let total_days := rs_total_days st + 1 in
      usage_cost <- calculate_cost date vendor ;;
      solar_credit <- calculate_solar_feedin date vendor ;;
      supply_charges <- get_supply_charge cfg vendor ;;
      calculate_cost_range_days vendor rest
        (mk_range_state
           (rs_daily_costs st ++ [(date, usage_cost)])
           (rs_daily_solar st ++ [(date, solar_credit)])
           (rs_total_cost st + usage_cost)%Qc
           (rs_total_solar st + solar_credit)%Qc
           (rs_total_supply_charges st + supply_charges)%Qc
           total_days)
  end.

Definition calculate_cost_range (start_date end_date : datetime)
    (vendor : string) : result cost_range :=
  st <- calculate_cost_range_days vendor (date_range start_date end_date)
          (mk_range_state [] [] 0%Qc 0%Qc 0%Qc 0) ;;
  let net_cost :=
    (rs_total_cost st - rs_total_solar st + rs_total_supply_charges st)%Qc in
  Ok (mk_cost_range (rs_daily_costs st) (rs_daily_solar st)
        (rs_total_cost st) (rs_total_solar st) (rs_total_supply_charges st)
        net_cost (toordinal start_date) (toordinal end_date)
        (rs_total_days st) vendor).

(** *** [calculate_detailed_breakdown] *)

(** [usage_breakdown] as the function creates it. *)
Definition usage_breakdown_init : dict (dict Qc) :=
  [ ("peak"%string,     [("kwh"%string, 0%Qc); ("cost"%string, 0%Qc)]);
    ("off_peak"%string, [("kwh"%string, 0%Qc); ("cost"%string, 0%Qc)]);
    ("shoulder"%string, [("kwh"%string, 0%Qc); ("cost"%string, 0%Qc)]);
    ("solar"%string,    [("kwh"%string, 0%Qc); ("credit"%string, 0%Qc)]) ].

(** [usage_breakdown[k1][k2] += rhs]: both subscripts are read before the
    right-hand side is evaluated; a missing key raises [KeyError]. *)
Definition add_to (ub : dict (dict Qc)) (k1 k2 : string) (rhs : result Qc)
    : result (dict (dict Qc)) :=
  inner <- getitem ub k1 ;;
  old <- getitem inner k2 ;;
  v <- rhs ;;
  Ok (setitem ub k1 (setitem inner k2 (old + v)%Qc)).

Fixpoint breakdown_rows (vendor : string) (rows : frame)
    (ub : dict (dict Qc)) : result (dict (dict Qc)) :=
  match rows with
  | [] => Ok ub
  | r :: rest =>
      if String.eqb (RateTypeDescription r) "Usage" then
        rate <- get_rate cfg vendor (StartDate r) ;;
        rate_type <- get_rate_type cfg vendor (StartDate r) ;;
        ub1 <- add_to ub rate_type "kwh" (Ok (ProfileReadValue r)) ;;
        ub2 <- add_to ub1 rate_type "cost"
                 (Ok (ProfileReadValue r * rate)%Qc) ;;
        breakdown_rows vendor rest ub2
      else if String.eqb (RateTypeDescription r) "Solar" then
        solar_rate <- get_solar_rate cfg vendor (StartDate r) ;;
        ub1 <- add_to ub "solar" "kwh" (Ok (ProfileReadValue r)) ;;
        ub2 <- add_to ub1 "solar" "credit"
                 (mul_rate (ProfileReadValue r) solar_rate) ;;
        breakdown_rows vendor rest ub2
      else breakdown_rows vendor rest ub
  end.

(** The running variables of the loop over [date_range]. *)
Record breakdown_state : Type := mk_breakdown_state {
  bs_usage_breakdown : dict (dict Qc);
  bs_total_supply_charges : Qc;
  bs_total_days : Z
}.

Fixpoint breakdown_days (vendor : string) (dates : list Z)
    (st : breakdown_state) : result breakdown_state :=
  match dates with
  | [] => Ok st
  | date :: rest =>
      let total_days := bs_total_days st + 1 in
      let rows := date_data df date in
      supply_charge <- get_supply_charge cfg vendor ;;
      let total_supply_charges :=
        (bs_total_supply_charges st + supply_charge)%Qc in
      ub <- breakdown_rows vendor rows (bs_usage_breakdown st) ;;
      breakdown_days vendor rest
        (mk_breakdown_state ub total_supply_charges total_days)
  end.

(** [a == b] on two dictionaries: the same keys with equal values. *)
Definition dict_eqb (a b : dict Qc) : bool :=
  Nat.eqb (List.length a) (List.length b)
  && forallb (fun kv => match dict_get b (fst kv) with
                        | Some v' => Qeq_bool (this (snd kv)) (this v')
                        | None => false
                        end) a.

(** [sum(period[field] for period in usage_breakdown.values()
         if period != usage_breakdown['solar'])] *)
Fixpoint sum_periods (field : string) (ub : dict (dict Qc))
    (ps : list (dict Qc)) (acc : Qc) : result Qc :=
  match ps with
  | [] => Ok acc
  | period :: rest =>
      solar <- getitem ub "solar" ;;
      if dict_eqb period solar then sum_periods field ub rest acc
      else v <- getitem period field ;;
           sum_periods field ub rest (acc + v)%Qc
  end.

(** The dictionary [calculate_detailed_breakdown] returns. *)
Record detailed_breakdown : Type := mk_detailed_breakdown {
  breakdown : dict (dict Qc);
  total_usage : Qc;
  total_cost : Qc;
  total_supply_charges : Qc;
  sub_total_cost : Qc;
  net_cost : Qc;
  total_days : Z;
  start_date : Z;
  end_date : Z;
  vendor_name : string
}.

Definition calculate_detailed_breakdown (start_date end_date : datetime)
    (vendor : string) : result detailed_breakdown :=
  st <- breakdown_days vendor (date_range start_date end_date)
          (mk_breakdown_state usage_breakdown_init 0%Qc 0) ;;
  let usage_breakdown := bs_usage_breakdown st in
  total_usage <- sum_periods "kwh" usage_breakdown
                   (values usage_breakdown) 0%Qc ;;
  total_cost <- sum_periods "cost" usage_breakdown
                  (values usage_breakdown) 0%Qc ;;
  let sub_total_cost := (total_cost + bs_total_supply_charges st)%Qc in
  solar <- getitem usage_breakdown "solar" ;;
  credit <- getitem solar "credit" ;;
  let net_cost := (sub_total_cost - credit)%Qc in
  Ok (mk_detailed_breakdown usage_breakdown total_usage total_cost
        (bs_total_supply_charges st) sub_total_cost net_cost
        (bs_total_days st) (toordinal start_date) (toordinal end_date)
        vendor).

End Aggregator.

(** ** aemo_data_downloader.py: [AEMODataDownloader._append_to_csv] *)

(** *** Dates as text and as timestamps *)

Definition two_digits (a b : ascii) : option Z :=
  match digit_value a, digit_value b with
  | Some x, Some y => Some (10 * x + y)
  | _, _ => None
  end.

Definition valid_datetime (t : datetime) : bool :=
  (1 <=? year t) && (1 <=? month t) && (month t <=? 12)
  && (1 <=? day t) && (day t <=? days_in_month (year t) (month t))
  && (hour t <=? 23) && (minute t <=? 59) && (second t <=? 59).

(** [pd.to_datetime(text, format='%d/%m/%Y %H:%M:%S')] on one cell: the
    zero-padded spelling the importer itself writes is accepted, anything
    else raises [ValueError].  The library also takes one-digit days,
    months and times, and refuses years outside 1677-2262.  So a date
    with a year in that range that is read here ([= Ok]) is read by the
    library to the same timestamp, and the spelling [timestamp_str] is
    refused by both, while other text that is refused here may be
    accepted by the library. *)
Definition strptime (text : string) : result datetime :=
  match list_ascii_of_string text with
  | [d1; d2; "/"; m1; m2; "/"; y1; y2; y3; y4; " ";
     h1; h2; ":"; n1; n2; ":"; s1; s2]%char =>
      match two_digits d1 d2, two_digits m1 m2, two_digits y1 y2,
            two_digits y3 y4, two_digits h1 h2, two_digits n1 n2,
            two_digits s1 s2 with
      | Some d, Some m, Some yh, Some yl, Some h, Some n, Some s =>
          let t := mk_datetime (100 * yh + yl) m d h n s in
          if valid_datetime t then Ok t else Raise ValueError
      | _, _, _, _, _, _, _ => Raise ValueError
      end
  | _ => Raise ValueError
  end.

Definition digit_char (n : Z) : ascii :=
  ascii_of_nat (Z.to_nat (48 + n mod 10)).

Definition pad2 (n : Z) : string :=
  String (digit_char (n / 10)) (String (digit_char n) EmptyString).

Definition pad4 (n : Z) : string :=
  (pad2 (n / 100) ++ pad2 (n mod 100))%string.

(** [t.strftime('%Y%m%d%H%M')] *)
Definition strftime_minute (t : datetime) : string :=
  (pad4 (year t) ++ pad2 (month t) ++ pad2 (day t)
   ++ pad2 (hour t) ++ pad2 (minute t))%string.

(** [str(t)] for a [Timestamp], ['YYYY-MM-DD HH:MM:SS']: what [to_csv]
    writes for a timestamp cell when no [date_format] is given. *)
Definition timestamp_str (t : datetime) : string :=
  (pad4 (year t) ++ "-" ++ pad2 (month t) ++ "-" ++ pad2 (day t) ++ " "
   ++ pad2 (hour t) ++ ":" ++ pad2 (minute t) ++ ":" ++ pad2 (second t))%string.

(** A date cell of a frame in memory: the text read from a file or
    produced by the converter, or a parsed [Timestamp]. *)
Inductive cell : Type :=
| Text (s : string)
| Stamp (t : datetime).

(** [pd.to_datetime(column, format=...)] on one cell of a column that
    mixes both kinds, as pandas 2 does it (the version [main.py] needs
    for [read_csv(date_format=...)]): a timestamp passes through, text is
    parsed. *)
Definition to_datetime (c : cell) : result datetime :=
  match c with
  | Text s => strptime s
  | Stamp t => Ok t
  end.

Definition cell_str (c : cell) : string :=
  match c with
  | Text s => s
  | Stamp t => timestamp_str t
  end.

Fixpoint mapM {A B : Type} (f : A -> result B) (l : list A) : result (list B) :=
  match l with
  | [] => Ok []
  | x :: rest => y <- f x ;; ys <- mapM f rest ;; Ok (y :: ys)
  end.

(** *** The canonical file *)

(** The content of [csv_file_path]: [None] when the file does not exist,
    otherwise a header line followed by these data rows, the date cells
    as text; [Some []] is a file with its header line and no row.  (A
    file without a header line, which [read_csv] refuses, is not
    represented.) *)
Definition csv_file : Type := option (list (row string)).

(** How a file operation can go wrong: opening the file for writing fails
    (nothing is touched), or the write stops when the header line and
    [written] rows have reached the file. *)
Inductive fault : Type :=
| NoFault
| OpenFault
| WriteFault (written : nat).

Definition csv_row (r : row cell) : row string :=
  with_dates r (cell_str (StartDate r)) (cell_str (EndDate r)).

(** [combined_data.to_csv(self.csv_file_path, index=False)]: the file is
    opened for writing, which truncates it, and the rows are written in
    order. *)
Definition to_csv (f : fault) (file : csv_file) (data : list (row cell))
    : csv_file * result unit :=
  match f with
  | NoFault => (Some (map csv_row data), Ok tt)
  | OpenFault => (file, Raise OSError)
  | WriteFault written =>
      (Some (firstn written (map csv_row data)), Raise OSError)
  end.

(** *** The merge *)

(** [existing_data['StartDate'] = pd.to_datetime(existing_data['StartDate'], ...)]
    and the same for ['EndDate']: both columns now hold timestamps. *)
Definition parse_dates (r : row string) : result (row datetime) :=
  s <- strptime (StartDate r) ;;
  e <- strptime (EndDate r) ;;
  Ok (with_dates r s e).

(** [NMI.astype(str) + '_' + RegisterCode.astype(str) + '_'
      + StartDate.dt.strftime('%Y%m%d%H%M')].  The key reads the NMI and
    the register code through [astype(str)]; for a stored row that is
    the text of the file when the cell reads back as written
    ([reads_back]), and not otherwise: an NMI stored as 0123 is read as
    the integer 123. *)
Definition make_key {D : Type} (r : row D) (start : datetime) : string :=
  (NMI r ++ "_" ++ RegisterCode r ++ "_" ++ strftime_minute start)%string.

Definition existing_key (r : row datetime) : string :=
  make_key r (StartDate r).

(** [new_data['StartDate_dt']] and [new_data['_key']] for one row. *)
Definition new_key (r : row string) : result string :=
  start <- strptime (StartDate r) ;;
  Ok (make_key r start).

(** [keys.isin(existing_keys)] for one key. *)
Definition isin (k : string) (ks : list string) : bool :=
  existsb (String.eqb k) ks.

(** [new_data[~new_data['_key'].isin(existing_data['_key'])]] *)
Fixpoint remove_duplicates (existing_keys : list string)
    (new_data : list (row string)) : result (list (row string)) :=
  match new_data with
  | [] => Ok []
  | r :: rest =>
      k <- new_key r ;;
      kept <- remove_duplicates existing_keys rest ;;
      Ok (if isin k existing_keys then kept else r :: kept)
  end.

(** The two halves of [pd.concat([existing_data.drop('_key', axis=1),
    new_data])]: the date columns of [existing_data] were replaced by
    timestamps, those of [new_data] are still the text of the converter
    (its [StartDate_dt] column was dropped again). *)
Definition of_existing (r : row datetime) : row cell :=
  with_dates r (Stamp (StartDate r)) (Stamp (EndDate r)).

Definition of_new (r : row string) : row cell :=
  with_dates r (Text (StartDate r)) (Text (EndDate r)).

(** The sort key [['NMI', 'RegisterCode', 'StartDate_dt']]: strings by
    code point, timestamps in time.  This is the order of a frame whose
    NMI and register code are strings throughout, as on a first import.
    After a merge into a store whose NMI column was read as integers the
    column mixes integers and strings, and [sort_values] puts the
    integers first; the statements about the order of the file are made
    for a first import. *)
Definition sort_leb (a b : row cell * datetime) : bool :=
  match String.compare (NMI (fst a)) (NMI (fst b)) with
  | Lt => true
  | Gt => false
  | Eq =>
      match String.compare (RegisterCode (fst a)) (RegisterCode (fst b)) with
      | Lt => true
      | Gt => false
      | Eq => to_seconds (snd a) <=? to_seconds (snd b)
      end
  end.

Fixpoint insert_sorted (x : row cell * datetime)
    (l : list (row cell * datetime)) : list (row cell * datetime) :=
  match l with
  | [] => [x]
  | y :: rest => if sort_leb x y then x :: l else y :: insert_sorted x rest
  end.

(** [combined_data['StartDate_dt'] = pd.to_datetime(combined_data['StartDate'], ...)],
    [sort_values([...])] and [drop('StartDate_dt', axis=1)].  Rows with
    equal sort keys keep their order. *)
Definition sort_values (combined : list (row cell)) : result (list (row cell)) :=
  keyed <- mapM (fun r => t <- to_datetime (StartDate r) ;; Ok (r, t)) combined ;;
  Ok (map fst (fold_right insert_sorted [] keyed)).

(** The second component of the returned tuple. *)
Inductive message : Type :=
| NoNewUnique                 (* "No new unique records to add" *)
| Saved (records : nat)       (* "Successfully saved {n} new records" *)
| ErrorSaving (e : exn).      (* "Error saving data: {e}" *)

(** Lines 250-282: everything up to the write.  [None] is the early
    return; otherwise the sorted frame and [len(new_data)]. *)
Definition combine (file : csv_file) (new_data : list (row string))
    : result (option (list (row cell) * nat)) :=
  match file with
  | Some rows =>
      existing_data <- mapM parse_dates rows ;;
      let existing_keys := map existing_key existing_data in
      new_data <- remove_duplicates existing_keys new_data ;;
      match new_data with
      | [] => Ok None
      | _ =>
          let combined_data := map of_existing existing_data ++ map of_new new_data in
          sorted <- sort_values combined_data ;;
          Ok (Some (sorted, List.length new_data))
      end
  | None =>
      let combined_data := map of_new new_data in
      sorted <- sort_values combined_data ;;
      Ok (Some (sorted, List.length new_data))
  end.

(** [_append_to_csv]: the canonical file after the call and the returned
    [(success, message)].  Any exception inside is caught and reported. *)
Definition _append_to_csv (f : fault) (file : csv_file)
    (new_data : list (row string)) : csv_file * (bool * message) :=
  match combine file new_data with
  | Raise e => (file, (false, ErrorSaving e))
  | Ok None => (file, (true, NoNewUnique))
  | Ok (Some (combined_data, n)) =>
      match to_csv f file combined_data with
      | (file', Ok _) => (file', (true, Saved n))
      | (file', Raise e) => (file', (false, ErrorSaving e))
      end
  end.

(** *** [get_last_entry_date] and [download_and_update_data] *)

Definition later (a b : datetime) : datetime :=
  if to_seconds a <? to_seconds b then b else a.

(** [nmi_data['EndDate'].max()], [None] for no rows. *)
Fixpoint max_end_date (rows : list (row datetime)) : option datetime :=
  match rows with
  | [] => None
  | r :: rest =>
      match max_end_date rest with
      | None => Some (EndDate r)
      | Some t => Some (later (EndDate r) t)
      end
  end.

(** [get_last_entry_date]: a missing file, an exception while loading it,
    and an NMI without rows all give [None].  The NMI is compared with
    [astype(str)] of the stored column, modelled by the text of the
    cell. *)
Definition get_last_entry_date (file : csv_file) (nmi : string)
    : option datetime :=
  match file with
  | None => None
  | Some rows =>
      match mapM parse_dates rows with
      | Raise _ => None
      | Ok df => max_end_date (filter (fun r => String.eqb (NMI r) nmi) df)
      end
  end.

(** The NEM12 file named by [nem12_file_path]: absent from disk, or what
    [parse_nem12_file(nem12_file_path, nmi)] makes of it.  Decoding the
    format is the work of an external package. *)
Inductive nem12_source : Type :=
| Nem12Missing
| Nem12Parsed (converted : result (list (row string))).

(** The second component of the tuple [download_and_update_data]
    returns. *)
Inductive download_message : Type :=
| NoBaseline          (* "No existing data found and no NEM12 file provided..." *)
| Nem12NotFound       (* "NEM12 file not found: ..." *)
| NoDataForNmi        (* "No data found in NEM12 file for the specified NMI" *)
| NoNewData           (* "No new data to add (all data already exists)" *)
| Added (records : nat)   (* "Successfully added {n} new records from NEM12 file" *)
| AppendFailed (m : message)  (* the message of [_append_to_csv] *)
| ApiNotImplemented   (* "Direct AEMO API download not yet implemented..." *)
| DownloadError (e : exn).    (* "Error: {e}" *)

(** [new_data[new_data['StartDate_dt'] >= from_date]], with [from_date]
    given in seconds; no filter when [from_date] is still [None]. *)
Fixpoint filter_from (from_date : option Z) (new_data : list (row string))
    : result (list (row string)) :=
  match from_date with
  | None => Ok new_data
  | Some threshold =>
      match new_data with
      | [] => Ok []
      | r :: rest =>
          start <- strptime (StartDate r) ;;
          kept <- filter_from from_date rest ;;
          Ok (if to_seconds start >=? threshold then r :: kept else kept)
      end
  end.

(** [download_and_update_data(nmi, nem12_file_path, from_date)]: the
    canonical file after the call and the returned tuple. *)
Definition download_and_update_data (f : fault) (file : csv_file)
    (nmi : string) (nem12_file_path : option nem12_source)
    (from_date : option datetime) : csv_file * (bool * download_message) :=
  let last_date :=
    match from_date with
    | None => get_last_entry_date file nmi
    | Some _ => None
    end in
  let from_date :=
    match from_date, last_date with
    | Some d, _ => Some (to_seconds d)
    | None, Some last => Some (to_seconds last + 30 * 60)
    | None, None => None
    end in
  match from_date, nem12_file_path with
  | None, None => (file, (false, NoBaseline))
  | Some _, None => (file, (false, ApiNotImplemented))
  | _, Some Nem12Missing => (file, (false, Nem12NotFound))
  | _, Some (Nem12Parsed (Raise e)) => (file, (false, DownloadError e))
  | _, Some (Nem12Parsed (Ok [])) => (file, (false, NoDataForNmi))
  | _, Some (Nem12Parsed (Ok new_data)) =>
      match filter_from from_date new_data with
      | Raise e => (file, (false, DownloadError e))
      | Ok [] => (file, (true, NoNewData))
      | Ok new_data =>
          match _append_to_csv f file new_data with
          | (file', (true, _)) =>
              (file', (true, Added (List.length new_data)))
          | (file', (false, message)) =>
              (file', (false, AppendFailed message))
          end
      end
  end.

(** ** Auxiliary definitions used to state the properties *)

(** What one range decides, once it has been read. *)
Definition range_contains (start end_ hour : Z) : bool :=
  if start <? end_ then (start <=? hour) && (hour <? end_)
  else (hour >=? start) || (hour <? end_).

(** The entry the three loops of the resolver stop at: the first one, in
    configured order, whose ranges contain the hour. *)
Fixpoint first_match (hour : Z) (items : dict rate_details)
    : result (option (string * rate_details)) :=
  match items with
  | [] => Ok None
  | (rate_type, details) :: rest =>
      inside <- _is_hour_in_range hour (hours details) ;;
      if inside then Ok (Some (rate_type, details)) else first_match hour rest
  end.

(** Season, day type and hour resolved down to the selected entry. *)
Definition resolve (cfg : pricing_config) (vendor : string)
    (timestamp : datetime) : result (option (string * rate_details)) :=
  season <- _get_season cfg vendor timestamp ;;
  vendor_rates <- vendor_rates_of cfg vendor season (day_type_of timestamp) ;;
  first_match (hour timestamp) vendor_rates.

Definition rate_of (m : option (string * rate_details)) : Qc :=
  match m with Some (_, details) => rate details | None => 0%Qc end.

Definition rate_type_of (m : option (string * rate_details)) : string :=
  match m with Some (rate_type, _) => rate_type | None => "off_peak"%string end.

Definition solar_rate_of (m : option (string * rate_details)) : option Qc :=
  match m with Some (_, details) => solar_rate details | None => None end.

(** The accumulator [usage_breakdown] read as eight numbers. *)
Record buckets : Type := mk_buckets {
  peak_kwh : Qc; peak_cost : Qc;
  off_peak_kwh : Qc; off_peak_cost : Qc;
  shoulder_kwh : Qc; shoulder_cost : Qc;
  solar_kwh : Qc; solar_credit : Qc
}.

Definition to_usage_breakdown (b : buckets) : dict (dict Qc) :=
  [ ("peak"%string,
      [("kwh"%string, peak_kwh b); ("cost"%string, peak_cost b)]);
    ("off_peak"%string,
      [("kwh"%string, off_peak_kwh b); ("cost"%string, off_peak_cost b)]);
    ("shoulder"%string,
      [("kwh"%string, shoulder_kwh b); ("cost"%string, shoulder_cost b)]);
    ("solar"%string,
      [("kwh"%string, solar_kwh b); ("credit"%string, solar_credit b)]) ].

(** [b] with [kwh] and [cost] added to the bucket called [label]. *)
Definition add_usage (b : buckets) (label : string) (kwh cost : Qc) : buckets :=
  if String.eqb label "peak" then
    mk_buckets (peak_kwh b + kwh) (peak_cost b + cost)
               (off_peak_kwh b) (off_peak_cost b)
               (shoulder_kwh b) (shoulder_cost b)
               (solar_kwh b) (solar_credit b)
  else if String.eqb label "off_peak" then
    mk_buckets (peak_kwh b) (peak_cost b)
               (off_peak_kwh b + kwh) (off_peak_cost b + cost)
               (shoulder_kwh b) (shoulder_cost b)
               (solar_kwh b) (solar_credit b)
  else
    mk_buckets (peak_kwh b) (peak_cost b)
               (off_peak_kwh b) (off_peak_cost b)
               (shoulder_kwh b + kwh) (shoulder_cost b + cost)
               (solar_kwh b) (solar_credit b).

Definition add_solar (b : buckets) (kwh credit : Qc) : buckets :=
  mk_buckets (peak_kwh b) (peak_cost b)
             (off_peak_kwh b) (off_peak_cost b)
             (shoulder_kwh b) (shoulder_cost b)
             (solar_kwh b + kwh) (solar_credit b + credit).

Definition usage_kwh_total (b : buckets) : Qc :=
  (peak_kwh b + off_peak_kwh b + shoulder_kwh b)%Qc.

Definition usage_cost_total (b : buckets) : Qc :=
  (peak_cost b + off_peak_cost b + shoulder_cost b)%Qc.

(** The three labels a usage reading can be billed under. *)
Definition usage_label (name : string) : Prop :=
  name = "peak"%string \/ name = "off_peak"%string \/ name = "shoulder"%string.

(** A tariff configuration is well formed when every rate-type entry of
    every vendor, season and day type is named peak, off_peak or
    shoulder. *)
Definition well_formed (cfg : pricing_config) : Prop :=
  forall vendor v season by_day day_type table name details,
    In (vendor, v) cfg ->
    In (season, by_day) (seasons v) ->
    In (day_type, table) by_day ->
    In (name, details) table ->
    usage_label name.

Definition is_usage {D : Type} (r : row D) : bool :=
  String.eqb (RateTypeDescription r) "Usage".

(** The energy of the [Usage] readings among [rows]. *)
Fixpoint usage_kwh_rows (rows : frame) : Qc :=
  match rows with
  | [] => 0%Qc
  | r :: rest =>
      if is_usage r then (ProfileReadValue r + usage_kwh_rows rest)%Qc
      else usage_kwh_rows rest
  end.

(** The energy of the [Usage] readings of [df] that start on one of
    [dates]. *)
Fixpoint usage_kwh (df : frame) (dates : list Z) : Qc :=
  match dates with
  | [] => 0%Qc
  | date :: rest => (usage_kwh_rows (date_data df date) + usage_kwh df rest)%Qc
  end.

(** *** Sample data *)

Definition qc (n : Z) (d : positive) : Qc := Q2Qc (n # d).

(** Weekdays: peak 14-20 at 0.30 without a feed-in rate, off-peak 22-14
    at 0.20 with a feed-in rate of 0.10; weekends: shoulder 9-17 only.
    The months June to August belong to no season.  Supply charge 1.00
    per day. *)
Definition demo_by_day : dict (dict rate_details) :=
  [ ("weekday"%string,
      [ ("peak"%string, mk_details ["14-20"%string] (qc 3 10) None);
        ("off_peak"%string,
          mk_details ["22-14"%string] (qc 2 10) (Some (qc 1 10))) ]);
    ("weekend"%string,
      [ ("shoulder"%string,
          mk_details ["9-17"%string] (qc 1 4) (Some (qc 1 10))) ]) ].

Definition demo_vendor : vendor_config :=
  mk_vendor [ ("summer"%string, [12; 1; 2]);
              ("standard"%string, [3; 4; 5; 9; 10; 11]) ]
            (qc 1 1)
            [ ("summer"%string, demo_by_day);
              ("standard"%string, demo_by_day) ].

Definition demo_config : pricing_config := [("demo"%string, demo_vendor)].

Definition reading (nmi register kind : string) (start finish : datetime)
    (value : Qc) : row datetime :=
  mk_row ""%string nmi "700813815"%string "COMMS4D"%string register kind
         start (day start) (month start) ((month start - 1) / 3 + 1)
         (year start) finish value 0 "A"%string.

(** Friday 11 October 2024. *)
Definition friday (h m s : Z) : datetime := mk_datetime 2024 10 11 h m s.

(** The scenario of the spec: 2 kWh used at 15:00 and 1 kWh exported at
    12:00 on a weekday. *)
Definition scenario_frame : frame :=
  [ reading "41032871534" "700813815#E1" "Usage"
            (friday 15 0 0) (friday 15 30 0) (qc 2 1);
    reading "41032871534" "700813815#B1" "Solar"
            (friday 12 0 0) (friday 12 30 0) (qc 1 1) ].

(** 1 kWh exported at 15:00 on a weekday, when the matching entry (peak)
    carries no feed-in rate. *)
Definition peak_export_frame : frame :=
  [ reading "41032871534" "700813815#B1" "Solar"
            (friday 15 0 0) (friday 15 30 0) (qc 1 1) ].

(** *** The merge *)


(** The mask [~new_data['_key'].isin(existing_data['_key'])] for one row. *)
Definition is_new (existing_keys : list string) (r : row string) : bool :=
  match new_key r with
  | Ok k => negb (isin k existing_keys)
  | Raise _ => false
  end.

(** A usage row of 4 November 2021 as [_convert_nem12_to_csv_format]
    writes it. *)
Definition converted (start finish : string) (value : Qc) : row string :=
  mk_row ""%string "41032871534"%string "700813815"%string "COMMS4D"%string
         "700813815#E1"%string "Usage"%string start 4 11 4 2021 finish
         value 0 "A"%string.

(** Three half-hour readings of one register. *)
Definition at_0000 (value : Qc) : row string :=
  converted "04/11/2021 00:00:00" "04/11/2021 00:30:00" value.

Definition at_0030 (value : Qc) : row string :=
  converted "04/11/2021 00:30:00" "04/11/2021 01:00:00" value.

Definition at_0100 (value : Qc) : row string :=
  converted "04/11/2021 01:00:00" "04/11/2021 01:30:00" value.

(** ** Further functions of the three modules *)

(** *** main.py: the per-day totals *)

(** [column.sum()] over the [ProfileReadValue] of some rows. *)
Definition sum_values (rows : frame) : Qc :=
  fold_right (fun r total => (ProfileReadValue r + total)%Qc) 0%Qc rows.

(** [get_usage_by_date]: the rows of the day, then those of kind
    ['Usage'], then the sum of their values. *)
Definition get_usage_by_date (df : frame) (date : Z) : Qc :=
  sum_values
    (filter (fun r => String.eqb (RateTypeDescription r) "Usage")
            (date_data df date)).

Definition get_solar_by_date (df : frame) (date : Z) : Qc :=
  sum_values
    (filter (fun r => String.eqb (RateTypeDescription r) "Solar")
            (date_data df date)).

(** *** aemo_data_downloader.py: [_convert_nem12_to_csv_format] *)

(** One row of the frame the NEM12 reader returns.  The columns read with
    [row.get(..., default)] may be missing; ['nmi'], ['t_start'] and
    ['t_end'] are indexed. *)
Record nem12_row : Type := mk_nem12_row {
  nmi : string;
  suffix : option string;
  serno : option string;
  t_start : datetime;
  t_end : datetime;
  value : option Qc;
  quality : option string
}.

(** [s.startswith(c)] for a one-character prefix. *)
Definition startswith (s : string) (c : ascii) : bool :=
  match s with
  | EmptyString => false
  | String c' _ => Ascii.eqb c' c
  end.

(** [t.strftime('%d/%m/%Y %H:%M:%S')] *)
Definition strftime_dmy (t : datetime) : string :=
  (pad2 (day t) ++ "/" ++ pad2 (month t) ++ "/" ++ pad4 (year t) ++ " "
   ++ pad2 (hour t) ++ ":" ++ pad2 (minute t) ++ ":" ++ pad2 (second t))%string.

Definition or_default {A : Type} (o : option A) (default : A) : A :=
  match o with
  | Some a => a
  | None => default
  end.

(** The body of the loop over [nem12_df.iterrows()].  The three branches
    on the suffix build the same register code and differ in the rate
    type. *)
Definition convert_row (r : nem12_row) : row string :=
  let suffix := or_default (suffix r) "E1"%string in
  let rate_type :=
    if startswith suffix "E" then "Usage"%string
    else if startswith suffix "B" then "Solar"%string
    else "Other"%string in
  let register_code :=
    (or_default (serno r) "UNKNOWN" ++ "#" ++ suffix)%string in
  let start_date := t_start r in
  let end_date := t_end r in
  mk_row ""%string (nmi r) (or_default (serno r) "UNKNOWN"%string)
         "COMMS4D"%string register_code rate_type
         (strftime_dmy start_date)
         (day start_date) (month start_date)
         ((month start_date - 1) / 3 + 1) (year start_date)
         (strftime_dmy end_date)
         (or_default (value r) 0%Qc) 0 (or_default (quality r) "A"%string).

Definition _convert_nem12_to_csv_format (nem12_df : list nem12_row)
    : list (row string) :=
  map convert_row nem12_df.

(** ** Further auxiliary definitions *)

(** The rows of a frame with the timestamp they are sorted by. *)
Definition with_start (r : row cell) : result (row cell * datetime) :=
  t <- to_datetime (StartDate r) ;; Ok (r, t).

(** A rational number of whole units. *)
Definition qc_of_nat (n : nat) : Qc := Q2Qc (inject_Z (Z.of_nat n)).

Definition sum_qc (l : list Qc) : Qc :=
  fold_right Qcplus 0%Qc l.

(** The rows of the canonical file, none when it does not exist. *)
Definition file_rows (file : csv_file) : list (row string) :=
  match file with
  | Some rows => rows
  | None => []
  end.

(** The order [sort_values] sorts by. *)
Definition sort_le (a b : row cell * datetime) : Prop := sort_leb a b = true.

(** The mask [new_data['StartDate_dt'] >= from_date] for one row. *)
Definition starts_from (threshold : Z) (r : row string) : bool :=
  match strptime (StartDate r) with
  | Ok start => to_seconds start >=? threshold
  | Raise _ => false
  end.

(** A date of the calendar with a year of four digits and a time of the
    day, to the second.  A [pd.Timestamp] without a fraction of a second
    is one: its years lie between 1677 and 2262. *)
Definition is_datetime (t : datetime) : Prop :=
  valid_datetime t = true
  /\ 1000 <= year t <= 9999
  /\ 0 <= hour t /\ 0 <= minute t /\ 0 <= second t.

(** Seconds since midnight. *)
Definition time_of_day (t : datetime) : Z :=
  hour t * 3600 + minute t * 60 + second t.

(** A tariff for October whose only weekday entry is named
    "super_peak". *)
Definition super_peak_config : pricing_config :=
  [ ("super"%string,
      mk_vendor [("all"%string, [10])] (qc 1 1)
        [ ("all"%string,
            [ ("weekday"%string,
                [ ("super_peak"%string,
                    mk_details ["14-20"%string] (qc 1 2) None) ]) ]) ]) ].

(** The E1 and B1 channels of one meter over one half hour, as the
    reader returns them. *)
Definition nem_e1 : nem12_row :=
  mk_nem12_row "41032871534" (Some "E1"%string) (Some "700813815"%string)
               (mk_datetime 2021 11 4 0 0 0) (mk_datetime 2021 11 4 0 30 0)
               (Some (qc 174 1000)) (Some "A"%string).

Definition nem_b1 : nem12_row :=
  mk_nem12_row "41032871534" (Some "B1"%string) (Some "700813815"%string)
               (mk_datetime 2021 11 4 0 0 0) (mk_datetime 2021 11 4 0 30 0)
               (Some (qc 1 20)) (Some "A"%string).

(** *** The readings a range bills *)

(** A calendar day is billed by a range when it is the start day or a
    later one and the instant as many whole days after [start_date] is
    not after [end_date]. *)
Definition billed_day (start_date end_date : datetime) (d : Z) : bool :=
  (toordinal start_date <=? d)
  && (to_seconds start_date + (d - toordinal start_date) * 86400
      <=? to_seconds end_date).

(** The [Usage] readings of [df] that start on a billed day of the
    range. *)
Definition billed_usage (df : frame) (start_date end_date : datetime)
    : frame :=
  filter (fun r => is_usage r
                   && billed_day start_date end_date (toordinal (StartDate r)))
         df.

(** Readings of four days: Thursday 10 October 2024 (8 kWh used at
    10:00), Friday 11 (2 kWh used at 15:00, 1 kWh exported at 12:00),
    Saturday 12 (1 kWh used at 10:00) and Monday 14 (4 kWh used at
    10:00). *)
Definition four_day_frame : frame :=
  [ reading "41032871534" "700813815#E1" "Usage"
            (mk_datetime 2024 10 10 10 0 0) (mk_datetime 2024 10 10 10 30 0)
            (qc 8 1);
    reading "41032871534" "700813815#E1" "Usage"
            (friday 15 0 0) (friday 15 30 0) (qc 2 1);
    reading "41032871534" "700813815#B1" "Solar"
            (friday 12 0 0) (friday 12 30 0) (qc 1 1);
    reading "41032871534" "700813815#E1" "Usage"
            (mk_datetime 2024 10 12 10 0 0) (mk_datetime 2024 10 12 10 30 0)
            (qc 1 1);
    reading "41032871534" "700813815#E1" "Usage"
            (mk_datetime 2024 10 14 10 0 0) (mk_datetime 2024 10 14 10 30 0)
            (qc 4 1) ]%string.

(** *** Files the importer reads back as it wrote them *)

(** The text columns of a row are recorded here as strings.  [read_csv]
    types a column by its content: a column of whole numbers comes back
    as integers (a leading zero or a sign is lost), and cells such as
    [NA], [nan] or the empty cell come back as missing values.
    [read_as_written] describes the files whose cells come back,
    through [astype(str)], as they were written. *)

Definition is_digit (c : ascii) : bool :=
  let n := Z.of_nat (nat_of_ascii c) in (48 <=? n) && (n <=? 57).

Definition is_letter (c : ascii) : bool :=
  let n := Z.of_nat (nat_of_ascii c) in
  ((65 <=? n) && (n <=? 90)) || ((97 <=? n) && (n <=? 122)).


(** Text that is neither a number, a truth value nor a missing value for
    [read_csv]: letters, digits and ['#'] only, and either a ['#'] in it
    (["#NA"] apart) or a first letter other than those of [NA], [NaN],
    [null], [None], [true], [false] and [inf]. *)
Definition label (s : string) : bool :=
  match s with
  | EmptyString => false
  | String c _ =>
      forallb (fun x => is_letter x || is_digit x || Ascii.eqb x "#"%char)
              (list_ascii_of_string s)
      && negb (String.eqb s "#NA"%string)
      && (existsb (Ascii.eqb "#"%char) (list_ascii_of_string s)
          || (is_letter c
              && negb (existsb (Ascii.eqb c)
                         ["N"; "n"; "T"; "t"; "F"; "f"; "I"; "i"]%char)))
  end.




(** A whole-second timestamp well inside the range of [pd.Timestamp]
    (21 September 1677 to 11 April 2262). *)
Definition is_timestamp (t : datetime) : Prop :=
  valid_datetime t = true
  /\ 1678 <= year t <= 2261
  /\ 0 <= hour t /\ 0 <= minute t /\ 0 <= second t.



(** *** The outcome of a persist *)




(** ** The billing arithmetic as the interpreter computes it *)

(** [Float64] holds the tariff queries and the two range aggregations once
    more, word for word as above, with every amount a binary64 number
    and every addition, subtraction and multiplication the IEEE 754
    operation Python's [float] performs.  The definitions above add the
    same amounts exactly. *)
Module Float64.

Import Corelib.Floats.PrimFloat.

Local Open Scope string_scope.
Local Open Scope list_scope.
Local Open Scope Z_scope.
Local Set Warnings "-inexact-float".

Record rate_details : Type := mk_details {
  hours : list string;
  rate : float;
  solar_rate : option float
}.

Record vendor_config : Type := mk_vendor {
  periods : dict (list Z);
  supply_charge : float;
  seasons : dict (dict (dict rate_details))
}.

Definition pricing_config : Type := dict vendor_config.

Definition _get_season (cfg : pricing_config) (vendor : string)
    (timestamp : datetime) : result (option string) :=
  v <- getitem cfg vendor ;;
  Ok (season_of_month (month timestamp) (periods v)).

Definition vendor_rates_of (cfg : pricing_config) (vendor : string)
    (season : option string) (day_type : string) : result (dict rate_details) :=
  v <- getitem cfg vendor ;;
  match season with
  | None => Raise KeyError
  | Some s => by_day <- getitem (seasons v) s ;; getitem by_day day_type
  end.

Fixpoint get_rate_loop (hour : Z) (items : dict rate_details) : result float :=
  match items with
  | [] => Ok 0%float
  | (rate_type, details) :: rest =>
      inside <- _is_hour_in_range hour (hours details) ;;
      if inside then Ok (rate details) else get_rate_loop hour rest
  end.

Definition get_rate (cfg : pricing_config) (vendor : string)
    (timestamp : datetime) : result float :=
  season <- _get_season cfg vendor timestamp ;;
  let day_type := day_type_of timestamp in
  let hour := hour timestamp in
  vendor_rates <- vendor_rates_of cfg vendor season day_type ;;
  get_rate_loop hour vendor_rates.

Fixpoint get_solar_rate_loop (hour : Z) (items : dict rate_details)
    : result (option float) :=
  match items with
  | [] => Ok None
  | (rate_type, details) :: rest =>
      inside <- _is_hour_in_range hour (hours details) ;;
      if inside then Ok (solar_rate details) else get_solar_rate_loop hour rest
  end.

Definition get_solar_rate (cfg : pricing_config) (vendor : string)
    (timestamp : datetime) : result (option float) :=
  season <- _get_season cfg vendor timestamp ;;
  let day_type := day_type_of timestamp in
  let hour := hour timestamp in
  vendor_rates <- vendor_rates_of cfg vendor season day_type ;;
  get_solar_rate_loop hour vendor_rates.

Definition get_supply_charge (cfg : pricing_config) (vendor : string)
    : result float :=
  v <- getitem cfg vendor ;;
  Ok (supply_charge v).

Fixpoint get_rate_type_loop (hour : Z) (items : dict rate_details)
    : result string :=
  match items with
  | [] => Ok "off_peak"
  | (rate_type, details) :: rest =>
      inside <- _is_hour_in_range hour (hours details) ;;
      if inside then Ok rate_type else get_rate_type_loop hour rest
  end.

Definition get_rate_type (cfg : pricing_config) (vendor : string)
    (timestamp : datetime) : result string :=
  period <- _get_season cfg vendor timestamp ;;
  let day_type := day_type_of timestamp in
  let hour := hour timestamp in
  vendor_rates <- vendor_rates_of cfg vendor period day_type ;;
  get_rate_type_loop hour vendor_rates.

(** The columns of [self.df] the aggregations read. *)
Record row : Type := mk_row {
  RateTypeDescription : string;
  StartDate : datetime;
  ProfileReadValue : float
}.

Definition frame : Type := list row.

Definition date_data (df : frame) (date : Z) : frame :=
  filter (fun r => toordinal (StartDate r) =? date) df.

Section Aggregator.

Variable cfg : pricing_config.
Variable df : frame.

Fixpoint calculate_cost_rows (vendor : string) (rows : frame)
    (total_cost : float) : result float :=
  match rows with
  | [] => Ok total_cost
  | r :: rest =>
      if String.eqb (RateTypeDescription r) "Usage" then
        rate <- get_rate cfg vendor (StartDate r) ;;
        calculate_cost_rows vendor rest
          (total_cost + ProfileReadValue r * rate)%float
      else calculate_cost_rows vendor rest total_cost
  end.

Definition calculate_cost (date : Z) (vendor : string) : result float :=
  calculate_cost_rows vendor (date_data df date) 0%float.

Definition mul_rate (value : float) (rate : option float) : result float :=
  match rate with
  | Some r => Ok (value * r)%float
  | None => Raise TypeError
  end.

Fixpoint calculate_solar_feedin_rows (vendor : string) (rows : frame)
    (total_credit : float) : result float :=
  match rows with
  | [] => Ok total_credit
  | r :: rest =>
      if String.eqb (RateTypeDescription r) "Solar" then
        rate <- get_solar_rate cfg vendor (StartDate r) ;;
        credit <- mul_rate (ProfileReadValue r) rate ;;
        calculate_solar_feedin_rows vendor rest (total_credit + credit)%float
      else calculate_solar_feedin_rows vendor rest total_credit
  end.

Definition calculate_solar_feedin (date : Z) (vendor : string) : result float :=
  calculate_solar_feedin_rows vendor (date_data df date) 0%float.

Record cost_range : Type := mk_cost_range {
  daily_costs : list (Z * float);
  daily_solar : list (Z * float);
  total_usage_cost : float;
  total_solar_credit : float;
  cr_total_supply_charges : float;
  cr_net_cost : float;
  cr_start_date : Z;
  cr_end_date : Z;
  cr_total_days : Z;
  cr_vendor : string
}.

Record range_state : Type := mk_range_state {
  rs_daily_costs : list (Z * float);
  rs_daily_solar : list (Z * float);
  rs_total_cost : float;
  rs_total_solar : float;
  rs_total_supply_charges : float;
  rs_total_days : Z
}.

Fixpoint calculate_cost_range_days (vendor : string) (dates : list Z)
    (st : range_state) : result range_state :=
  match dates with
  | [] => Ok st
  | date :: rest =>
      let total_days := rs_total_days st + 1 in
      usage_cost <- calculate_cost date vendor ;;
      solar_credit <- calculate_solar_feedin date vendor ;;
      supply_charges <- get_supply_charge cfg vendor ;;
      calculate_cost_range_days vendor rest
        (mk_range_state
           (rs_daily_costs st ++ [(date, usage_cost)])
           (rs_daily_solar st ++ [(date, solar_credit)])
           (rs_total_cost st + usage_cost)%float
           (rs_total_solar st + solar_credit)%float
           (rs_total_supply_charges st + supply_charges)%float
           total_days)
  end.

Definition calculate_cost_range (start_date end_date : datetime)
    (vendor : string) : result cost_range :=
  st <- calculate_cost_range_days vendor (date_range start_date end_date)
          (mk_range_state [] [] 0%float 0%float 0%float 0) ;;
  let net_cost :=
    (rs_total_cost st - rs_total_solar st + rs_total_supply_charges st)%float in
  Ok (mk_cost_range (rs_daily_costs st) (rs_daily_solar st)
        (rs_total_cost st) (rs_total_solar st) (rs_total_supply_charges st)
        net_cost (toordinal start_date) (toordinal end_date)
        (rs_total_days st) vendor).

Definition usage_breakdown_init : dict (dict float) :=
  [ ("peak",     [("kwh", 0%float); ("cost", 0%float)]);
    ("off_peak", [("kwh", 0%float); ("cost", 0%float)]);
    ("shoulder", [("kwh", 0%float); ("cost", 0%float)]);
    ("solar",    [("kwh", 0%float); ("credit", 0%float)]) ].

Definition add_to (ub : dict (dict float)) (k1 k2 : string)
    (rhs : result float) : result (dict (dict float)) :=
  inner <- getitem ub k1 ;;
  old <- getitem inner k2 ;;
  v <- rhs ;;
  Ok (setitem ub k1 (setitem inner k2 (old + v)%float)).

Fixpoint breakdown_rows (vendor : string) (rows : frame)
    (ub : dict (dict float)) : result (dict (dict float)) :=
  match rows with
  | [] => Ok ub
  | r :: rest =>
      if String.eqb (RateTypeDescription r) "Usage" then
        rate <- get_rate cfg vendor (StartDate r) ;;
        rate_type <- get_rate_type cfg vendor (StartDate r) ;;
        ub1 <- add_to ub rate_type "kwh" (Ok (ProfileReadValue r)) ;;
        ub2 <- add_to ub1 rate_type "cost"
                 (Ok (ProfileReadValue r * rate)%float) ;;
        breakdown_rows vendor rest ub2
      else if String.eqb (RateTypeDescription r) "Solar" then
        solar_rate <- get_solar_rate cfg vendor (StartDate r) ;;
        ub1 <- add_to ub "solar" "kwh" (Ok (ProfileReadValue r)) ;;
        ub2 <- add_to ub1 "solar" "credit"
                 (mul_rate (ProfileReadValue r) solar_rate) ;;
        breakdown_rows vendor rest ub2
      else breakdown_rows vendor rest ub
  end.

Record breakdown_state : Type := mk_breakdown_state {
  bs_usage_breakdown : dict (dict float);
  bs_total_supply_charges : float;
  bs_total_days : Z
}.

Fixpoint breakdown_days (vendor : string) (dates : list Z)
    (st : breakdown_state) : result breakdown_state :=
  match dates with
  | [] => Ok st
  | date :: rest =>
      let total_days := bs_total_days st + 1 in
      let rows := date_data df date in
      supply_charge <- get_supply_charge cfg vendor ;;
      let total_supply_charges :=
        (bs_total_supply_charges st + supply_charge)%float in
      ub <- breakdown_rows vendor rows (bs_usage_breakdown st) ;;
      breakdown_days vendor rest
        (mk_breakdown_state ub total_supply_charges total_days)
  end.

(** [x == y] on two values of a dictionary: equal numbers, or one and
    the same object (a NaN is equal to itself there). *)
Definition same_value (x y : float) : bool :=
  (x =? y)%float || (is_nan x && is_nan y).

(** [a == b] on two dictionaries: the same keys with equal values. *)
Definition dict_eqb (a b : dict float) : bool :=
  Nat.eqb (List.length a) (List.length b)
  && forallb (fun kv => match dict_get b (fst kv) with
                        | Some v' => same_value (snd kv) v'
                        | None => false
                        end) a.

(** [sum(period[field] for period in usage_breakdown.values()
         if period != usage_breakdown['solar'])], added from 0 on, left to
    right.  (From CPython 3.12 on [sum] also carries a compensation
    term; it vanishes when at most one term is not zero.) *)
Fixpoint sum_periods (field : string) (ub : dict (dict float))
    (ps : list (dict float)) (acc : float) : result float :=
  match ps with
  | [] => Ok acc
  | period :: rest =>
      solar <- getitem ub "solar" ;;
      if dict_eqb period solar then sum_periods field ub rest acc
      else v <- getitem period field ;;
           sum_periods field ub rest (acc + v)%float
  end.

Record detailed_breakdown : Type := mk_detailed_breakdown {
  breakdown : dict (dict float);
  total_usage : float;
  total_cost : float;
  total_supply_charges : float;
  sub_total_cost : float;
  net_cost : float;
  total_days : Z;
  start_date : Z;
  end_date : Z;
  vendor_name : string
}.

Definition calculate_detailed_breakdown (start_date end_date : datetime)
    (vendor : string) : result detailed_breakdown :=
  st <- breakdown_days vendor (date_range start_date end_date)
          (mk_breakdown_state usage_breakdown_init 0%float 0) ;;
  let usage_breakdown := bs_usage_breakdown st in
  total_usage <- sum_periods "kwh" usage_breakdown
                   (values usage_breakdown) 0%float ;;
  total_cost <- sum_periods "cost" usage_breakdown
                  (values usage_breakdown) 0%float ;;
  let sub_total_cost := (total_cost + bs_total_supply_charges st)%float in
  solar <- getitem usage_breakdown "solar" ;;
  credit <- getitem solar "credit" ;;
  let net_cost := (sub_total_cost - credit)%float in
  Ok (mk_detailed_breakdown usage_breakdown total_usage total_cost
        (bs_total_supply_charges st) sub_total_cost net_cost
        (bs_total_days st) (toordinal start_date) (toordinal end_date)
        vendor).

End Aggregator.

(** Every rate-type entry of the configuration is named after a usage
    bucket. *)
Definition well_formed (cfg : pricing_config) : Prop :=
  forall vendor v season by_day day_type table name details,
    In (vendor, v) cfg ->
    In (season, by_day) (seasons v) ->
    In (day_type, table) by_day ->
    In (name, details) table ->
    usage_label name.

(** *** Sample data *)

(** One season for every month, one entry for every hour of a weekday:
    0.20 per kWh used, 0.10 per kWh exported, 1.00 per day. *)
Definition flat_config : pricing_config :=
  [ ("flat",
      mk_vendor [("all", [1; 2; 3; 4; 5; 6; 7; 8; 9; 10; 11; 12])] 1%float
        [ ("all",
            [ ("weekday",
                [ ("off_peak",
                    mk_details ["0-24"] 0.2%float (Some 0.1%float)) ]) ]) ]) ].

(** The same tariff with a supply charge of 0.10 per day. *)
Definition dime_config : pricing_config :=
  [ ("dime",
      mk_vendor [("all", [1; 2; 3; 4; 5; 6; 7; 8; 9; 10; 11; 12])] 0.1%float
        [ ("all",
            [ ("weekday",
                [ ("off_peak",
                    mk_details ["0-24"] 0.2%float (Some 0.1%float)) ]) ]) ]) ].

(** Friday 11 October 2024: 1 kWh used at 15:00 and 1 kWh exported at
    12:00. *)
Definition flat_frame : frame :=
  [ mk_row "Usage" (friday 15 0 0) 1%float;
    mk_row "Solar" (friday 12 0 0) 1%float ].

End Float64.

(* ===================================================================== *)
(** * Part II: properties                                                  *)
(* ===================================================================== *)

(** ** The tariff resolver *)

Module Resolver.

Local Open Scope string_scope.
Local Open Scope list_scope.
Local Open Scope Z_scope.

Lemma getitem_found {V : Type} (d : dict V) (k : string) (v : V) :
  dict_get d k = Some v -> getitem d k = Ok v.
Proof. unfold getitem. intros ->. reflexivity. Qed.

Lemma getitem_missing {V : Type} (d : dict V) (k : string) :
  dict_get d k = None -> getitem d k = Raise KeyError.
Proof. unfold getitem. intros ->. reflexivity. Qed.

(** Splits a goal about an hour of the day into its 24 cases and
    evaluates each. *)
Ltac hours_of_day h :=
  let Hcases := fresh "Hcases" in
  assert (Hcases : h = 0 \/ h = 1 \/ h = 2 \/ h = 3 \/ h = 4 \/ h = 5
                   \/ h = 6 \/ h = 7 \/ h = 8 \/ h = 9 \/ h = 10
                   \/ h = 11 \/ h = 12 \/ h = 13 \/ h = 14 \/ h = 15
                   \/ h = 16 \/ h = 17 \/ h = 18 \/ h = 19 \/ h = 20
                   \/ h = 21 \/ h = 22 \/ h = 23) by lia;
  repeat (destruct Hcases as [-> | Hcases]; [reflexivity|]);
  subst h; reflexivity.

Lemma is_hour_in_range_cons (hour : Z) (range : string) (rest : list string)
    (start end_ : Z) :
  parse_hour_range range = Ok (start, end_) ->
  _is_hour_in_range hour (range :: rest) =
    if range_contains start end_ hour then Ok true
    else _is_hour_in_range hour rest.
Proof.
  intros Hparse. simpl. rewrite Hparse. simpl. unfold range_contains.
  destruct (start <? end_); reflexivity.
Qed.

Lemma range_contains_normal (start end_ hour : Z) :
  start < end_ ->
  (range_contains start end_ hour = true <-> start <= hour < end_).
Proof.
  intros Hlt. unfold range_contains.
  apply Z.ltb_lt in Hlt. rewrite Hlt.
  rewrite andb_true_iff, Z.leb_le, Z.ltb_lt. tauto.
Qed.

Lemma range_contains_wrapping (start end_ hour : Z) :
  start >= end_ ->
  (range_contains start end_ hour = true <-> hour >= start \/ hour < end_).
Proof.
  intros Hge. unfold range_contains.
  assert (Hnlt : (start <? end_) = false) by (apply Z.ltb_ge; lia).
  rewrite Hnlt, orb_true_iff, Z.geb_le, Z.ltb_lt. lia.
Qed.

(** X1.  With several ranges, the hour is inside when one of them contains
    it. *)
Lemma is_hour_in_range_any (hour : Z) (ranges : list string)
    (parsed : list (Z * Z)) :
  mapM parse_hour_range ranges = Ok parsed ->
  _is_hour_in_range hour ranges =
    Ok (existsb (fun r => range_contains (fst r) (snd r) hour) parsed).
Proof.
  revert parsed. induction ranges as [| range rest IH]; intros parsed.
  - intros [= <-]. reflexivity.
  - cbn [mapM].
    destruct (parse_hour_range range) as [[start end_]|] eqn:Hparse;
      cbn [bind]; [|discriminate].
    destruct (mapM parse_hour_range rest) as [parsed'|]; cbn [bind];
      [|discriminate].
    intros [= <-].
    rewrite (is_hour_in_range_cons _ _ _ _ _ Hparse), (IH parsed' eq_refl).
    cbn [existsb fst snd].
    destruct (range_contains start end_ hour); reflexivity.
Qed.

(** C7.  For an hour of the day and a configured range that reads as
    [start-end]: the range contains the hour exactly when
    [start <= hour < end] if [start < end], and exactly when
    [hour >= start] or [hour < end] if [start >= end] (the range wraps past
    midnight).  In particular "22-8" matches the hours 22, 23, 0..7 and no
    others, and "9-17" matches 9..16 and not 17. *)
Theorem hour_range_containment (hour : Z) :
  0 <= hour <= 23 ->
  (forall range start end_,
      parse_hour_range range = Ok (start, end_) ->
      exists inside,
        _is_hour_in_range hour [range] = Ok inside
        /\ (start < end_ -> (inside = true <-> start <= hour < end_))
        /\ (start >= end_ ->
            (inside = true <-> hour >= start \/ hour < end_)))
  /\ _is_hour_in_range hour ["22-8"] =
       Ok (existsb (Z.eqb hour) [22; 23; 0; 1; 2; 3; 4; 5; 6; 7])
  /\ _is_hour_in_range hour ["9-17"] =
       Ok (existsb (Z.eqb hour) [9; 10; 11; 12; 13; 14; 15; 16]).
Proof.
  intros Hhour. split; [|split].
  - intros range start end_ Hparse.
    exists (range_contains start end_ hour). split; [|split].
    + rewrite (is_hour_in_range_cons _ _ _ _ _ Hparse). simpl.
      destruct (range_contains start end_ hour); reflexivity.
    + apply range_contains_normal.
    + apply range_contains_wrapping.
  - hours_of_day hour.
  - hours_of_day hour.
Qed.

(** Hour 23 lies in "22-8", a range that wraps past midnight. *)
Lemma hour_range_containment_witness :
  0 <= 23 <= 23
  /\ parse_hour_range "22-8" = Ok (22, 8)
  /\ exists inside,
       _is_hour_in_range 23 ["22-8"] = Ok inside
       /\ (22 < 8 -> (inside = true <-> 22 <= 23 < 8))
       /\ (22 >= 8 -> (inside = true <-> 23 >= 22 \/ 23 < 8)).
Proof.
  split; [lia|]. split; [reflexivity|].
  apply (proj1 (hour_range_containment 23 ltac:(lia)) "22-8" 22 8).
  reflexivity.
Defined.

(** The three loops walk the table in the same way. *)
Lemma get_rate_loop_first_match (hour : Z) (items : dict rate_details) :
  get_rate_loop hour items = m <- first_match hour items ;; Ok (rate_of m).
Proof.
  induction items as [| [rate_type details] rest IH]; simpl; [reflexivity|].
  destruct (_is_hour_in_range hour (hours details)) as [[|]|e]; simpl;
    auto.
Qed.

Lemma get_rate_type_loop_first_match (hour : Z) (items : dict rate_details) :
  get_rate_type_loop hour items =
    m <- first_match hour items ;; Ok (rate_type_of m).
Proof.
  induction items as [| [rate_type details] rest IH]; simpl; [reflexivity|].
  destruct (_is_hour_in_range hour (hours details)) as [[|]|e]; simpl;
    auto.
Qed.

Lemma get_solar_rate_loop_first_match (hour : Z) (items : dict rate_details) :
  get_solar_rate_loop hour items =
    m <- first_match hour items ;; Ok (solar_rate_of m).
Proof.
  induction items as [| [rate_type details] rest IH]; simpl; [reflexivity|].
  destruct (_is_hour_in_range hour (hours details)) as [[|]|e]; simpl;
    auto.
Qed.

Lemma get_rate_resolve cfg vendor timestamp :
  get_rate cfg vendor timestamp =
    m <- resolve cfg vendor timestamp ;; Ok (rate_of m).
Proof.
  unfold get_rate, resolve.
  destruct (_get_season cfg vendor timestamp) as [season|e]; simpl; auto.
  destruct (vendor_rates_of cfg vendor season (day_type_of timestamp));
    simpl; auto.
  apply get_rate_loop_first_match.
Qed.

Lemma get_rate_type_resolve cfg vendor timestamp :
  get_rate_type cfg vendor timestamp =
    m <- resolve cfg vendor timestamp ;; Ok (rate_type_of m).
Proof.
  unfold get_rate_type, resolve.
  destruct (_get_season cfg vendor timestamp) as [season|e]; simpl; auto.
  destruct (vendor_rates_of cfg vendor season (day_type_of timestamp));
    simpl; auto.
  apply get_rate_type_loop_first_match.
Qed.

Lemma get_solar_rate_resolve cfg vendor timestamp :
  get_solar_rate cfg vendor timestamp =
    m <- resolve cfg vendor timestamp ;; Ok (solar_rate_of m).
Proof.
  unfold get_solar_rate, resolve.
  destruct (_get_season cfg vendor timestamp) as [season|e]; simpl; auto.
  destruct (vendor_rates_of cfg vendor season (day_type_of timestamp));
    simpl; auto.
  apply get_solar_rate_loop_first_match.
Qed.

Lemma first_match_none (hour : Z) (items : dict rate_details) :
  (forall rate_type details,
      In (rate_type, details) items ->
      _is_hour_in_range hour (hours details) = Ok false) ->
  first_match hour items = Ok None.
Proof.
  induction items as [| [rate_type details] rest IH]; intros Hnone; simpl;
    [reflexivity|].
  rewrite (Hnone rate_type details (or_introl eq_refl)). simpl.
  apply IH. intros rt d Hin. apply (Hnone rt d). right. exact Hin.
Qed.

Lemma first_match_split (hour : Z) (before after : dict rate_details)
    (rate_type : string) (details : rate_details) :
  (forall rt d, In (rt, d) before ->
                _is_hour_in_range hour (hours d) = Ok false) ->
  _is_hour_in_range hour (hours details) = Ok true ->
  first_match hour (before ++ (rate_type, details) :: after) =
    Ok (Some (rate_type, details)).
Proof.
  induction before as [| [rt d] rest IH]; intros Hbefore Hhit; simpl.
  - rewrite Hhit. reflexivity.
  - rewrite (Hbefore rt d (or_introl eq_refl)). simpl.
    apply IH; [|exact Hhit].
    intros rt' d' Hin. apply (Hbefore rt' d'). right. exact Hin.
Qed.

Lemma season_of_month_none (m : Z) (ps : dict (list Z)) :
  (forall season months, In (season, months) ps -> ~ In m months) ->
  season_of_month m ps = None.
Proof.
  induction ps as [| [season months] rest IH]; intros Hnone; simpl;
    [reflexivity|].
  destruct (existsb (Z.eqb m) months) eqn:Hex.
  - apply existsb_exists in Hex. destruct Hex as [x [Hin Heq]].
    apply Z.eqb_eq in Heq. subst x.
    exfalso. exact (Hnone season months (or_introl eq_refl) Hin).
  - apply IH. intros s ms Hin. apply (Hnone s ms). right. exact Hin.
Qed.

Lemma resolve_no_season cfg vendor timestamp v :
  dict_get cfg vendor = Some v ->
  season_of_month (month timestamp) (periods v) = None ->
  resolve cfg vendor timestamp = Raise KeyError.
Proof.
  intros Hv Hseason. unfold resolve, _get_season, vendor_rates_of.
  rewrite (getitem_found _ _ _ Hv). simpl. rewrite Hseason. reflexivity.
Qed.

Lemma resolve_table cfg vendor timestamp v season by_day table :
  dict_get cfg vendor = Some v ->
  season_of_month (month timestamp) (periods v) = Some season ->
  dict_get (seasons v) season = Some by_day ->
  dict_get by_day (day_type_of timestamp) = Some table ->
  resolve cfg vendor timestamp = first_match (hour timestamp) table.
Proof.
  intros Hv Hseason Hby Htable. unfold resolve, _get_season, vendor_rates_of.
  rewrite (getitem_found _ _ _ Hv). simpl. rewrite Hseason.
  rewrite (getitem_found _ _ _ Hby). simpl.
  rewrite (getitem_found _ _ _ Htable). reflexivity.
Qed.

(** C8.  When no season of the vendor's ['periods'] object contains the
    month of the timestamp, the rate, rate-type and solar-rate queries
    raise [KeyError] (the spec's ConfigNotFound); when the vendor is not in
    the configuration, so does the supply-charge query.  The result is the
    raised exception, not a default value. *)
Theorem config_not_found (cfg : pricing_config) (vendor : string)
    (timestamp : datetime) :
  (forall v,
      dict_get cfg vendor = Some v ->
      (forall season months,
          In (season, months) (periods v) ->
          ~ In (month timestamp) months) ->
      get_rate cfg vendor timestamp = Raise KeyError
      /\ get_rate_type cfg vendor timestamp = Raise KeyError
      /\ get_solar_rate cfg vendor timestamp = Raise KeyError)
  /\ (dict_get cfg vendor = None ->
      get_supply_charge cfg vendor = Raise KeyError).
Proof.
  split.
  - intros v Hv Hnone.
    pose proof (resolve_no_season cfg vendor timestamp v Hv
                  (season_of_month_none _ _ Hnone)) as Hres.
    rewrite get_rate_resolve, get_rate_type_resolve, get_solar_rate_resolve.
    rewrite Hres. simpl. repeat split.
  - intros Hmissing. unfold get_supply_charge.
    rewrite (getitem_missing _ _ Hmissing). reflexivity.
Qed.

(** C9.  When vendor, season and day type resolve to a table none of whose
    entries contains the hour, [get_rate] returns 0.0, [get_rate_type]
    returns ['off_peak'] and [get_solar_rate] returns [None]; none of them
    raises. *)
Theorem unmatched_hour_fallbacks (cfg : pricing_config) (vendor : string)
    (timestamp : datetime) (v : vendor_config) (season : string)
    (by_day : dict (dict rate_details)) (table : dict rate_details) :
  dict_get cfg vendor = Some v ->
  season_of_month (month timestamp) (periods v) = Some season ->
  dict_get (seasons v) season = Some by_day ->
  dict_get by_day (day_type_of timestamp) = Some table ->
  (forall rate_type details,
      In (rate_type, details) table ->
      _is_hour_in_range (hour timestamp) (hours details) = Ok false) ->
  get_rate cfg vendor timestamp = Ok 0%Qc
  /\ get_rate_type cfg vendor timestamp = Ok "off_peak"
  /\ get_solar_rate cfg vendor timestamp = Ok None.
Proof.
  intros Hv Hseason Hby Htable Hnone.
  pose proof (resolve_table _ _ _ _ _ _ _ Hv Hseason Hby Htable) as Hres.
  rewrite (first_match_none _ _ Hnone) in Hres.
  rewrite get_rate_resolve, get_rate_type_resolve, get_solar_rate_resolve.
  rewrite Hres. simpl. repeat split.
Qed.

(** C10.  When vendor, season and day type resolve to a table in which
    some entry contains the hour, the three queries stop at the same
    entry, the first such one in configured order: the rate, the label and
    the solar rate returned are those of that single entry. *)
Theorem first_match_consistent (cfg : pricing_config) (vendor : string)
    (timestamp : datetime) (v : vendor_config) (season : string)
    (by_day : dict (dict rate_details))
    (before after : dict rate_details)
    (rate_type : string) (details : rate_details) :
  dict_get cfg vendor = Some v ->
  season_of_month (month timestamp) (periods v) = Some season ->
  dict_get (seasons v) season = Some by_day ->
  dict_get by_day (day_type_of timestamp) =
    Some (before ++ (rate_type, details) :: after) ->
  (forall rt d,
      In (rt, d) before ->
      _is_hour_in_range (hour timestamp) (hours d) = Ok false) ->
  _is_hour_in_range (hour timestamp) (hours details) = Ok true ->
  get_rate cfg vendor timestamp = Ok (rate details)
  /\ get_rate_type cfg vendor timestamp = Ok rate_type
  /\ get_solar_rate cfg vendor timestamp = Ok (solar_rate details).
Proof.
  intros Hv Hseason Hby Htable Hbefore Hhit.
  pose proof (resolve_table _ _ _ _ _ _ _ Hv Hseason Hby Htable) as Hres.
  rewrite (first_match_split _ _ _ _ _ Hbefore Hhit) in Hres.
  rewrite get_rate_resolve, get_rate_type_resolve, get_solar_rate_resolve.
  rewrite Hres. simpl. repeat split.
Qed.

(** July belongs to no season of the sample vendor, and "nobody" is not a
    vendor of the sample configuration. *)
Lemma config_not_found_witness :
  (get_rate demo_config "demo" (mk_datetime 2024 7 15 15 0 0) = Raise KeyError
   /\ get_rate_type demo_config "demo" (mk_datetime 2024 7 15 15 0 0)
      = Raise KeyError
   /\ get_solar_rate demo_config "demo" (mk_datetime 2024 7 15 15 0 0)
      = Raise KeyError)
  /\ get_supply_charge demo_config "nobody" = Raise KeyError.
Proof.
  split.
  - apply (proj1 (config_not_found demo_config "demo"
                    (mk_datetime 2024 7 15 15 0 0)) demo_vendor).
    + reflexivity.
    + intros season months Hin. simpl in Hin.
      destruct Hin as [Heq | [Heq | []]]; inversion Heq; subst; simpl;
        intros Hmonth; repeat (destruct Hmonth as [Hmonth | Hmonth];
                               [discriminate|]); exact Hmonth.
  - apply (proj2 (config_not_found demo_config "nobody"
                    (mk_datetime 2024 7 15 15 0 0))).
    reflexivity.
Defined.

(** Saturday 12 October 2024 at 20:00: the weekend table only has a
    shoulder entry for 9-17. *)
Lemma unmatched_hour_fallbacks_witness :
  get_rate demo_config "demo" (mk_datetime 2024 10 12 20 0 0) = Ok 0%Qc
  /\ get_rate_type demo_config "demo" (mk_datetime 2024 10 12 20 0 0)
     = Ok "off_peak"
  /\ get_solar_rate demo_config "demo" (mk_datetime 2024 10 12 20 0 0)
     = Ok None.
Proof.
  apply (unmatched_hour_fallbacks demo_config "demo"
           (mk_datetime 2024 10 12 20 0 0) demo_vendor "standard" demo_by_day
           [("shoulder", mk_details ["9-17"] (qc 1 4) (Some (qc 1 10)))]);
    try reflexivity.
  intros rate_type details Hin. simpl in Hin.
  destruct Hin as [Heq | []]. inversion Heq; subst. reflexivity.
Defined.

(** Friday 11 October 2024 at 12:00: the peak entry (14-20) is passed
    over and the off-peak entry (22-14) is selected. *)
Lemma first_match_consistent_witness :
  get_rate demo_config "demo" (friday 12 0 0) = Ok (qc 2 10)
  /\ get_rate_type demo_config "demo" (friday 12 0 0) = Ok "off_peak"
  /\ get_solar_rate demo_config "demo" (friday 12 0 0) = Ok (Some (qc 1 10)).
Proof.
  apply (first_match_consistent demo_config "demo" (friday 12 0 0)
           demo_vendor "standard" demo_by_day
           [("peak", mk_details ["14-20"] (qc 3 10) None)] []
           "off_peak" (mk_details ["22-14"] (qc 2 10) (Some (qc 1 10))));
    try reflexivity.
  intros rt d Hin. simpl in Hin.
  destruct Hin as [Heq | []]. inversion Heq; subst. reflexivity.
Defined.

End Resolver.

(** ** The billing aggregator *)

Module Billing.

Local Open Scope string_scope.
Local Open Scope list_scope.
Local Open Scope Z_scope.

Section AbsentSolarRate.

Variable cfg : pricing_config.
Variable vendor : string.

Lemma raise_is_raise {A : Type} (e : exn) : is_raise (@Raise A e).
Proof. exists e. reflexivity. Qed.

(** A [Solar] reading whose feed-in rate is [None] stops the loop of
    [calculate_solar_feedin], unless an earlier reading already did. *)
Lemma solar_rows_raise (r : row datetime) (rows : frame) :
  In r rows ->
  RateTypeDescription r = "Solar" ->
  get_solar_rate cfg vendor (StartDate r) = Ok None ->
  forall total, is_raise (calculate_solar_feedin_rows cfg vendor rows total).
Proof.
  intros Hin Hkind Hrate.
  induction rows as [| r' rest IH]; intros total; [destruct Hin|].
  simpl. destruct Hin as [-> | Hin].
  - rewrite Hkind, Hrate. simpl. apply raise_is_raise.
  - destruct (RateTypeDescription r' =? "Solar")%string; [|apply IH, Hin].
    destruct (get_solar_rate cfg vendor (StartDate r')) as [[rate|]|e];
      simpl; try apply raise_is_raise.
    apply IH, Hin.
Qed.

Lemma add_to_raise (ub : dict (dict Qc)) (k1 k2 : string) (e : exn) :
  is_raise (add_to ub k1 k2 (Raise e)).
Proof.
  unfold add_to.
  destruct (getitem ub k1) as [inner|e1]; simpl; [|apply raise_is_raise].
  destruct (getitem inner k2); simpl; apply raise_is_raise.
Qed.

Lemma bind_raise {A B : Type} (c : result A) (k : A -> result B) :
  is_raise c -> is_raise (bind c k).
Proof. intros [e ->]. apply raise_is_raise. Qed.

Lemma bind_raise_later {A B : Type} (c : result A) (k : A -> result B) :
  (forall a, is_raise (k a)) -> is_raise (bind c k).
Proof.
  intros Hk. destruct c as [a|e]; simpl; [apply Hk | apply raise_is_raise].
Qed.

(** The same reading stops the row loop of
    [calculate_detailed_breakdown]. *)
Lemma breakdown_rows_raise (r : row datetime) (rows : frame) :
  In r rows ->
  RateTypeDescription r = "Solar" ->
  get_solar_rate cfg vendor (StartDate r) = Ok None ->
  forall ub, is_raise (breakdown_rows cfg vendor rows ub).
Proof.
  intros Hin Hkind Hrate.
  induction rows as [| r' rest IH]; intros ub; [destruct Hin|].
  simpl. destruct Hin as [-> | Hin].
  - rewrite Hkind, Hrate. simpl.
    apply bind_raise_later. intros ub1.
    apply bind_raise. apply add_to_raise.
  - destruct (RateTypeDescription r' =? "Usage")%string.
    + repeat (apply bind_raise_later; intros ?). apply IH, Hin.
    + destruct (RateTypeDescription r' =? "Solar")%string.
      * repeat (apply bind_raise_later; intros ?). apply IH, Hin.
      * apply IH, Hin.
Qed.

Variable df : frame.

Lemma cost_range_days_raise (r : row datetime) (date : Z) (dates : list Z) :
  In date dates ->
  In r (date_data df date) ->
  RateTypeDescription r = "Solar" ->
  get_solar_rate cfg vendor (StartDate r) = Ok None ->
  forall st, is_raise (calculate_cost_range_days cfg df vendor dates st).
Proof.
  intros Hdate Hin Hkind Hrate.
  induction dates as [| d rest IH]; intros st; [destruct Hdate|].
  simpl. destruct Hdate as [-> | Hdate].
  - apply bind_raise_later. intros usage_cost.
    apply bind_raise. unfold calculate_solar_feedin.
    apply (solar_rows_raise r); assumption.
  - repeat (apply bind_raise_later; intros ?). apply IH, Hdate.
Qed.

Lemma breakdown_days_raise (r : row datetime) (date : Z) (dates : list Z) :
  In date dates ->
  In r (date_data df date) ->
  RateTypeDescription r = "Solar" ->
  get_solar_rate cfg vendor (StartDate r) = Ok None ->
  forall st, is_raise (breakdown_days cfg df vendor dates st).
Proof.
  intros Hdate Hin Hkind Hrate.
  induction dates as [| d rest IH]; intros st; [destruct Hdate|].
  simpl. destruct Hdate as [-> | Hdate].
  - apply bind_raise_later. intros supply_charge.
    apply bind_raise. apply (breakdown_rows_raise r); assumption.
  - repeat (apply bind_raise_later; intros ?). apply IH, Hdate.
Qed.

(** C1 (the code departs from the claim).  A [Solar] reading of the
    queried day whose feed-in rate is absent does not contribute a zero
    credit: [calculate_solar_feedin] raises for that day, and
    [calculate_cost_range] and [calculate_detailed_breakdown] raise for
    every range that contains the day.  The exception is [TypeError],
    from multiplying by [None], unless an earlier reading already
    raised. *)
Theorem absent_solar_rate_raises (r : row datetime) (date : Z) :
  In r (date_data df date) ->
  RateTypeDescription r = "Solar" ->
  get_solar_rate cfg vendor (StartDate r) = Ok None ->
  is_raise (calculate_solar_feedin cfg df date vendor)
  /\ forall start_date end_date,
       In date (date_range start_date end_date) ->
       is_raise (calculate_cost_range cfg df start_date end_date vendor)
       /\ is_raise
            (calculate_detailed_breakdown cfg df start_date end_date vendor).
Proof.
  intros Hin Hkind Hrate. split.
  - unfold calculate_solar_feedin. apply (solar_rows_raise r); assumption.
  - intros start_date end_date Hdate. split.
    + unfold calculate_cost_range. apply bind_raise.
      apply (cost_range_days_raise r date); assumption.
    + unfold calculate_detailed_breakdown. apply bind_raise.
      apply (breakdown_days_raise r date); assumption.
Qed.

End AbsentSolarRate.

(** One kWh exported at 15:00 on a weekday of the sample tariff, whose
    peak entry has no feed-in rate: the three aggregations raise. *)
Lemma absent_solar_rate_raises_witness :
  is_raise (calculate_solar_feedin demo_config peak_export_frame
              (toordinal (friday 0 0 0)) "demo")
  /\ is_raise (calculate_cost_range demo_config peak_export_frame
                 (friday 0 0 0) (friday 0 0 0) "demo")
  /\ is_raise (calculate_detailed_breakdown demo_config peak_export_frame
                 (friday 0 0 0) (friday 0 0 0) "demo").
Proof.
  destruct (absent_solar_rate_raises demo_config "demo" peak_export_frame
              (reading "41032871534" "700813815#B1" "Solar"
                       (friday 15 0 0) (friday 15 30 0) (qc 1 1))
              (toordinal (friday 0 0 0)))
    as [Hday Hrange].
  - simpl. left. reflexivity.
  - reflexivity.
  - reflexivity.
  - split; [exact Hday|].
    apply (Hrange (friday 0 0 0) (friday 0 0 0)).
    simpl. left. reflexivity.
Defined.

(** The exception at that input is [TypeError]. *)
Lemma absent_solar_rate_type_error :
  get_solar_rate demo_config "demo" (friday 15 0 0) = Ok None
  /\ calculate_solar_feedin demo_config peak_export_frame
       (toordinal (friday 0 0 0)) "demo" = Raise TypeError
  /\ calculate_cost_range demo_config peak_export_frame
       (friday 0 0 0) (friday 0 0 0) "demo" = Raise TypeError
  /\ calculate_detailed_breakdown demo_config peak_export_frame
       (friday 0 0 0) (friday 0 0 0) "demo" = Raise TypeError.
Proof. repeat split; vm_compute; reflexivity. Qed.

(** *** Failures of the resolver reach the caller of the aggregation *)

Section Propagation.

Variable cfg : pricing_config.
Variable vendor : string.
Variable df : frame.

Lemma usage_rows_raise (r : row datetime) (rows : frame) :
  In r rows ->
  RateTypeDescription r = "Usage" ->
  is_raise (get_rate cfg vendor (StartDate r)) ->
  forall total, is_raise (calculate_cost_rows cfg vendor rows total).
Proof.
  intros Hin Hkind Hrate.
  induction rows as [| r' rest IH]; intros total; [destruct Hin|].
  cbn [calculate_cost_rows]. destruct Hin as [-> | Hin].
  - rewrite Hkind. cbn [String.eqb Ascii.eqb Bool.eqb].
    apply bind_raise, Hrate.
  - destruct (RateTypeDescription r' =? "Usage")%string; [|apply IH, Hin].
    apply bind_raise_later. intros rate. apply IH, Hin.
Qed.

Lemma breakdown_usage_rows_raise (r : row datetime) (rows : frame) :
  In r rows ->
  RateTypeDescription r = "Usage" ->
  is_raise (get_rate cfg vendor (StartDate r)) ->
  forall ub, is_raise (breakdown_rows cfg vendor rows ub).
Proof.
  intros Hin Hkind Hrate.
  induction rows as [| r' rest IH]; intros ub; [destruct Hin|].
  cbn [breakdown_rows]. destruct Hin as [-> | Hin].
  - rewrite Hkind. cbn [String.eqb Ascii.eqb Bool.eqb].
    apply bind_raise, Hrate.
  - destruct (RateTypeDescription r' =? "Usage")%string.
    + repeat (apply bind_raise_later; intros ?). apply IH, Hin.
    + destruct (RateTypeDescription r' =? "Solar")%string.
      * repeat (apply bind_raise_later; intros ?). apply IH, Hin.
      * apply IH, Hin.
Qed.

(** X15.  A [Usage] reading whose rate lookup raises (no season for its month,
    for one) ends both aggregations over a range that contains its day. *)
Lemma resolver_failure_aborts (r : row datetime) (date : Z)
    (start_date end_date : datetime) :
  In r (date_data df date) ->
  RateTypeDescription r = "Usage" ->
  is_raise (get_rate cfg vendor (StartDate r)) ->
  In date (date_range start_date end_date) ->
  is_raise (calculate_cost_range cfg df start_date end_date vendor)
  /\ is_raise (calculate_detailed_breakdown cfg df start_date end_date vendor).
Proof.
  intros Hin Hkind Hrate Hdate. split.
  - unfold calculate_cost_range. apply bind_raise.
    generalize (mk_range_state [] [] 0%Qc 0%Qc 0%Qc 0).
    induction (date_range start_date end_date) as [| d rest IH]; intros st;
      [destruct Hdate|].
    cbn [calculate_cost_range_days]. destruct Hdate as [-> | Hdate].
    + apply bind_raise. unfold calculate_cost.
      apply (usage_rows_raise r); assumption.
    + repeat (apply bind_raise_later; intros ?). apply IH, Hdate.
  - unfold calculate_detailed_breakdown. apply bind_raise.
    generalize (mk_breakdown_state usage_breakdown_init 0%Qc 0).
    induction (date_range start_date end_date) as [| d rest IH]; intros st;
      [destruct Hdate|].
    cbn [breakdown_days]. destruct Hdate as [-> | Hdate].
    + apply bind_raise_later. intros supply_charge.
      apply bind_raise. apply (breakdown_usage_rows_raise r); assumption.
    + repeat (apply bind_raise_later; intros ?). apply IH, Hdate.
Qed.

Lemma cost_rows_missing_vendor (rows : frame) (total : Qc) :
  dict_get cfg vendor = None ->
  calculate_cost_rows cfg vendor rows total = Ok total
  \/ calculate_cost_rows cfg vendor rows total = Raise KeyError.
Proof.
  intros Hmissing. revert total.
  induction rows as [| r rest IH]; intros total; cbn [calculate_cost_rows].
  - left. reflexivity.
  - destruct (RateTypeDescription r =? "Usage")%string; [|apply IH].
    right. unfold get_rate, _get_season.
    rewrite (Resolver.getitem_missing _ _ Hmissing). reflexivity.
Qed.

Lemma solar_rows_missing_vendor (rows : frame) (total : Qc) :
  dict_get cfg vendor = None ->
  calculate_solar_feedin_rows cfg vendor rows total = Ok total
  \/ calculate_solar_feedin_rows cfg vendor rows total = Raise KeyError.
Proof.
  intros Hmissing. revert total.
  induction rows as [| r rest IH]; intros total;
    cbn [calculate_solar_feedin_rows].
  - left. reflexivity.
  - destruct (RateTypeDescription r =? "Solar")%string; [|apply IH].
    right. unfold get_solar_rate, _get_season.
    rewrite (Resolver.getitem_missing _ _ Hmissing). reflexivity.
Qed.

(** X16.  A vendor that is not configured ends both aggregations with
    [KeyError] as soon as the range has one day. *)
Lemma missing_vendor_aborts (start_date end_date : datetime) :
  dict_get cfg vendor = None ->
  date_range start_date end_date <> [] ->
  calculate_cost_range cfg df start_date end_date vendor = Raise KeyError
  /\ calculate_detailed_breakdown cfg df start_date end_date vendor
     = Raise KeyError.
Proof.
  intros Hmissing Hdays.
  assert (Hsupply : get_supply_charge cfg vendor = Raise KeyError).
  { unfold get_supply_charge.
    rewrite (Resolver.getitem_missing _ _ Hmissing). reflexivity. }
  unfold calculate_cost_range, calculate_detailed_breakdown.
  destruct (date_range start_date end_date) as [| date rest];
    [contradiction|].
  cbn [calculate_cost_range_days breakdown_days]. rewrite Hsupply. split.
  - unfold calculate_cost, calculate_solar_feedin.
    destruct (cost_rows_missing_vendor (date_data df date) 0%Qc Hmissing)
      as [-> | ->]; [|reflexivity].
    destruct (solar_rows_missing_vendor (date_data df date) 0%Qc Hmissing)
      as [-> | ->]; reflexivity.
  - reflexivity.
Qed.

End Propagation.

(** *** The breakdown against the range totals *)

Lemma dict_get_In {V : Type} (d : dict V) (k : string) (v : V) :
  dict_get d k = Some v -> In (k, v) d.
Proof.
  induction d as [| [k' v'] rest IH]; simpl; [discriminate|].
  destruct (String.eqb k' k) eqn:Hk.
  - intros [= ->]. apply String.eqb_eq in Hk. subst. left. reflexivity.
  - intros Hget. right. apply IH, Hget.
Qed.

Lemma getitem_In {V : Type} (d : dict V) (k : string) (v : V) :
  getitem d k = Ok v -> In (k, v) d.
Proof.
  unfold getitem. destruct (dict_get d k) eqn:Hget; [|discriminate].
  intros [= ->]. apply dict_get_In, Hget.
Qed.

Lemma first_match_In (hour : Z) (items : dict rate_details)
    (rate_type : string) (details : rate_details) :
  first_match hour items = Ok (Some (rate_type, details)) ->
  In (rate_type, details) items.
Proof.
  induction items as [| [rt d] rest IH]; simpl; [discriminate|].
  destruct (_is_hour_in_range hour (hours d)) as [[|]|e]; simpl.
  - intros [= -> ->]. left. reflexivity.
  - intros Hrest. right. apply IH, Hrest.
  - discriminate.
Qed.

(** In a well-formed configuration every label the resolver can return,
    the fallback included, names a usage bucket. *)
Lemma resolve_usage_label cfg vendor timestamp m :
  well_formed cfg ->
  resolve cfg vendor timestamp = Ok m ->
  usage_label (rate_type_of m).
Proof.
  intros Hwf. unfold resolve, _get_season, vendor_rates_of.
  destruct (getitem cfg vendor) as [v|] eqn:Hv; simpl; [|discriminate].
  destruct (season_of_month (month timestamp) (periods v)) as [season|];
    [|discriminate].
  destruct (getitem (seasons v) season) as [by_day|] eqn:Hs; simpl;
    [|discriminate].
  destruct (getitem by_day (day_type_of timestamp)) as [table|] eqn:Hd; simpl;
    [|discriminate].
  intros Hmatch. destruct m as [[rate_type details]|]; simpl.
  - apply first_match_In in Hmatch.
    apply getitem_In in Hv, Hs, Hd.
    exact (Hwf _ _ _ _ _ _ _ _ Hv Hs Hd Hmatch).
  - right. left. reflexivity.
Qed.

(** The two updates made for a [Usage] reading land in the bucket named
    by the label and nowhere else. *)
Lemma usage_updates {A : Type} (b : buckets) (label : string)
    (kwh cost : Qc) (k : dict (dict Qc) -> result A) :
  usage_label label ->
  (ub1 <- add_to (to_usage_breakdown b) label "kwh" (Ok kwh) ;;
   ub2 <- add_to ub1 label "cost" (Ok cost) ;;
   k ub2)
  = k (to_usage_breakdown (add_usage b label kwh cost)).
Proof.
  intros [-> | [-> | ->]]; reflexivity.
Qed.

(** The two updates made for a [Solar] reading. *)
Lemma solar_updates {A : Type} (b : buckets) (kwh : Qc) (rate : option Qc)
    (k : dict (dict Qc) -> result A) :
  (ub1 <- add_to (to_usage_breakdown b) "solar" "kwh" (Ok kwh) ;;
   ub2 <- add_to ub1 "solar" "credit" (mul_rate kwh rate) ;;
   k ub2)
  = match rate with
    | Some x => k (to_usage_breakdown (add_solar b kwh (kwh * x)%Qc))
    | None => Raise TypeError
    end.
Proof.
  destruct rate; reflexivity.
Qed.

(** [add_usage] touches the bucket it is given and leaves the other
    two and the solar bucket as they were. *)
Lemma add_usage_one_bucket (b : buckets) (label : string) (kwh cost : Qc) :
  usage_label label ->
  let b' := add_usage b label kwh cost in
  solar_kwh b' = solar_kwh b /\ solar_credit b' = solar_credit b
  /\ ((label = "peak"
       /\ peak_kwh b' = (peak_kwh b + kwh)%Qc
       /\ peak_cost b' = (peak_cost b + cost)%Qc
       /\ off_peak_kwh b' = off_peak_kwh b
       /\ off_peak_cost b' = off_peak_cost b
       /\ shoulder_kwh b' = shoulder_kwh b
       /\ shoulder_cost b' = shoulder_cost b)
      \/ (label = "off_peak"
          /\ peak_kwh b' = peak_kwh b
          /\ peak_cost b' = peak_cost b
          /\ off_peak_kwh b' = (off_peak_kwh b + kwh)%Qc
          /\ off_peak_cost b' = (off_peak_cost b + cost)%Qc
          /\ shoulder_kwh b' = shoulder_kwh b
          /\ shoulder_cost b' = shoulder_cost b)
      \/ (label = "shoulder"
          /\ peak_kwh b' = peak_kwh b
          /\ peak_cost b' = peak_cost b
          /\ off_peak_kwh b' = off_peak_kwh b
          /\ off_peak_cost b' = off_peak_cost b
          /\ shoulder_kwh b' = (shoulder_kwh b + kwh)%Qc
          /\ shoulder_cost b' = (shoulder_cost b + cost)%Qc)).
Proof.
  intros [-> | [-> | ->]]; cbv zeta; repeat split.
  - left. repeat split.
  - right. left. repeat split.
  - right. right. repeat split.
Qed.

Lemma add_usage_kwh_total (b : buckets) (label : string) (kwh cost : Qc) :
  usage_kwh_total (add_usage b label kwh cost) = (usage_kwh_total b + kwh)%Qc.
Proof.
  unfold add_usage, usage_kwh_total.
  destruct (label =? "peak")%string; [simpl; ring|].
  destruct (label =? "off_peak")%string; simpl; ring.
Qed.

Lemma add_usage_cost_total (b : buckets) (label : string) (kwh cost : Qc) :
  usage_cost_total (add_usage b label kwh cost)
  = (usage_cost_total b + cost)%Qc.
Proof.
  unfold add_usage, usage_cost_total.
  destruct (label =? "peak")%string; [simpl; ring|].
  destruct (label =? "off_peak")%string; simpl; ring.
Qed.

Lemma add_usage_solar (b : buckets) (label : string) (kwh cost : Qc) :
  solar_credit (add_usage b label kwh cost) = solar_credit b.
Proof.
  unfold add_usage.
  destruct (label =? "peak")%string; [reflexivity|].
  destruct (label =? "off_peak")%string; reflexivity.
Qed.

Section Partition.

Variable cfg : pricing_config.
Hypothesis cfg_well_formed : well_formed cfg.
Variable vendor : string.

(** The three row loops, run over the same rows: the breakdown returns
    exactly when both totals do, and then the usage buckets together
    grew by the usage cost and the usage energy of the rows, and the
    solar bucket by the credit. *)
Lemma rows_agree (rows : frame) :
  forall (c s : Qc) (b : buckets),
    match calculate_cost_rows cfg vendor rows c,
          calculate_solar_feedin_rows cfg vendor rows s,
          breakdown_rows cfg vendor rows (to_usage_breakdown b) with
    | Ok c', Ok s', Ok ub =>
        exists b' dc ds,
          ub = to_usage_breakdown b'
          /\ c' = (c + dc)%Qc
          /\ usage_cost_total b' = (usage_cost_total b + dc)%Qc
          /\ s' = (s + ds)%Qc
          /\ solar_credit b' = (solar_credit b + ds)%Qc
          /\ usage_kwh_total b'
             = (usage_kwh_total b + usage_kwh_rows rows)%Qc
    | Ok _, Ok _, Raise _ => False
    | _, _, Ok _ => False
    | _, _, Raise _ => True
    end.
Proof.
  induction rows as [| r rest IH]; intros c s b;
    cbn [calculate_cost_rows calculate_solar_feedin_rows breakdown_rows
         usage_kwh_rows].
  - exists b, 0%Qc, 0%Qc. repeat split; ring.
  - unfold is_usage.
    destruct (RateTypeDescription r =? "Usage")%string eqn:Husage.
    + assert (Hnot_solar : (RateTypeDescription r =? "Solar")%string = false).
      { apply String.eqb_eq in Husage. rewrite Husage. reflexivity. }
      rewrite Hnot_solar.
      rewrite Resolver.get_rate_resolve, Resolver.get_rate_type_resolve.
      destruct (resolve cfg vendor (StartDate r)) as [m|e] eqn:Hm;
        cbn [bind].
      * rewrite (usage_updates b (rate_type_of m))
          by (exact (resolve_usage_label _ _ _ _ cfg_well_formed Hm)).
        specialize (IH (c + ProfileReadValue r * rate_of m)%Qc s
                       (add_usage b (rate_type_of m) (ProfileReadValue r)
                          (ProfileReadValue r * rate_of m)%Qc)).
        destruct (calculate_cost_rows cfg vendor rest
                    (c + ProfileReadValue r * rate_of m)%Qc) as [c'|];
          destruct (calculate_solar_feedin_rows cfg vendor rest s) as [s'|];
          destruct (breakdown_rows cfg vendor rest
                      (to_usage_breakdown
                         (add_usage b (rate_type_of m) (ProfileReadValue r)
                            (ProfileReadValue r * rate_of m)%Qc)))
            as [ub|];
          try exact IH.
        destruct IH as (b' & dc & ds & Hub & Hc & Hcost & Hs & Hsolar & Hkwh).
        exists b', (ProfileReadValue r * rate_of m + dc)%Qc, ds.
        rewrite add_usage_cost_total in Hcost.
        rewrite add_usage_solar in Hsolar.
        rewrite add_usage_kwh_total in Hkwh.
        repeat split; try assumption.
        -- rewrite Hc. ring.
        -- rewrite Hcost. ring.
        -- rewrite Hkwh. ring.
      * destruct (calculate_solar_feedin_rows cfg vendor rest s);
          exact I.
    + destruct (RateTypeDescription r =? "Solar")%string eqn:Hsolar_kind.
      * rewrite Resolver.get_solar_rate_resolve.
        destruct (resolve cfg vendor (StartDate r)) as [m|e]; cbn [bind].
        -- rewrite solar_updates.
           destruct (solar_rate_of m) as [x|]; cbn [mul_rate bind].
           ++ specialize (IH c (s + ProfileReadValue r * x)%Qc
                            (add_solar b (ProfileReadValue r)
                               (ProfileReadValue r * x)%Qc)).
              destruct (calculate_cost_rows cfg vendor rest c) as [c'|];
                destruct (calculate_solar_feedin_rows cfg vendor rest
                            (s + ProfileReadValue r * x)%Qc) as [s'|];
                destruct (breakdown_rows cfg vendor rest
                            (to_usage_breakdown
                               (add_solar b (ProfileReadValue r)
                                  (ProfileReadValue r * x)%Qc))) as [ub|];
                try exact IH.
              destruct IH
                as (b' & dc & ds & Hub & Hc & Hcost & Hs & Hsolar & Hkwh).
              exists b', dc, (ProfileReadValue r * x + ds)%Qc.
              repeat split; try assumption.
              ** rewrite Hs. ring.
              ** rewrite Hsolar. simpl. ring.
           ++ destruct (calculate_cost_rows cfg vendor rest c); exact I.
        -- destruct (calculate_cost_rows cfg vendor rest c); exact I.
      * apply IH.
Qed.

Variable df : frame.

(** The two loops over the days of the range. *)
Lemma days_agree (dates : list Z) :
  forall (sc : range_state) (sb : breakdown_state) (b : buckets),
    bs_usage_breakdown sb = to_usage_breakdown b ->
    match calculate_cost_range_days cfg df vendor dates sc,
          breakdown_days cfg df vendor dates sb with
    | Ok sc', Ok sb' =>
        exists b' dc ds dp,
          bs_usage_breakdown sb' = to_usage_breakdown b'
          /\ rs_total_cost sc' = (rs_total_cost sc + dc)%Qc
          /\ usage_cost_total b' = (usage_cost_total b + dc)%Qc
          /\ rs_total_solar sc' = (rs_total_solar sc + ds)%Qc
          /\ solar_credit b' = (solar_credit b + ds)%Qc
          /\ rs_total_supply_charges sc'
             = (rs_total_supply_charges sc + dp)%Qc
          /\ bs_total_supply_charges sb'
             = (bs_total_supply_charges sb + dp)%Qc
          /\ usage_kwh_total b' = (usage_kwh_total b + usage_kwh df dates)%Qc
    | Raise _, Raise _ => True
    | _, _ => False
    end.
Proof.
  induction dates as [| date rest IH]; intros sc sb b Hb;
    cbn [calculate_cost_range_days breakdown_days usage_kwh].
  - exists b, 0%Qc, 0%Qc, 0%Qc. repeat split; try assumption; ring.
  - unfold calculate_cost, calculate_solar_feedin. rewrite Hb.
    pose proof (rows_agree (date_data df date) 0%Qc 0%Qc b) as Hrows.
    destruct (calculate_cost_rows cfg vendor (date_data df date) 0%Qc)
      as [usage_cost|];
      destruct (calculate_solar_feedin_rows cfg vendor (date_data df date)
                  0%Qc) as [solar|];
      destruct (breakdown_rows cfg vendor (date_data df date)
                  (to_usage_breakdown b)) as [ub|];
      destruct (get_supply_charge cfg vendor) as [supply|];
      cbn [bind]; try exact I; try contradiction.
    destruct Hrows
      as (b1 & dc1 & ds1 & Hub & Hc1 & Hcost1 & Hs1 & Hsolar1 & Hkwh1).
    specialize (IH (mk_range_state
                      (rs_daily_costs sc ++ [(date, usage_cost)])
                      (rs_daily_solar sc ++ [(date, solar)])
                      (rs_total_cost sc + usage_cost)%Qc
                      (rs_total_solar sc + solar)%Qc
                      (rs_total_supply_charges sc + supply)%Qc
                      (rs_total_days sc + 1))
                   (mk_breakdown_state ub
                      (bs_total_supply_charges sb + supply)%Qc
                      (bs_total_days sb + 1))
                   b1 Hub).
    destruct (calculate_cost_range_days cfg df vendor rest _) as [sc'|];
      destruct (breakdown_days cfg df vendor rest _) as [sb'|];
      try exact IH.
    destruct IH as (b' & dc & ds & dp & Hb' & Hc & Hcost & Hs & Hsolar
                    & Hp & Hp' & Hkwh).
    cbn [rs_total_cost rs_total_solar rs_total_supply_charges
         bs_total_supply_charges] in Hc, Hs, Hp, Hp'.
    exists b', (dc1 + dc)%Qc, (ds1 + ds)%Qc, (supply + dp)%Qc.
    repeat split; try assumption.
    + rewrite Hc, Hc1. ring.
    + rewrite Hcost, Hcost1. ring.
    + rewrite Hs, Hs1. ring.
    + rewrite Hsolar, Hsolar1. ring.
    + rewrite Hp. ring.
    + rewrite Hp'. ring.
    + rewrite Hkwh, Hkwh1. ring.
Qed.

(** [sum(...)] over the values of the accumulator skips the solar
    bucket and adds the three usage buckets in insertion order. *)
Lemma sum_periods_kwh (b : buckets) :
  sum_periods "kwh" (to_usage_breakdown b)
              (values (to_usage_breakdown b)) 0%Qc
  = Ok (0 + peak_kwh b + off_peak_kwh b + shoulder_kwh b)%Qc.
Proof.
  unfold values. cbn -[Qeq_bool Qcplus].
  rewrite !andb_false_r. cbn -[Qeq_bool Qcplus].
  rewrite !Qeq_bool_refl. reflexivity.
Qed.

Lemma sum_periods_cost (b : buckets) :
  sum_periods "cost" (to_usage_breakdown b)
              (values (to_usage_breakdown b)) 0%Qc
  = Ok (0 + peak_cost b + off_peak_cost b + shoulder_cost b)%Qc.
Proof.
  unfold values. cbn -[Qeq_bool Qcplus].
  rewrite !andb_false_r. cbn -[Qeq_bool Qcplus].
  rewrite !Qeq_bool_refl. reflexivity.
Qed.

End Partition.

(** The two aggregations over the exact rationals, side by side: a
    [Usage] reading adds its energy and its cost to exactly one usage
    bucket; the two aggregations return for the same inputs, and when
    they do, the three buckets hold the energy the day loops saw and the
    usage cost of [calculate_cost_range], and the two net costs are
    equal. *)
Lemma aggregations_agree (cfg : pricing_config) (df : frame)
    (vendor : string) :
  well_formed cfg ->
  (forall (r : row datetime) (b : buckets) (ub : dict (dict Qc)),
      RateTypeDescription r = "Usage" ->
      breakdown_rows cfg vendor [r] (to_usage_breakdown b) = Ok ub ->
      exists label rate,
        usage_label label
        /\ get_rate_type cfg vendor (StartDate r) = Ok label
        /\ get_rate cfg vendor (StartDate r) = Ok rate
        /\ ub = to_usage_breakdown
                  (add_usage b label (ProfileReadValue r)
                     (ProfileReadValue r * rate)%Qc))
  /\ forall start_date end_date,
       match calculate_cost_range cfg df start_date end_date vendor,
             calculate_detailed_breakdown cfg df start_date end_date vendor
       with
       | Ok costs, Ok detail =>
           exists b,
             breakdown detail = to_usage_breakdown b
             /\ (peak_kwh b + off_peak_kwh b + shoulder_kwh b)%Qc
                = usage_kwh df (date_range start_date end_date)
             /\ total_usage detail
                = usage_kwh df (date_range start_date end_date)
             /\ (peak_cost b + off_peak_cost b + shoulder_cost b)%Qc
                = total_usage_cost costs
             /\ total_cost detail = total_usage_cost costs
             /\ solar_credit b = total_solar_credit costs
             /\ total_supply_charges detail = cr_total_supply_charges costs
             /\ net_cost detail = cr_net_cost costs
       | Raise _, Raise _ => True
       | _, _ => False
       end.
Proof.
  intros Hwf. split.
  - intros r b ub Hkind.
    cbn [breakdown_rows]. rewrite Hkind. cbn [String.eqb Ascii.eqb Bool.eqb].
    rewrite Resolver.get_rate_resolve, Resolver.get_rate_type_resolve.
    destruct (resolve cfg vendor (StartDate r)) as [m|e] eqn:Hm; cbn [bind];
      [|discriminate].
    pose proof (resolve_usage_label _ _ _ _ Hwf Hm) as Hlabel.
    rewrite (usage_updates b (rate_type_of m)) by exact Hlabel.
    intros [= <-].
    exists (rate_type_of m), (rate_of m). repeat split. exact Hlabel.
  - intros start_date end_date.
    unfold calculate_cost_range, calculate_detailed_breakdown.
    pose proof (days_agree cfg Hwf vendor df
                  (date_range start_date end_date)
                  (mk_range_state [] [] 0%Qc 0%Qc 0%Qc 0)
                  (mk_breakdown_state usage_breakdown_init 0%Qc 0)
                  (mk_buckets 0 0 0 0 0 0 0 0) eq_refl) as Hdays.
    destruct (calculate_cost_range_days cfg df vendor
                (date_range start_date end_date) _) as [sc|];
      destruct (breakdown_days cfg df vendor
                  (date_range start_date end_date) _) as [sb|];
      cbn [bind]; try exact Hdays; try contradiction.
    destruct Hdays as (b & dc & ds & dp & Hb & Hc & Hcost & Hs & Hsolar
                       & Hp & Hp' & Hkwh).
    rewrite Hb, sum_periods_kwh, sum_periods_cost. cbn [bind].
    change (getitem (to_usage_breakdown b) "solar")
      with (Ok [("kwh", solar_kwh b); ("credit", solar_credit b)]).
    cbn [bind].
    change (getitem [("kwh", solar_kwh b); ("credit", solar_credit b)]
              "credit")
      with (Ok (solar_credit b)).
    cbn [bind].
    exists b.
    cbn [breakdown total_usage total_cost total_supply_charges net_cost
         total_usage_cost total_solar_credit cr_total_supply_charges
         cr_net_cost].
    unfold usage_kwh_total, usage_cost_total in *.
    cbn [peak_kwh off_peak_kwh shoulder_kwh peak_cost off_peak_cost
         shoulder_cost solar_credit rs_total_cost rs_total_solar
         rs_total_supply_charges bs_total_supply_charges] in *.
    rewrite !Qcplus_0_l in *.
    repeat split.
    + exact Hkwh.
    + exact Hkwh.
    + rewrite Hc. exact Hcost.
    + rewrite Hc. exact Hcost.
    + rewrite Hs. exact Hsolar.
    + rewrite Hp, Hp'. reflexivity.
    + rewrite Hc, Hs, Hp, Hp', Hsolar, Hcost. ring.
Qed.

Lemma demo_config_well_formed : well_formed demo_config.
Proof.
  intros vendor v season by_day day_type table name details Hv Hs Hd Hn.
  destruct Hv as [Hv | []]. inversion Hv; subst; clear Hv.
  destruct Hs as [Hs | [Hs | []]]; inversion Hs; subst; clear Hs;
    (destruct Hd as [Hd | [Hd | []]]; inversion Hd; subst; clear Hd;
     [ destruct Hn as [Hn | [Hn | []]]; inversion Hn; subst
     | destruct Hn as [Hn | []]; inversion Hn; subst ]);
    unfold usage_label; auto.
Defined.

End Billing.

(** ** The merge into the canonical file *)

Module Merge.

Local Open Scope string_scope.
Local Open Scope list_scope.
Local Open Scope Z_scope.

(** *** Date cells *)

Lemma with_dates_of_new (r : row string) : csv_row (of_new r) = r.
Proof. destruct r. reflexivity. Qed.

Lemma map_csv_row_of_new (rows : list (row string)) :
  map csv_row (map of_new rows) = rows.
Proof.
  induction rows as [| r rest IH]; simpl; [reflexivity|].
  rewrite IH. f_equal. apply with_dates_of_new.
Qed.

Lemma digit_char_cases (n : Z) :
  digit_char n = "0"%char \/ digit_char n = "1"%char
  \/ digit_char n = "2"%char \/ digit_char n = "3"%char
  \/ digit_char n = "4"%char \/ digit_char n = "5"%char
  \/ digit_char n = "6"%char \/ digit_char n = "7"%char
  \/ digit_char n = "8"%char \/ digit_char n = "9"%char.
Proof.
  unfold digit_char.
  assert (Hrange : 0 <= n mod 10 < 10) by (apply Z.mod_pos_bound; lia).
  assert (Hcases : n mod 10 = 0 \/ n mod 10 = 1 \/ n mod 10 = 2
                   \/ n mod 10 = 3 \/ n mod 10 = 4 \/ n mod 10 = 5
                   \/ n mod 10 = 6 \/ n mod 10 = 7 \/ n mod 10 = 8
                   \/ n mod 10 = 9) by lia.
  repeat (destruct Hcases as [-> | Hcases]; [tauto|]).
  rewrite Hcases. tauto.
Qed.

(** A timestamp written in the default spelling of [to_csv] is not
    accepted back by the parser with the day-first format: its third
    character is a digit of the year where the format has a slash. *)
Lemma strptime_timestamp_str (t : datetime) :
  strptime (timestamp_str t) = Raise ValueError.
Proof.
  unfold strptime, timestamp_str, pad4, pad2. cbn [append list_ascii_of_string].
  destruct (digit_char_cases (year t mod 100 / 10))
    as [-> | [-> | [-> | [-> | [-> | [-> | [-> | [-> | [-> | ->]]]]]]]]];
    reflexivity.
Qed.

Lemma strptime_error (text : string) (e : exn) :
  strptime text = Raise e -> e = ValueError.
Proof.
  unfold strptime.
  repeat match goal with
         | |- context [match ?x with _ => _ end] => destruct x
         end;
    intros [=]; congruence.
Qed.

Lemma parse_dates_error (r : row string) (e : exn) :
  parse_dates r = Raise e -> e = ValueError.
Proof.
  unfold parse_dates.
  destruct (strptime (StartDate r)) as [start|e1] eqn:Hstart; simpl.
  - destruct (strptime (EndDate r)) as [finish|e2] eqn:Hfinish; simpl.
    + discriminate.
    + intros [= <-]. exact (strptime_error _ _ Hfinish).
  - intros [= <-]. exact (strptime_error _ _ Hstart).
Qed.

(** *** [mapM] *)

Lemma mapM_Forall2 {A B : Type} (f : A -> result B) (l : list A)
    (ys : list B) :
  mapM f l = Ok ys -> Forall2 (fun x y => f x = Ok y) l ys.
Proof.
  revert ys. induction l as [| x rest IH]; simpl; intros ys.
  - intros [= <-]. constructor.
  - destruct (f x) as [y|] eqn:Hx; simpl; [|discriminate].
    destruct (mapM f rest) as [ys'|]; simpl; [|discriminate].
    intros [= <-]. constructor; [exact Hx | apply IH; reflexivity].
Qed.

Lemma mapM_raise {A B : Type} (f : A -> result B) (l : list A) (x : A)
    (e : exn) :
  (forall y e', f y = Raise e' -> e' = e) ->
  In x l -> f x = Raise e -> mapM f l = Raise e.
Proof.
  intros Hsame Hin Hx.
  induction l as [| y rest IH]; simpl; [destruct Hin|].
  destruct Hin as [-> | Hin].
  - rewrite Hx. reflexivity.
  - destruct (f y) as [b|e'] eqn:Hy; simpl.
    + rewrite (IH Hin). reflexivity.
    + rewrite (Hsame _ _ Hy). reflexivity.
Qed.

(** *** Sorting *)

Lemma insert_sorted_perm (x : row cell * datetime)
    (l : list (row cell * datetime)) :
  Permutation (insert_sorted x l) (x :: l).
Proof.
  induction l as [| y rest IH]; simpl; [apply Permutation_refl|].
  destruct (sort_leb x y); [apply Permutation_refl|].
  apply Permutation_trans with (y :: x :: rest).
  - apply perm_skip, IH.
  - apply perm_swap.
Qed.

Lemma insertion_sort_perm (l : list (row cell * datetime)) :
  Permutation (fold_right insert_sorted [] l) l.
Proof.
  induction l as [| x rest IH]; simpl; [apply Permutation_refl|].
  apply Permutation_trans with (x :: fold_right insert_sorted [] rest).
  - apply insert_sorted_perm.
  - apply perm_skip, IH.
Qed.

Lemma keyed_rows (combined : list (row cell))
    (keyed : list (row cell * datetime)) :
  mapM (fun r => t <- to_datetime (StartDate r) ;; Ok (r, t)) combined
    = Ok keyed ->
  map fst keyed = combined.
Proof.
  intros Hkeyed. apply mapM_Forall2 in Hkeyed.
  induction Hkeyed as [| r [r' t] rest keyed' Hr _ IH]; simpl;
    [reflexivity|].
  destruct (to_datetime (StartDate r)); simpl in Hr; [|discriminate].
  injection Hr as <- _. rewrite IH. reflexivity.
Qed.

(** [sort_values] reorders the rows and does nothing else to them. *)
Lemma sort_values_perm (combined sorted : list (row cell)) :
  sort_values combined = Ok sorted -> Permutation sorted combined.
Proof.
  unfold sort_values.
  destruct (mapM _ combined) as [keyed|] eqn:Hkeyed; simpl; [|discriminate].
  intros [= <-]. rewrite <- (keyed_rows _ _ Hkeyed).
  apply Permutation_map, insertion_sort_perm.
Qed.

(** *** Removing the duplicates *)

Lemma isin_In (k : string) (ks : list string) :
  isin k ks = true <-> In k ks.
Proof.
  unfold isin. rewrite existsb_exists. split.
  - intros [k' [Hin Heq]]. apply String.eqb_eq in Heq. subst. exact Hin.
  - intros Hin. exists k. split; [exact Hin | apply String.eqb_refl].
Qed.

(** When it returns, [remove_duplicates] is the filter by [is_new], and
    every incoming row had a readable start date. *)
Lemma remove_duplicates_filter (existing_keys : list string)
    (new_data kept : list (row string)) :
  remove_duplicates existing_keys new_data = Ok kept ->
  kept = filter (is_new existing_keys) new_data
  /\ Forall (fun r => exists k, new_key r = Ok k) new_data.
Proof.
  revert kept. induction new_data as [| r rest IH]; simpl; intros kept.
  - intros [= <-]. split; [reflexivity | constructor].
  - unfold is_new at 1.
    destruct (new_key r) as [k|] eqn:Hk; simpl; [|discriminate].
    destruct (remove_duplicates existing_keys rest) as [kept'|]; simpl;
      [|discriminate].
    destruct (IH kept' eq_refl) as [-> Hall].
    intros [= <-]. split.
    + destruct (isin k existing_keys); reflexivity.
    + constructor; [exists k; exact Hk | exact Hall].
Qed.

(** *** The shape of a call *)

Lemma combine_existing (rows new_data : list (row string))
    (sorted : list (row cell)) (n : nat) :
  combine (Some rows) new_data = Ok (Some (sorted, n)) ->
  exists existing kept,
    mapM parse_dates rows = Ok existing
    /\ remove_duplicates (map existing_key existing) new_data = Ok kept
    /\ kept <> []
    /\ sort_values (map of_existing existing ++ map of_new kept) = Ok sorted
    /\ n = List.length kept.
Proof.
  unfold combine.
  destruct (mapM parse_dates rows) as [existing|]; simpl; [|discriminate].
  destruct (remove_duplicates (map existing_key existing) new_data)
    as [kept|] eqn:Hkept; simpl; [|discriminate].
  destruct kept as [| r kept']; [discriminate|].
  destruct (sort_values _) as [sorted'|] eqn:Hsort; simpl; [|discriminate].
  intros [= <- <-].
  exists existing, (r :: kept').
  split; [reflexivity|]. split; [exact Hkept|]. split; [discriminate|].
  split; [exact Hsort | reflexivity].
Qed.

(** A call that reports success either had nothing to write and left the
    file alone, or wrote the whole sorted frame. *)
Lemma append_success (f : fault) (file file' : csv_file)
    (new_data : list (row string)) (msg : message) :
  _append_to_csv f file new_data = (file', (true, msg)) ->
  (combine file new_data = Ok None /\ file' = file /\ msg = NoNewUnique)
  \/ exists sorted n,
       combine file new_data = Ok (Some (sorted, n))
       /\ f = NoFault
       /\ file' = Some (map csv_row sorted)
       /\ msg = Saved n.
Proof.
  unfold _append_to_csv.
  destruct (combine file new_data) as [[[sorted n]|]|e]; [| |discriminate].
  - destruct f; simpl; try discriminate.
    intros [= <- <-]. right. exists sorted, n. repeat split.
  - intros [= <- <-]. left. repeat split.
Qed.

(** *** Existing readings win *)


(** C3 (the code departs from the claim).  The store holds the reading of
    00:00 with value 0.174; the batch carries the same interval with
    value 0.999 and the interval of 00:30.  The incoming duplicate is
    dropped and the stored value stays, but the stored reading is not
    left as it was: the merge writes its two dates back in another
    spelling, and no row of the file is the stored row any more. *)
Theorem stored_dates_rewritten :
  _append_to_csv NoFault (Some [at_0000 (qc 174 1000)])
    [at_0000 (qc 999 1000); at_0030 (qc 1 5)]
  = (Some [with_dates (at_0000 (qc 174 1000))
             "2021-11-04 00:00:00" "2021-11-04 00:30:00";
           at_0030 (qc 1 5)],
     (true, Saved 1))
  /\ ProfileReadValue
       (with_dates (at_0000 (qc 174 1000))
          "2021-11-04 00:00:00" "2021-11-04 00:30:00")
     = ProfileReadValue (at_0000 (qc 174 1000))
  /\ StartDate (at_0000 (qc 174 1000)) = "04/11/2021 00:00:00"
  /\ EndDate (at_0000 (qc 174 1000)) = "04/11/2021 00:30:00"
  /\ ~ In (at_0000 (qc 174 1000))
          [with_dates (at_0000 (qc 174 1000))
             "2021-11-04 00:00:00" "2021-11-04 00:30:00";
           at_0030 (qc 1 5)].
Proof.
  split; [vm_compute; reflexivity|].
  split; [reflexivity|]. split; [reflexivity|]. split; [reflexivity|].
  intros [H | [H | []]]; discriminate H.
Qed.

(** *** Duplicates inside one batch *)

Lemma sort_values_pair (r : row string) (start : datetime) :
  strptime (StartDate r) = Ok start ->
  sort_values [of_new r; of_new r] = Ok [of_new r; of_new r].
Proof.
  intros Hstart. unfold sort_values. cbn [mapM to_datetime StartDate of_new
                                          with_dates bind].
  rewrite Hstart. cbn [bind fold_right insert_sorted].
  destruct (sort_leb (of_new r, start) (of_new r, start)); reflexivity.
Qed.

(** C4 (the code departs from the claim).  A first merge into a missing
    store of a batch that carries the same reading twice reports success
    and persists both copies: the store then holds two readings with one
    identity key. *)
Theorem duplicate_in_batch_persisted (r : row string) (start : datetime) :
  strptime (StartDate r) = Ok start ->
  _append_to_csv NoFault None [r; r] = (Some [r; r], (true, Saved 2))
  /\ mapM new_key [r; r] = Ok [make_key r start; make_key r start]
  /\ ~ NoDup [make_key r start; make_key r start].
Proof.
  intros Hstart. split; [|split].
  - unfold _append_to_csv, combine. cbn [map].
    rewrite (sort_values_pair r start Hstart). cbn [bind to_csv map].
    rewrite !with_dates_of_new. reflexivity.
  - unfold new_key. cbn [mapM]. rewrite Hstart. reflexivity.
  - intros Hnodup. inversion Hnodup as [| k ks Hnotin _]; subst.
    apply Hnotin. left. reflexivity.
Qed.

(** The reading of 00:00, twice in the first batch ever merged. *)
Lemma duplicate_in_batch_persisted_witness :
  _append_to_csv NoFault None [at_0000 (qc 174 1000); at_0000 (qc 174 1000)]
  = (Some [at_0000 (qc 174 1000); at_0000 (qc 174 1000)], (true, Saved 2))
  /\ mapM new_key [at_0000 (qc 174 1000); at_0000 (qc 174 1000)]
     = Ok ["41032871534_700813815#E1_202111040000";
           "41032871534_700813815#E1_202111040000"]
  /\ ~ NoDup ["41032871534_700813815#E1_202111040000";
              "41032871534_700813815#E1_202111040000"].
Proof.
  apply (duplicate_in_batch_persisted (at_0000 (qc 174 1000))
           (mk_datetime 2021 11 4 0 0 0)).
  reflexivity.
Defined.

(** The same happens against an existing store when the key is new: the
    store of one reading grows by both copies of the incoming one. *)
Lemma duplicate_in_batch_existing_store :
  _append_to_csv NoFault (Some [at_0000 (qc 174 1000)])
    [at_0030 (qc 1 5); at_0030 (qc 1 5)]
  = (Some [with_dates (at_0000 (qc 174 1000))
             "2021-11-04 00:00:00" "2021-11-04 00:30:00";
           at_0030 (qc 1 5); at_0030 (qc 1 5)],
     (true, Saved 2)).
Proof. vm_compute. reflexivity. Qed.

(** What the merge does guarantee: when the stored keys are pairwise
    distinct and so are the keys of the incoming readings that are kept,
    the keys of the persisted frame are pairwise distinct. *)







(** *** Merging twice *)

Lemma parse_dates_of_existing (e : row datetime) :
  parse_dates (csv_row (of_existing e)) = Raise ValueError.
Proof.
  unfold parse_dates. destruct e. cbn [csv_row of_existing with_dates
                                       StartDate EndDate cell_str].
  rewrite strptime_timestamp_str. reflexivity.
Qed.

(** C6 (the code departs from the claim).  Once a merge has written into
    an existing, non-empty store, the stored readings carry their dates in
    the default timestamp spelling, which the loader does not accept: the
    same batch merged again, and any other batch, is not rejected as
    duplicates with a zero count; the call reports failure
    ([ValueError]) and leaves the file as the first merge wrote it. *)
Theorem second_merge_fails (f1 f2 : fault)
    (rows new_data file1 again : list (row string)) (n : nat) :
  rows <> [] ->
  _append_to_csv f1 (Some rows) new_data = (Some file1, (true, Saved n)) ->
  _append_to_csv f2 (Some file1) again
  = (Some file1, (false, ErrorSaving ValueError)).
Proof.
  intros Hrows Hfirst.
  destruct (append_success _ _ _ _ _ Hfirst)
    as [(_ & _ & Hmsg) | (sorted & n' & Hsome & _ & Hfile & _)];
    [discriminate|].
  injection Hfile as ->.
  destruct (combine_existing _ _ _ _ Hsome)
    as (existing & kept & Hparse & _ & _ & Hsort & _).
  assert (Hstored : exists e, In e existing).
  { apply mapM_Forall2 in Hparse.
    destruct Hparse as [| r e rs es _ _]; [contradiction|].
    exists e. left. reflexivity. }
  destruct Hstored as [e He].
  assert (Hin : In (csv_row (of_existing e)) (map csv_row sorted)).
  { apply in_map.
    apply (Permutation_in _ (Permutation_sym (sort_values_perm _ _ Hsort))).
    apply in_or_app. left. apply in_map. exact He. }
  unfold _append_to_csv, combine.
  rewrite (mapM_raise parse_dates _ _ ValueError parse_dates_error Hin
             (parse_dates_of_existing e)).
  reflexivity.
Qed.

(** A store holding the reading of 00:00 receives the reading of 00:30;
    merging that batch a second time fails. *)
Lemma second_merge_fails_witness :
  _append_to_csv NoFault (Some [at_0000 (qc 174 1000)]) [at_0030 (qc 1 5)]
  = (Some [with_dates (at_0000 (qc 174 1000))
             "2021-11-04 00:00:00" "2021-11-04 00:30:00";
           at_0030 (qc 1 5)],
     (true, Saved 1))
  /\ _append_to_csv NoFault
       (Some [with_dates (at_0000 (qc 174 1000))
                "2021-11-04 00:00:00" "2021-11-04 00:30:00";
              at_0030 (qc 1 5)])
       [at_0030 (qc 1 5)]
     = (Some [with_dates (at_0000 (qc 174 1000))
                "2021-11-04 00:00:00" "2021-11-04 00:30:00";
              at_0030 (qc 1 5)],
        (false, ErrorSaving ValueError)).
Proof.
  assert (Hfirst :
            _append_to_csv NoFault (Some [at_0000 (qc 174 1000)])
              [at_0030 (qc 1 5)]
            = (Some [with_dates (at_0000 (qc 174 1000))
                       "2021-11-04 00:00:00" "2021-11-04 00:30:00";
                     at_0030 (qc 1 5)],
               (true, Saved 1)))
    by (vm_compute; reflexivity).
  split; [exact Hfirst|].
  apply (second_merge_fails NoFault NoFault [at_0000 (qc 174 1000)]
           [at_0030 (qc 1 5)] _ [at_0030 (qc 1 5)] 1).
  - discriminate.
  - exact Hfirst.
Defined.

(** Where the claim does hold: a first import into a missing store,
    merged a second time, is rejected as duplicates and the file stays. *)

Lemma mapM_total {A B : Type} (f : A -> result B) (l : list A) :
  Forall (fun x => exists y, f x = Ok y) l -> exists ys, mapM f l = Ok ys.
Proof.
  induction 1 as [| x rest [y Hy] _ [ys Hys]]; simpl.
  - exists []. reflexivity.
  - rewrite Hy, Hys. exists (y :: ys). reflexivity.
Qed.

Lemma Forall2_In_left {A B : Type} (R : A -> B -> Prop) (l : list A)
    (ys : list B) (x : A) :
  Forall2 R l ys -> In x l -> exists y, In y ys /\ R x y.
Proof.
  induction 1 as [| a b rest ys' Hab _ IH]; intros Hin; [destruct Hin|].
  destruct Hin as [-> | Hin].
  - exists b. split; [left; reflexivity | exact Hab].
  - destruct (IH Hin) as [y [Hy Hxy]]. exists y. split; [right|]; assumption.
Qed.

Lemma remove_duplicates_all_stored (existing_keys : list string)
    (new_data : list (row string)) :
  Forall (fun r => exists k, new_key r = Ok k /\ In k existing_keys)
         new_data ->
  remove_duplicates existing_keys new_data = Ok [].
Proof.
  induction 1 as [| r rest [k [Hk Hin]] _ IH]; simpl; [reflexivity|].
  rewrite Hk, IH. simpl. apply isin_In in Hin. rewrite Hin. reflexivity.
Qed.

Lemma sort_values_starts (new_data : list (row string))
    (sorted : list (row cell)) :
  sort_values (map of_new new_data) = Ok sorted ->
  Forall (fun r => exists t, strptime (StartDate r) = Ok t) new_data.
Proof.
  unfold sort_values.
  destruct (mapM _ (map of_new new_data)) as [keyed|] eqn:Hkeyed; simpl;
    [|discriminate].
  intros _. apply mapM_Forall2 in Hkeyed.
  apply Forall_forall. intros r Hin.
  destruct (Forall2_In_left _ _ _ (of_new r) Hkeyed (in_map of_new _ _ Hin))
    as [[c t] [_ Hc]].
  destruct r. cbn [of_new with_dates StartDate to_datetime] in Hc.
  cbn [StartDate].
  destruct (strptime StartDate0) as [t'|]; [|discriminate].
  exists t'. reflexivity.
Qed.

Lemma existing_key_parsed (r : row string) (e : row datetime) (k : string) :
  parse_dates r = Ok e -> new_key r = Ok k -> existing_key e = k.
Proof.
  unfold parse_dates, new_key, existing_key.
  destruct (strptime (StartDate r)) as [start|]; simpl; [|discriminate].
  destruct (strptime (EndDate r)) as [finish|]; simpl; [|discriminate].
  intros [= <-] [= <-]. destruct r. reflexivity.
Qed.

Lemma first_import_idempotent (f : fault)
    (new_data file1 : list (row string)) (n : nat) :
  Forall (fun r => exists t, strptime (EndDate r) = Ok t) new_data ->
  _append_to_csv NoFault None new_data = (Some file1, (true, Saved n)) ->
  _append_to_csv f (Some file1) new_data = (Some file1, (true, NoNewUnique)).
Proof.
  intros Hends Hfirst.
  unfold _append_to_csv, combine in Hfirst.
  destruct (sort_values (map of_new new_data)) as [sorted|] eqn:Hsort;
    cbn [bind to_csv] in Hfirst; [|discriminate].
  injection Hfirst as <- _.
  pose proof (sort_values_starts _ _ Hsort) as Hstarts.
  assert (Hperm : Permutation (map csv_row sorted) new_data).
  { apply Permutation_trans with (map csv_row (map of_new new_data)).
    - apply Permutation_map. exact (sort_values_perm _ _ Hsort).
    - rewrite map_csv_row_of_new. apply Permutation_refl. }
  assert (Hparsable :
            forall r, In r new_data -> exists e, parse_dates r = Ok e).
  { intros r Hin.
    rewrite Forall_forall in Hstarts, Hends.
    destruct (Hstarts r Hin) as [start Hstart].
    destruct (Hends r Hin) as [finish Hfinish].
    unfold parse_dates. rewrite Hstart, Hfinish. simpl. eauto. }
  destruct (mapM_total parse_dates (map csv_row sorted)) as [existing Hparse].
  { apply Forall_forall. intros r Hin. apply Hparsable.
    exact (Permutation_in _ Hperm Hin). }
  unfold _append_to_csv, combine. rewrite Hparse. cbn [bind].
  rewrite remove_duplicates_all_stored; [reflexivity|].
  apply Forall_forall. intros r Hin.
  apply mapM_Forall2 in Hparse.
  destruct (Forall2_In_left _ _ _ r Hparse
              (Permutation_in _ (Permutation_sym Hperm) Hin))
    as [e [He Hre]].
  rewrite Forall_forall in Hstarts. destruct (Hstarts r Hin) as [start Hstart].
  exists (make_key r start). split.
  - unfold new_key. rewrite Hstart. reflexivity.
  - apply in_map_iff. exists e. split; [|exact He].
    apply (existing_key_parsed r e); [exact Hre|].
    unfold new_key. rewrite Hstart. reflexivity.
Qed.

(** The same through [download_and_update_data].  The store holds the
    reading of 00:00 and the NEM12 file the readings of 00:00, 00:30 and
    01:00.  The first import adds the reading of 01:00 (the start date it
    computes is 01:00) and rewrites the stored row; the second import of
    the same file fails. *)
Lemma reimport_after_update_fails :
  download_and_update_data NoFault (Some [at_0000 (qc 174 1000)])
    "41032871534"
    (Some (Nem12Parsed
             (Ok [at_0000 (qc 174 1000); at_0030 (qc 1 5); at_0100 (qc 1 4)])))
    None
  = (Some [with_dates (at_0000 (qc 174 1000))
             "2021-11-04 00:00:00" "2021-11-04 00:30:00";
           at_0100 (qc 1 4)],
     (true, Added 1))
  /\ download_and_update_data NoFault
       (Some [with_dates (at_0000 (qc 174 1000))
                "2021-11-04 00:00:00" "2021-11-04 00:30:00";
              at_0100 (qc 1 4)])
       "41032871534"
       (Some (Nem12Parsed
                (Ok [at_0000 (qc 174 1000); at_0030 (qc 1 5);
                     at_0100 (qc 1 4)])))
       None
     = (Some [with_dates (at_0000 (qc 174 1000))
                "2021-11-04 00:00:00" "2021-11-04 00:30:00";
              at_0100 (qc 1 4)],
        (false, AppendFailed (ErrorSaving ValueError))).
Proof. split; vm_compute; reflexivity. Qed.

(** A first import into a missing store with an explicit start date, run
    twice: the second run leaves the file alone, every reading being a
    duplicate, but the message still counts the whole batch as added. *)
Lemma reimport_counts_whole_batch :
  download_and_update_data NoFault None "41032871534"
    (Some (Nem12Parsed (Ok [at_0000 (qc 174 1000); at_0030 (qc 1 5)])))
    (Some (mk_datetime 2021 11 4 0 0 0))
  = (Some [at_0000 (qc 174 1000); at_0030 (qc 1 5)], (true, Added 2))
  /\ _append_to_csv NoFault
       (Some [at_0000 (qc 174 1000); at_0030 (qc 1 5)])
       [at_0000 (qc 174 1000); at_0030 (qc 1 5)]
     = (Some [at_0000 (qc 174 1000); at_0030 (qc 1 5)], (true, NoNewUnique))
  /\ download_and_update_data NoFault
       (Some [at_0000 (qc 174 1000); at_0030 (qc 1 5)]) "41032871534"
       (Some (Nem12Parsed (Ok [at_0000 (qc 174 1000); at_0030 (qc 1 5)])))
       (Some (mk_datetime 2021 11 4 0 0 0))
     = (Some [at_0000 (qc 174 1000); at_0030 (qc 1 5)], (true, Added 2)).
Proof. repeat split; vm_compute; reflexivity. Qed.

(** Without an explicit start date the second run of a first import stops
    before the merge: nothing in the file starts after the last stored
    end date. *)
Lemma reimport_first_import_no_new_data :
  download_and_update_data NoFault None "41032871534"
    (Some (Nem12Parsed (Ok [at_0000 (qc 174 1000); at_0030 (qc 1 5)])))
    None
  = (Some [at_0000 (qc 174 1000); at_0030 (qc 1 5)], (true, Added 2))
  /\ download_and_update_data NoFault
       (Some [at_0000 (qc 174 1000); at_0030 (qc 1 5)]) "41032871534"
       (Some (Nem12Parsed (Ok [at_0000 (qc 174 1000); at_0030 (qc 1 5)])))
       None
     = (Some [at_0000 (qc 174 1000); at_0030 (qc 1 5)], (true, NoNewData)).
Proof. split; vm_compute; reflexivity. Qed.

(** *** Persisting *)


End Merge.

(** ** More on the tariff resolver *)

Module ResolverMore.

Local Open Scope string_scope.
Local Open Scope list_scope.
Local Open Scope Z_scope.

(** Several ranges, all well written: on the sample weekend-style list
    ["22-8"; "9-17"] the hour 12 is found in the second range. *)
Lemma is_hour_in_range_any_witness :
  mapM parse_hour_range ["22-8"; "9-17"] = Ok [(22, 8); (9, 17)]
  /\ _is_hour_in_range 12 ["22-8"; "9-17"] =
       Ok (existsb (fun r => range_contains (fst r) (snd r) 12)
                   [(22, 8); (9, 17)])
  /\ _is_hour_in_range 12 ["22-8"; "9-17"] = Ok true.
Proof.
  split; [reflexivity|]. split; [|reflexivity].
  apply (Resolver.is_hour_in_range_any 12 ["22-8"; "9-17"]
           [(22, 8); (9, 17)]).
  reflexivity.
Defined.

(** X2.  A range that does not split in two at the hyphen raises
    [ValueError] when the loop reaches it; the loop does not reach it
    when an earlier range already contains the hour. *)
Theorem malformed_range (hour : Z) (before after : list string)
    (bad : string) (parsed : list (Z * Z)) :
  mapM parse_hour_range before = Ok parsed ->
  List.length (split "-" bad) <> 2%nat ->
  _is_hour_in_range hour (before ++ bad :: after) =
    if existsb (fun r => range_contains (fst r) (snd r) hour) parsed
    then Ok true
    else Raise ValueError.
Proof.
  intros Hbefore Hparts.
  assert (Hbad : parse_hour_range bad = Raise ValueError).
  { unfold parse_hour_range.
    destruct (split "-" bad) as [| a [| b [| c rest]]]; try reflexivity.
    exfalso. apply Hparts. reflexivity. }
  revert parsed Hbefore.
  induction before as [| range rest IH]; intros parsed.
  - intros [= <-]. cbn [app _is_hour_in_range existsb]. rewrite Hbad.
    reflexivity.
  - cbn [mapM].
    destruct (parse_hour_range range) as [[start end_]|] eqn:Hparse;
      cbn [bind]; [|discriminate].
    destruct (mapM parse_hour_range rest) as [parsed'|]; cbn [bind];
      [|discriminate].
    intros [= <-]. cbn [app].
    rewrite (Resolver.is_hour_in_range_cons _ _ _ _ _ Hparse).
    rewrite (IH parsed' eq_refl). cbn [existsb fst snd].
    destruct (range_contains start end_ hour); reflexivity.
Qed.

(** "9-17" followed by the misspelt "22:8": at 10 the first range
    answers, at 23 the second one is read and raises. *)
Lemma malformed_range_witness :
  _is_hour_in_range 10 ["9-17"; "22:8"; "0-6"] = Ok true
  /\ _is_hour_in_range 23 ["9-17"; "22:8"; "0-6"] = Raise ValueError.
Proof.
  split.
  - apply (malformed_range 10 ["9-17"] ["0-6"] "22:8" [(9, 17)]);
      [reflexivity | discriminate].
  - apply (malformed_range 23 ["9-17"] ["0-6"] "22:8" [(9, 17)]);
      [reflexivity | discriminate].
Defined.

(** X3.  A range whose two ends are equal is taken as wrapping and covers
    every hour. *)
Theorem equal_ends_cover_the_day (hour start : Z) (range : string)
    (rest : list string) :
  parse_hour_range range = Ok (start, start) ->
  _is_hour_in_range hour (range :: rest) = Ok true.
Proof.
  intros Hparse. rewrite (Resolver.is_hour_in_range_cons _ _ _ _ _ Hparse).
  unfold range_contains. rewrite Z.ltb_irrefl.
  destruct (hour >=? start) eqn:Hge; [reflexivity|].
  assert (Hlt : (hour <? start) = true).
  { apply Z.ltb_lt. rewrite Z.geb_leb in Hge. apply Z.leb_gt in Hge. lia. }
  rewrite Hlt. reflexivity.
Qed.

Lemma equal_ends_cover_the_day_witness :
  _is_hour_in_range 3 ["7-7"] = Ok true
  /\ _is_hour_in_range 19 ["7-7"] = Ok true.
Proof.
  split.
  - apply (equal_ends_cover_the_day 3 7 "7-7" []). reflexivity.
  - apply (equal_ends_cover_the_day 19 7 "7-7" []). reflexivity.
Defined.

Lemma season_of_month_first (m : Z) (before after : dict (list Z))
    (season : string) (months : list Z) :
  (forall s ms, In (s, ms) before -> ~ In m ms) ->
  In m months ->
  season_of_month m (before ++ (season, months) :: after) = Some season.
Proof.
  intros Hbefore Hin.
  induction before as [| [s ms] rest IH]; cbn [app season_of_month].
  - assert (Hex : existsb (Z.eqb m) months = true).
    { apply existsb_exists. exists m. split; [exact Hin | apply Z.eqb_refl]. }
    rewrite Hex. reflexivity.
  - destruct (existsb (Z.eqb m) ms) eqn:Hex.
    + apply existsb_exists in Hex. destruct Hex as [x [Hx Heq]].
      apply Z.eqb_eq in Heq. subst x.
      exfalso. exact (Hbefore s ms (or_introl eq_refl) Hx).
    + apply IH. intros s' ms' Hin'. apply (Hbefore s' ms'). right. exact Hin'.
Qed.

(** X4.  [_get_season]: an unknown vendor raises [KeyError]; otherwise the
    first season, in the order of the ['periods'] object, whose months
    contain the month of the timestamp is returned, also when a later
    season lists the month too; and [None] when no season lists it. *)
Theorem get_season_first_listed (cfg : pricing_config) (vendor : string)
    (timestamp : datetime) :
  (dict_get cfg vendor = None ->
   _get_season cfg vendor timestamp = Raise KeyError)
  /\ (forall v before season months after,
        dict_get cfg vendor = Some v ->
        periods v = before ++ (season, months) :: after ->
        (forall s ms, In (s, ms) before -> ~ In (month timestamp) ms) ->
        In (month timestamp) months ->
        _get_season cfg vendor timestamp = Ok (Some season))
  /\ (forall v,
        dict_get cfg vendor = Some v ->
        (forall s ms, In (s, ms) (periods v) -> ~ In (month timestamp) ms) ->
        _get_season cfg vendor timestamp = Ok None).
Proof.
  unfold _get_season. split; [|split].
  - intros Hmissing. rewrite (Resolver.getitem_missing _ _ Hmissing).
    reflexivity.
  - intros v before season months after Hv Hperiods Hbefore Hin.
    rewrite (Resolver.getitem_found _ _ _ Hv). cbn [bind].
    rewrite Hperiods, (season_of_month_first _ _ _ _ _ Hbefore Hin).
    reflexivity.
  - intros v Hv Hnone.
    rewrite (Resolver.getitem_found _ _ _ Hv). cbn [bind].
    rewrite (Resolver.season_of_month_none _ _ Hnone). reflexivity.
Qed.

(** October is listed by the second season of the sample vendor, July by
    none, and "nobody" is no vendor. *)
Lemma get_season_first_listed_witness :
  _get_season demo_config "nobody" (friday 15 0 0) = Raise KeyError
  /\ _get_season demo_config "demo" (friday 15 0 0) = Ok (Some "standard")
  /\ _get_season demo_config "demo" (mk_datetime 2024 7 15 15 0 0) = Ok None.
Proof.
  destruct (get_season_first_listed demo_config "nobody" (friday 15 0 0))
    as [Hvendor _].
  destruct (get_season_first_listed demo_config "demo" (friday 15 0 0))
    as [_ [Hfirst _]].
  destruct (get_season_first_listed demo_config "demo"
              (mk_datetime 2024 7 15 15 0 0)) as [_ [_ Hnone]].
  split; [|split].
  - apply Hvendor. reflexivity.
  - apply (Hfirst demo_vendor [("summer", [12; 1; 2])] "standard"
             [3; 4; 5; 9; 10; 11] []); try reflexivity.
    + intros s ms [Heq | []]. inversion Heq; subst. simpl.
      intros H; repeat (destruct H as [H | H]; [discriminate|]); exact H.
    + simpl. tauto.
  - apply (Hnone demo_vendor); [reflexivity|].
    intros s ms Hin. simpl in Hin.
    destruct Hin as [Heq | [Heq | []]]; inversion Heq; subst; simpl;
      intros H; repeat (destruct H as [H | H]; [discriminate|]); exact H.
Defined.

(** X5.  The three rate queries raise [KeyError] when the vendor is not
    configured, when the season found for the month (a name other than
    "periods" and "supply_charge") has no object of its own under the
    vendor, and when that object has no table for the day type. *)
Theorem rate_queries_key_error (cfg : pricing_config) (vendor : string)
    (timestamp : datetime) :
  let all_key_error :=
    get_rate cfg vendor timestamp = Raise KeyError
    /\ get_rate_type cfg vendor timestamp = Raise KeyError
    /\ get_solar_rate cfg vendor timestamp = Raise KeyError in
  (dict_get cfg vendor = None -> all_key_error)
  /\ (forall v season,
        dict_get cfg vendor = Some v ->
        season_of_month (month timestamp) (periods v) = Some season ->
        season <> "periods" ->
        season <> "supply_charge" ->
        dict_get (seasons v) season = None ->
        all_key_error)
  /\ (forall v season by_day,
        dict_get cfg vendor = Some v ->
        season_of_month (month timestamp) (periods v) = Some season ->
        season <> "periods" ->
        season <> "supply_charge" ->
        dict_get (seasons v) season = Some by_day ->
        dict_get by_day (day_type_of timestamp) = None ->
        all_key_error).
Proof.
  cbv zeta.
  rewrite Resolver.get_rate_resolve, Resolver.get_rate_type_resolve,
    Resolver.get_solar_rate_resolve.
  unfold resolve, _get_season, vendor_rates_of. split; [|split].
  - intros Hmissing. rewrite (Resolver.getitem_missing _ _ Hmissing).
    repeat split.
  - intros v season Hv Hseason _ _ Htable.
    rewrite (Resolver.getitem_found _ _ _ Hv). cbn [bind]. rewrite Hseason.
    rewrite (Resolver.getitem_missing _ _ Htable). repeat split.
  - intros v season by_day Hv Hseason _ _ Hby Hday.
    rewrite (Resolver.getitem_found _ _ _ Hv). cbn [bind]. rewrite Hseason.
    rewrite (Resolver.getitem_found _ _ _ Hby). cbn [bind].
    rewrite (Resolver.getitem_missing _ _ Hday). repeat split.
Qed.

(** A vendor whose only season, "all", has a weekday table and no
    weekend table: Saturday 12 October 2024 has no rate. *)
Lemma rate_queries_key_error_witness :
  let cfg := [("weekdays_only",
               mk_vendor [("all", [10])] (qc 1 1)
                         [("all", [("weekday", [])])])] in
  get_rate cfg "weekdays_only" (mk_datetime 2024 10 12 9 0 0) = Raise KeyError
  /\ get_rate_type cfg "weekdays_only" (mk_datetime 2024 10 12 9 0 0)
     = Raise KeyError
  /\ get_solar_rate cfg "weekdays_only" (mk_datetime 2024 10 12 9 0 0)
     = Raise KeyError.
Proof.
  cbv zeta.
  apply (proj2 (proj2
           (rate_queries_key_error
              [("weekdays_only",
                mk_vendor [("all", [10])] (qc 1 1)
                          [("all", [("weekday", [])])])]
              "weekdays_only" (mk_datetime 2024 10 12 9 0 0)))
           (mk_vendor [("all", [10])] (qc 1 1) [("all", [("weekday", [])])])
           "all" [("weekday", [])]);
    try reflexivity; discriminate.
Defined.

(** X6.  The resolver reads a timestamp only through its month, its day type
    and its hour: two timestamps that agree on these get the same rate,
    label and feed-in rate (or the same exception). *)
Theorem rate_depends_on_month_day_type_hour (cfg : pricing_config)
    (vendor : string) (t1 t2 : datetime) :
  month t1 = month t2 ->
  day_type_of t1 = day_type_of t2 ->
  hour t1 = hour t2 ->
  get_rate cfg vendor t1 = get_rate cfg vendor t2
  /\ get_rate_type cfg vendor t1 = get_rate_type cfg vendor t2
  /\ get_solar_rate cfg vendor t1 = get_solar_rate cfg vendor t2.
Proof.
  intros Hmonth Hday Hhour.
  unfold get_rate, get_rate_type, get_solar_rate, _get_season.
  rewrite Hmonth, Hday, Hhour. repeat split.
Qed.

(** Friday 11 October 2024, 15:00:00, and Monday 28 October 2024,
    15:59:59. *)
Lemma rate_depends_on_month_day_type_hour_witness :
  get_rate demo_config "demo" (friday 15 0 0)
  = get_rate demo_config "demo" (mk_datetime 2024 10 28 15 59 59)
  /\ get_rate_type demo_config "demo" (friday 15 0 0)
     = get_rate_type demo_config "demo" (mk_datetime 2024 10 28 15 59 59)
  /\ get_solar_rate demo_config "demo" (friday 15 0 0)
     = get_solar_rate demo_config "demo" (mk_datetime 2024 10 28 15 59 59).
Proof.
  apply (rate_depends_on_month_day_type_hour demo_config "demo"
           (friday 15 0 0) (mk_datetime 2024 10 28 15 59 59));
    reflexivity.
Defined.

End ResolverMore.

(** ** More on the billing aggregator *)

Module BillingMore.

Local Open Scope string_scope.
Local Open Scope list_scope.
Local Open Scope Z_scope.

Lemma qc_of_nat_0 : qc_of_nat 0 = 0%Qc.
Proof. apply Qc_is_canon. reflexivity. Qed.

Lemma qc_of_nat_S (n : nat) : qc_of_nat (S n) = (1 + qc_of_nat n)%Qc.
Proof.
  apply Qc_is_canon. unfold qc_of_nat, Qcplus, Q2Qc. cbn [this].
  rewrite !Qred_correct. rewrite Nat2Z.inj_succ. unfold Z.succ.
  rewrite inject_Z_plus. change (this 1%Qc) with 1%Q.
  change (inject_Z 1) with 1%Q. ring.
Qed.

Lemma to_nat_nonpos (n : Z) : n <= 0 -> Z.to_nat n = 0%nat.
Proof. destruct n; [reflexivity | lia | reflexivity]. Qed.

Lemma date_range_empty (s e : datetime) :
  to_seconds e < to_seconds s -> date_range s e = [].
Proof.
  intros Hlt. unfold date_range.
  assert (Hneg : (to_seconds e - to_seconds s) / 86400 < 0)
    by (apply Z.div_lt_upper_bound; lia).
  rewrite to_nat_nonpos by lia. reflexivity.
Qed.

Lemma date_range_In (s e : datetime) (d : Z) :
  In d (date_range s e) <->
  toordinal s <= d
  /\ to_seconds s + (d - toordinal s) * 86400 <= to_seconds e.
Proof.
  unfold date_range. rewrite in_map_iff. split.
  - intros [k [<- Hk]]. apply in_seq in Hk.
    assert (Hpos : 0 < (to_seconds e - to_seconds s) / 86400 + 1).
    { destruct (Z_lt_le_dec 0 ((to_seconds e - to_seconds s) / 86400 + 1))
        as [H | H]; [exact H|].
      rewrite to_nat_nonpos in Hk by exact H. lia. }
    assert (Hle : Z.of_nat k <= (to_seconds e - to_seconds s) / 86400) by lia.
    pose proof (Z.mul_div_le (to_seconds e - to_seconds s) 86400 eq_refl).
    split; [lia|nia].
  - intros [Hord Hsec].
    assert (Hq : d - toordinal s <= (to_seconds e - to_seconds s) / 86400)
      by (apply Z.div_le_lower_bound; lia).
    exists (Z.to_nat (d - toordinal s)). split; [lia|].
    apply in_seq. lia.
Qed.

Lemma date_range_NoDup (s e : datetime) : NoDup (date_range s e).
Proof.
  unfold date_range.
  generalize (Z.to_nat ((to_seconds e - to_seconds s) / 86400 + 1)).
  generalize 0%nat. intros start len. revert start.
  induction len as [| len IH]; intros start; cbn [seq map].
  - constructor.
  - constructor; [|apply IH].
    rewrite in_map_iff. intros [k [Heq Hk]]. apply in_seq in Hk. lia.
Qed.

Lemma filter_none {A : Type} (f : A -> bool) (l : list A) :
  (forall x, In x l -> f x = false) -> filter f l = [].
Proof.
  induction l as [| x rest IH]; intros H; cbn [filter]; [reflexivity|].
  rewrite (H x (or_introl eq_refl)). apply IH.
  intros y Hy. apply H. right. exact Hy.
Qed.

Section Days.

Variable cfg : pricing_config.
Variable df : frame.
Variable vendor : string.

Lemma cost_rows_no_usage (rows : frame) (total : Qc) :
  (forall r, In r rows -> RateTypeDescription r <> "Usage") ->
  calculate_cost_rows cfg vendor rows total = Ok total.
Proof.
  induction rows as [| r rest IH]; intros H; cbn [calculate_cost_rows];
    [reflexivity|].
  destruct (String.eqb_spec (RateTypeDescription r) "Usage") as [Heq | Hne].
  - exfalso. exact (H r (or_introl eq_refl) Heq).
  - apply IH. intros r' Hin. apply H. right. exact Hin.
Qed.

Lemma solar_rows_no_solar (rows : frame) (total : Qc) :
  (forall r, In r rows -> RateTypeDescription r <> "Solar") ->
  calculate_solar_feedin_rows cfg vendor rows total = Ok total.
Proof.
  induction rows as [| r rest IH]; intros H; cbn [calculate_solar_feedin_rows];
    [reflexivity|].
  destruct (String.eqb_spec (RateTypeDescription r) "Solar") as [Heq | Hne].
  - exfalso. exact (H r (or_introl eq_refl) Heq).
  - apply IH. intros r' Hin. apply H. right. exact Hin.
Qed.

(** X7.  A day without a ['Usage'] reading costs 0.0 and a day without a
    ['Solar'] reading earns 0.0 whatever the vendor, configured or not:
    the tariff is only consulted for a reading of the kind summed. *)
Theorem no_reading_no_lookup (date : Z) :
  ((forall r, In r df -> toordinal (StartDate r) = date ->
              RateTypeDescription r <> "Usage") ->
   calculate_cost cfg df date vendor = Ok 0%Qc
   /\ get_usage_by_date df date = 0%Qc)
  /\ ((forall r, In r df -> toordinal (StartDate r) = date ->
                 RateTypeDescription r <> "Solar") ->
      calculate_solar_feedin cfg df date vendor = Ok 0%Qc
      /\ get_solar_by_date df date = 0%Qc).
Proof.
  split; intros Hnone.
  - split.
    + apply cost_rows_no_usage. intros r Hin. unfold date_data in Hin.
      apply filter_In in Hin. destruct Hin as [Hin Hday].
      apply (Hnone r Hin). apply Z.eqb_eq. exact Hday.
    + unfold get_usage_by_date. rewrite filter_none; [reflexivity|].
      intros r Hin. unfold date_data in Hin.
      apply filter_In in Hin. destruct Hin as [Hin Hday].
      apply String.eqb_neq. apply (Hnone r Hin). apply Z.eqb_eq. exact Hday.
  - split.
    + apply solar_rows_no_solar. intros r Hin. unfold date_data in Hin.
      apply filter_In in Hin. destruct Hin as [Hin Hday].
      apply (Hnone r Hin). apply Z.eqb_eq. exact Hday.
    + unfold get_solar_by_date. rewrite filter_none; [reflexivity|].
      intros r Hin. unfold date_data in Hin.
      apply filter_In in Hin. destruct Hin as [Hin Hday].
      apply String.eqb_neq. apply (Hnone r Hin). apply Z.eqb_eq. exact Hday.
Qed.

Lemma cost_range_days_spec (dates : list Z) :
  forall st st',
    calculate_cost_range_days cfg df vendor dates st = Ok st' ->
    exists dc ds,
      rs_daily_costs st' = rs_daily_costs st ++ dc
      /\ rs_daily_solar st' = rs_daily_solar st ++ ds
      /\ map fst dc = dates
      /\ map fst ds = dates
      /\ Forall (fun p => calculate_cost cfg df (fst p) vendor = Ok (snd p)) dc
      /\ Forall (fun p => calculate_solar_feedin cfg df (fst p) vendor
                          = Ok (snd p)) ds
      /\ rs_total_cost st' = fold_left Qcplus (map snd dc) (rs_total_cost st)
      /\ rs_total_solar st' = fold_left Qcplus (map snd ds) (rs_total_solar st)
      /\ rs_total_days st' = rs_total_days st + Z.of_nat (List.length dates)
      /\ (forall supply,
            get_supply_charge cfg vendor = Ok supply ->
            rs_total_supply_charges st'
            = (rs_total_supply_charges st
               + qc_of_nat (List.length dates) * supply)%Qc).
Proof.
  induction dates as [| date rest IH]; intros st st' Hrun;
    cbn [calculate_cost_range_days] in Hrun.
  - injection Hrun as <-. exists [], []. rewrite !app_nil_r.
    repeat split; try constructor.
    + cbn [List.length Z.of_nat]. lia.
    + intros supply _. cbn [List.length]. rewrite qc_of_nat_0. ring.
  - destruct (calculate_cost cfg df date vendor) as [c |] eqn:Hc;
      cbn [bind] in Hrun; [|discriminate].
    destruct (calculate_solar_feedin cfg df date vendor) as [s |] eqn:Hs;
      cbn [bind] in Hrun; [|discriminate].
    destruct (get_supply_charge cfg vendor) as [p |] eqn:Hp;
      cbn [bind] in Hrun; [|discriminate].
    apply IH in Hrun.
    destruct Hrun as [dc [ds [Hdc [Hds [Hkc [Hks [Hvc [Hvs
                       [Htc [Hts [Hdays Hsupply]]]]]]]]]]].
    cbn [rs_daily_costs rs_daily_solar rs_total_cost rs_total_solar
         rs_total_days rs_total_supply_charges] in *.
    exists ((date, c) :: dc), ((date, s) :: ds).
    rewrite <- app_assoc in Hdc, Hds.
    repeat split.
    + exact Hdc.
    + exact Hds.
    + cbn [map fst]. rewrite Hkc. reflexivity.
    + cbn [map fst]. rewrite Hks. reflexivity.
    + constructor; [exact Hc | exact Hvc].
    + constructor; [exact Hs | exact Hvs].
    + exact Htc.
    + exact Hts.
    + rewrite Hdays. cbn [List.length]. lia.
    + intros supply [= <-]. rewrite (Hsupply p eq_refl).
      cbn [List.length]. rewrite qc_of_nat_S. ring.
Qed.

(** X9.  The days [calculate_cost_range] bills: both per-day dictionaries are
    keyed, in order and without repetition, by the days [d] from the
    start day on for which [start_date + (d - start day) days] is not
    after [end_date].  So the end day is billed only when the time of day
    of [end_date] is not before that of [start_date]. *)
Theorem billed_days (start_date end_date : datetime) (costs : cost_range) :
  calculate_cost_range cfg df start_date end_date vendor = Ok costs ->
  map fst (daily_costs costs) = date_range start_date end_date
  /\ map fst (daily_solar costs) = date_range start_date end_date
  /\ NoDup (map fst (daily_costs costs))
  /\ (forall d,
        In d (map fst (daily_costs costs)) <->
        toordinal start_date <= d
        /\ to_seconds start_date + (d - toordinal start_date) * 86400
           <= to_seconds end_date)
  /\ (In (toordinal end_date) (map fst (daily_costs costs)) <->
      toordinal start_date <= toordinal end_date
      /\ time_of_day start_date <= time_of_day end_date).
Proof.
  unfold calculate_cost_range. intros Hrun.
  destruct (calculate_cost_range_days cfg df vendor
              (date_range start_date end_date)
              (mk_range_state [] [] 0%Qc 0%Qc 0%Qc 0)) as [st |] eqn:Hdays;
    cbn [bind] in Hrun; [|discriminate].
  injection Hrun as <-. cbn [daily_costs daily_solar].
  apply cost_range_days_spec in Hdays.
  destruct Hdays as [dc [ds [Hdc [Hds [Hkc [Hks _]]]]]].
  cbn [rs_daily_costs rs_daily_solar app] in Hdc, Hds.
  rewrite Hdc, Hds, Hkc, Hks.
  split; [reflexivity|]. split; [reflexivity|].
  split; [apply date_range_NoDup|].
  split; [intros d; apply date_range_In|].
  rewrite date_range_In. unfold to_seconds, time_of_day. split; intros [H1 H2];
    (split; [exact H1 | lia]).
Qed.

(** X12.  A range whose end is before its start bills nothing: both
    aggregations return zeros and ['total_days'] 0 for any data and any
    vendor, without a lookup. *)
Theorem inverted_range_bills_nothing (start_date end_date : datetime) :
  to_seconds end_date < to_seconds start_date ->
  calculate_cost_range cfg df start_date end_date vendor
  = Ok (mk_cost_range [] [] 0%Qc 0%Qc 0%Qc 0%Qc
          (toordinal start_date) (toordinal end_date) 0 vendor)
  /\ calculate_detailed_breakdown cfg df start_date end_date vendor
     = Ok (mk_detailed_breakdown usage_breakdown_init 0%Qc 0%Qc 0%Qc 0%Qc
             0%Qc 0 (toordinal start_date) (toordinal end_date) vendor).
Proof.
  intros Hlt. unfold calculate_cost_range, calculate_detailed_breakdown.
  rewrite (date_range_empty _ _ Hlt).
  cbn [calculate_cost_range_days breakdown_days bind rs_daily_costs
       rs_daily_solar rs_total_cost rs_total_solar rs_total_supply_charges
       rs_total_days bs_usage_breakdown bs_total_supply_charges
       bs_total_days].
  split.
  - f_equal; f_equal; apply Qc_is_canon; reflexivity.
  - change usage_breakdown_init
      with (to_usage_breakdown
              (mk_buckets 0%Qc 0%Qc 0%Qc 0%Qc 0%Qc 0%Qc 0%Qc 0%Qc)).
    rewrite Billing.sum_periods_kwh, Billing.sum_periods_cost.
    cbn [bind peak_kwh off_peak_kwh shoulder_kwh peak_cost off_peak_cost
         shoulder_cost].
    cbn. f_equal; f_equal; apply Qc_is_canon; reflexivity.
Qed.

Lemma cost_rows_flat (rate : Qc) (rows : frame) :
  (forall r, In r rows -> RateTypeDescription r = "Usage" ->
             get_rate cfg vendor (StartDate r) = Ok rate) ->
  forall total,
    calculate_cost_rows cfg vendor rows total
    = Ok (total
          + sum_values
              (filter (fun r => String.eqb (RateTypeDescription r) "Usage")
                      rows)
            * rate)%Qc.
Proof.
  induction rows as [| r rest IH]; intros Hflat total;
    cbn [calculate_cost_rows filter].
  - f_equal. cbn [sum_values fold_right]. ring.
  - destruct (String.eqb_spec (RateTypeDescription r) "Usage") as [Hu | Hu].
    + rewrite (Hflat r (or_introl eq_refl) Hu). cbn [bind].
      rewrite IH by (intros r' Hin; apply Hflat; right; exact Hin).
      f_equal. change (sum_values (r :: ?l)) with
        (ProfileReadValue r + sum_values l)%Qc. ring.
    + apply IH. intros r' Hin. apply Hflat. right. exact Hin.
Qed.

Lemma solar_rows_flat (rate : Qc) (rows : frame) :
  (forall r, In r rows -> RateTypeDescription r = "Solar" ->
             get_solar_rate cfg vendor (StartDate r) = Ok (Some rate)) ->
  forall total,
    calculate_solar_feedin_rows cfg vendor rows total
    = Ok (total
          + sum_values
              (filter (fun r => String.eqb (RateTypeDescription r) "Solar")
                      rows)
            * rate)%Qc.
Proof.
  induction rows as [| r rest IH]; intros Hflat total;
    cbn [calculate_solar_feedin_rows filter].
  - f_equal. cbn [sum_values fold_right]. ring.
  - destruct (String.eqb_spec (RateTypeDescription r) "Solar") as [Hu | Hu].
    + rewrite (Hflat r (or_introl eq_refl) Hu). cbn [bind mul_rate].
      rewrite IH by (intros r' Hin; apply Hflat; right; exact Hin).
      f_equal. change (sum_values (r :: ?l)) with
        (ProfileReadValue r + sum_values l)%Qc. ring.
    + apply IH. intros r' Hin. apply Hflat. right. exact Hin.
Qed.

(** X8.  On a day whose usage readings all resolve to one rate the cost is
    [get_usage_by_date] times that rate, and on a day whose solar
    readings all resolve to one feed-in rate the credit is
    [get_solar_by_date] times that rate. *)
Theorem flat_rate_day (date : Z) (rate : Qc) :
  ((forall r, In r (date_data df date) -> RateTypeDescription r = "Usage" ->
              get_rate cfg vendor (StartDate r) = Ok rate) ->
   calculate_cost cfg df date vendor
   = Ok (get_usage_by_date df date * rate)%Qc)
  /\ ((forall r, In r (date_data df date) ->
                 RateTypeDescription r = "Solar" ->
                 get_solar_rate cfg vendor (StartDate r) = Ok (Some rate)) ->
      calculate_solar_feedin cfg df date vendor
      = Ok (get_solar_by_date df date * rate)%Qc).
Proof.
  split; intros Hflat.
  - unfold calculate_cost, get_usage_by_date.
    rewrite (cost_rows_flat rate _ Hflat). f_equal. ring.
  - unfold calculate_solar_feedin, get_solar_by_date.
    rewrite (solar_rows_flat rate _ Hflat). f_equal. ring.
Qed.

End Days.

(** Friday 11 October 2024: the 2 kWh used at 15:00 are billed at the
    peak rate, 0.30. *)
Lemma flat_rate_day_witness :
  calculate_cost demo_config scenario_frame (toordinal (friday 0 0 0)) "demo"
  = Ok (get_usage_by_date scenario_frame (toordinal (friday 0 0 0))
        * qc 3 10)%Qc.
Proof.
  apply (proj1 (flat_rate_day demo_config scenario_frame "demo"
                  (toordinal (friday 0 0 0)) (qc 3 10))).
  intros r [<- | [<- | []]] Hkind; [|discriminate].
  vm_compute; f_equal; apply Qc_is_canon; reflexivity.
Defined.

Lemma no_reading_no_lookup_witness :
  calculate_cost demo_config peak_export_frame (toordinal (friday 0 0 0))
                 "nobody" = Ok 0%Qc
  /\ get_usage_by_date peak_export_frame (toordinal (friday 0 0 0)) = 0%Qc.
Proof.
  apply (proj1 (no_reading_no_lookup demo_config peak_export_frame "nobody"
                  (toordinal (friday 0 0 0)))).
  intros r [<- | []] _. discriminate.
Defined.

(** From Friday 11 October 2024 at noon to Saturday 12 October at
    midnight: Saturday is not billed. *)
Lemma billed_days_witness :
  match calculate_cost_range demo_config scenario_frame (friday 12 0 0)
          (mk_datetime 2024 10 12 0 0 0) "demo" with
  | Ok costs =>
      map fst (daily_costs costs) = [toordinal (friday 12 0 0)]
      /\ ~ In (toordinal (mk_datetime 2024 10 12 0 0 0))
              (map fst (daily_costs costs))
  | Raise _ => False
  end.
Proof.
  destruct (calculate_cost_range demo_config scenario_frame (friday 12 0 0)
              (mk_datetime 2024 10 12 0 0 0) "demo") as [costs |] eqn:Hrun.
  - destruct (billed_days demo_config scenario_frame "demo" (friday 12 0 0)
                (mk_datetime 2024 10 12 0 0 0) costs Hrun)
      as [Hkeys [_ [_ [_ Hend]]]].
    split.
    + rewrite Hkeys. reflexivity.
    + intros Hin. apply Hend in Hin. destruct Hin as [_ Htime].
      vm_compute in Htime. apply Htime. reflexivity.
  - vm_compute in Hrun. discriminate.
Defined.

(** From Friday 11 October 2024 back to Thursday 10 October, for a vendor
    that is not configured. *)
Lemma inverted_range_bills_nothing_witness :
  calculate_cost_range demo_config scenario_frame (friday 0 0 0)
    (mk_datetime 2024 10 10 0 0 0) "nobody"
  = Ok (mk_cost_range [] [] 0%Qc 0%Qc 0%Qc 0%Qc
          (toordinal (friday 0 0 0))
          (toordinal (mk_datetime 2024 10 10 0 0 0)) 0 "nobody")
  /\ cr_total_days
       (mk_cost_range [] [] 0%Qc 0%Qc 0%Qc 0%Qc
          (toordinal (friday 0 0 0))
          (toordinal (mk_datetime 2024 10 10 0 0 0)) 0 "nobody") = 0.
Proof.
  split; [|reflexivity].
  apply (proj1 (inverted_range_bills_nothing demo_config scenario_frame
                  "nobody" (friday 0 0 0) (mk_datetime 2024 10 10 0 0 0)
                  eq_refl)).
Defined.

(** *** The breakdown without an assumption on the tariff *)

Lemma usage_label_dec (label : string) :
  {usage_label label} + {~ usage_label label}.
Proof.
  unfold usage_label.
  destruct (string_dec label "peak") as [H1 | H1]; [left; tauto|].
  destruct (string_dec label "off_peak") as [H2 | H2]; [left; tauto|].
  destruct (string_dec label "shoulder") as [H3 | H3]; [left; tauto|].
  right. tauto.
Qed.

Lemma unlisted_updates_raise {A : Type} (b : buckets) (label : string)
    (kwh cost : Qc) (k : dict (dict Qc) -> result A) :
  ~ usage_label label ->
  is_raise (ub1 <- add_to (to_usage_breakdown b) label "kwh" (Ok kwh) ;;
            ub2 <- add_to ub1 label "cost" (Ok cost) ;;
            k ub2).
Proof.
  unfold usage_label. intros Hnot.
  destruct (String.eqb_spec "solar" label) as [<- | Hsolar].
  - exists KeyError. reflexivity.
  - exists KeyError. unfold add_to at 1. unfold getitem at 1.
    unfold to_usage_breakdown. cbn [dict_get].
    destruct (String.eqb_spec "peak" label) as [<- | _]; [tauto|].
    destruct (String.eqb_spec "off_peak" label) as [<- | _]; [tauto|].
    destruct (String.eqb_spec "shoulder" label) as [<- | _]; [tauto|].
    destruct (String.eqb_spec "solar" label) as [<- | _]; [tauto|].
    reflexivity.
Qed.

Lemma sum_values_cons (r : row datetime) (rows : frame) :
  sum_values (r :: rows) = (ProfileReadValue r + sum_values rows)%Qc.
Proof. reflexivity. Qed.

Lemma sum_qc_cons (x : Qc) (l : list Qc) :
  sum_qc (x :: l) = (x + sum_qc l)%Qc.
Proof. reflexivity. Qed.

Lemma add_usage_solar_kwh (b : buckets) (label : string) (kwh cost : Qc) :
  solar_kwh (add_usage b label kwh cost) = solar_kwh b.
Proof.
  unfold add_usage.
  destruct (String.eqb label "peak"); [reflexivity|].
  destruct (String.eqb label "off_peak"); reflexivity.
Qed.

Section Shape.

Variable cfg : pricing_config.
Variable vendor : string.

(** A run of [breakdown_rows] that returns keeps the four entries of
    [usage_breakdown], found a listed label for every usage reading, and
    added every usage and every solar reading to an energy bucket. *)
Lemma breakdown_rows_shape (rows : frame) :
  forall (b : buckets) (ub : dict (dict Qc)),
    breakdown_rows cfg vendor rows (to_usage_breakdown b) = Ok ub ->
    exists b',
      ub = to_usage_breakdown b'
      /\ usage_kwh_total b'
         = (usage_kwh_total b
            + sum_values
                (filter (fun r => String.eqb (RateTypeDescription r) "Usage")
                        rows))%Qc
      /\ solar_kwh b'
         = (solar_kwh b
            + sum_values
                (filter (fun r => String.eqb (RateTypeDescription r) "Solar")
                        rows))%Qc
      /\ (forall r, In r rows -> RateTypeDescription r = "Usage" ->
            exists label,
              get_rate_type cfg vendor (StartDate r) = Ok label
              /\ usage_label label).
Proof.
  induction rows as [| r rest IH]; intros b ub Hrun.
  - injection Hrun as <-. exists b. cbn [filter sum_values fold_right].
    split; [reflexivity|]. split; [ring|]. split; [ring|]. intros r [].
  - cbn [breakdown_rows] in Hrun. cbn [filter].
    destruct (String.eqb_spec (RateTypeDescription r) "Usage") as [Hu | Hu].
    + rewrite Hu. change (String.eqb "Usage" "Solar") with false.
      destruct (get_rate cfg vendor (StartDate r)) as [rate |];
        cbn [bind] in Hrun; [|discriminate].
      destruct (get_rate_type cfg vendor (StartDate r)) as [label |] eqn:Hl;
        cbn [bind] in Hrun; [|discriminate].
      destruct (usage_label_dec label) as [Hlabel | Hlabel].
      * rewrite (Billing.usage_updates b label _ _ _ Hlabel) in Hrun.
        apply IH in Hrun. destruct Hrun as [b' [Hub [Hk [Hs Hrows]]]].
        exists b'. split; [exact Hub|].
        rewrite Billing.add_usage_kwh_total in Hk.
        rewrite add_usage_solar_kwh in Hs.
        split; [|split].
        -- rewrite Hk, sum_values_cons. ring.
        -- exact Hs.
        -- intros r' [<- | Hin] Hkind.
           ++ exists label. split; [exact Hl | exact Hlabel].
           ++ exact (Hrows r' Hin Hkind).
      * exfalso.
        destruct (unlisted_updates_raise b label (ProfileReadValue r)
                    (ProfileReadValue r * rate)%Qc
                    (fun ub2 => breakdown_rows cfg vendor rest ub2) Hlabel)
          as [e He].
        rewrite He in Hrun. discriminate.
    + destruct (String.eqb_spec (RateTypeDescription r) "Solar") as [Hs | Hs].
      * destruct (get_solar_rate cfg vendor (StartDate r)) as [rate |];
          cbn [bind] in Hrun; [|discriminate].
        rewrite Billing.solar_updates in Hrun.
        destruct rate as [x |]; [|discriminate].
        apply IH in Hrun. destruct Hrun as [b' [Hub [Hk [Hsk Hrows]]]].
        exists b'. split; [exact Hub|].
        cbn [add_solar usage_kwh_total solar_kwh peak_kwh off_peak_kwh
             shoulder_kwh] in Hk, Hsk.
        split; [|split].
        -- exact Hk.
        -- rewrite Hsk, sum_values_cons. ring.
        -- intros r' [<- | Hin] Hkind; [contradiction|].
           exact (Hrows r' Hin Hkind).
      * apply IH in Hrun. destruct Hrun as [b' [Hub [Hk [Hsk Hrows]]]].
        exists b'. split; [exact Hub|]. split; [exact Hk|].
        split; [exact Hsk|].
        intros r' [<- | Hin] Hkind; [contradiction|].
        exact (Hrows r' Hin Hkind).
Qed.

Variable df : frame.

Lemma breakdown_days_shape (dates : list Z) :
  forall (sb sb' : breakdown_state) (b : buckets),
    bs_usage_breakdown sb = to_usage_breakdown b ->
    breakdown_days cfg df vendor dates sb = Ok sb' ->
    exists b',
      bs_usage_breakdown sb' = to_usage_breakdown b'
      /\ usage_kwh_total b'
         = (usage_kwh_total b + sum_qc (map (get_usage_by_date df) dates))%Qc
      /\ solar_kwh b'
         = (solar_kwh b + sum_qc (map (get_solar_by_date df) dates))%Qc
      /\ bs_total_days sb' = bs_total_days sb + Z.of_nat (List.length dates)
      /\ (forall supply,
            get_supply_charge cfg vendor = Ok supply ->
            bs_total_supply_charges sb'
            = (bs_total_supply_charges sb
               + qc_of_nat (List.length dates) * supply)%Qc)
      /\ (forall date r,
            In date dates -> In r (date_data df date) ->
            RateTypeDescription r = "Usage" ->
            exists label,
              get_rate_type cfg vendor (StartDate r) = Ok label
              /\ usage_label label).
Proof.
  induction dates as [| date rest IH]; intros sb sb' b Hshape Hrun;
    cbn [breakdown_days] in Hrun.
  - injection Hrun as <-. exists b. cbn [map sum_qc fold_right List.length].
    rewrite qc_of_nat_0.
    split; [exact Hshape|]. split; [ring|]. split; [ring|].
    split; [cbn [Z.of_nat]; lia|].
    split; [intros supply _; ring | intros date r []].
  - destruct (get_supply_charge cfg vendor) as [p |] eqn:Hp;
      cbn [bind] in Hrun; [|discriminate].
    rewrite Hshape in Hrun.
    destruct (breakdown_rows cfg vendor (date_data df date)
                (to_usage_breakdown b)) as [ub |] eqn:Hrows;
      cbn [bind] in Hrun; [|discriminate].
    apply breakdown_rows_shape in Hrows.
    destruct Hrows as [b1 [-> [Hk1 [Hs1 Hl1]]]].
    apply (IH _ _ b1) in Hrun; [|reflexivity].
    destruct Hrun as [b' [Hub [Hk [Hs [Hn [Hsupply Hl]]]]]].
    cbn [bs_total_days bs_total_supply_charges] in Hn, Hsupply.
    exists b'. split; [exact Hub|].
    split; [|split; [|split; [|split]]].
    + rewrite Hk, Hk1. cbn [map]. rewrite sum_qc_cons.
      unfold get_usage_by_date. ring.
    + rewrite Hs, Hs1. cbn [map]. rewrite sum_qc_cons.
      unfold get_solar_by_date. ring.
    + rewrite Hn. cbn [List.length]. lia.
    + intros supply [= <-]. rewrite (Hsupply p eq_refl).
      cbn [List.length]. rewrite qc_of_nat_S. ring.
    + intros date' r [<- | Hin] Hr Hkind.
      * exact (Hl1 r Hr Hkind).
      * exact (Hl date' r Hin Hr Hkind).
Qed.

(** X14.  A usage reading that falls into a tariff entry named other than
    peak, off_peak or shoulder makes [calculate_detailed_breakdown]
    raise: [usage_breakdown] has no such bucket (and its solar bucket has
    no ['cost']). *)
Theorem unlisted_label_raises (start_date end_date : datetime) (date : Z)
    (r : row datetime) (label : string) :
  In date (date_range start_date end_date) ->
  In r (date_data df date) ->
  RateTypeDescription r = "Usage" ->
  get_rate_type cfg vendor (StartDate r) = Ok label ->
  ~ usage_label label ->
  is_raise (calculate_detailed_breakdown cfg df start_date end_date vendor).
Proof.
  intros Hdate Hr Hkind Hlabel Hnot. unfold calculate_detailed_breakdown.
  destruct (breakdown_days cfg df vendor (date_range start_date end_date)
              (mk_breakdown_state usage_breakdown_init 0%Qc 0))
    as [sb | e] eqn:Hdays; cbn [bind]; [|exists e; reflexivity].
  exfalso.
  apply (breakdown_days_shape _ _ _
           (mk_buckets 0%Qc 0%Qc 0%Qc 0%Qc 0%Qc 0%Qc 0%Qc 0%Qc))
    in Hdays; [|reflexivity].
  destruct Hdays as [b [_ [_ [_ [_ [_ Hall]]]]]].
  destruct (Hall date r Hdate Hr Hkind) as [label' [Hl' Hok]].
  rewrite Hlabel in Hl'. injection Hl' as <-. exact (Hnot Hok).
Qed.

End Shape.

Lemma date_range_whole_days (s e : datetime) :
  time_of_day s = time_of_day e ->
  toordinal s <= toordinal e ->
  Z.of_nat (List.length (date_range s e)) = toordinal e - toordinal s + 1.
Proof.
  intros Htime Hord. unfold date_range. rewrite length_map, length_seq.
  replace (to_seconds e - to_seconds s)
    with ((toordinal e - toordinal s) * 86400)
    by (unfold to_seconds, time_of_day in *; lia).
  rewrite Z.div_mul by lia. rewrite Z2Nat.id by lia. reflexivity.
Qed.

(** X11.  A range whose two ends carry the same time of day, midnight for one,
    is billed with both end days included: ['total_days'] is the number
    of days from the start day to the end day, in both aggregations. *)
Theorem inclusive_day_count (cfg : pricing_config) (df : frame)
    (vendor : string) (start_date end_date : datetime) :
  time_of_day start_date = time_of_day end_date ->
  toordinal start_date <= toordinal end_date ->
  (forall costs,
      calculate_cost_range cfg df start_date end_date vendor = Ok costs ->
      cr_total_days costs = toordinal end_date - toordinal start_date + 1
      /\ In (toordinal start_date) (map fst (daily_costs costs))
      /\ In (toordinal end_date) (map fst (daily_costs costs)))
  /\ (forall detail,
        calculate_detailed_breakdown cfg df start_date end_date vendor
        = Ok detail ->
        total_days detail = toordinal end_date - toordinal start_date + 1).
Proof.
  intros Htime Hord. split.
  - intros costs Hrun. unfold calculate_cost_range in Hrun.
    destruct (calculate_cost_range_days cfg df vendor
                (date_range start_date end_date)
                (mk_range_state [] [] 0%Qc 0%Qc 0%Qc 0)) as [st |] eqn:Hdays;
      cbn [bind] in Hrun; [|discriminate].
    injection Hrun as <-. cbn [cr_total_days daily_costs].
    apply cost_range_days_spec in Hdays.
    destruct Hdays as [dc [ds [Hdc [_ [Hkc [_ [_ [_ [_ [_ [Hn _]]]]]]]]]]].
    cbn [rs_daily_costs rs_total_days app] in Hdc, Hn.
    rewrite Hdc, Hkc, Hn, (date_range_whole_days _ _ Htime Hord).
    split; [lia|]. rewrite !date_range_In.
    unfold to_seconds, time_of_day in *. split; split; lia.
  - intros detail Hrun. unfold calculate_detailed_breakdown in Hrun.
    destruct (breakdown_days cfg df vendor (date_range start_date end_date)
                (mk_breakdown_state usage_breakdown_init 0%Qc 0))
      as [sb |] eqn:Hdays; cbn [bind] in Hrun; [|discriminate].
    apply (breakdown_days_shape _ _ _ _ _ _
             (mk_buckets 0%Qc 0%Qc 0%Qc 0%Qc 0%Qc 0%Qc 0%Qc 0%Qc))
      in Hdays; [|reflexivity].
    destruct Hdays as [b [Hub [_ [_ [Hn _]]]]].
    rewrite Hub in Hrun.
    rewrite Billing.sum_periods_kwh, Billing.sum_periods_cost in Hrun.
    cbn [bind] in Hrun. injection Hrun as <-. cbn [total_days].
    cbn [bs_total_days] in Hn.
    rewrite Hn, (date_range_whole_days _ _ Htime Hord). lia.
Qed.

(** From Friday 11 October 2024 to Sunday 10 November 2024, both at
    midnight: 31 days. *)
Lemma inclusive_day_count_witness :
  match calculate_cost_range demo_config scenario_frame (friday 0 0 0)
          (mk_datetime 2024 11 10 0 0 0) "demo" with
  | Ok costs => cr_total_days costs = 31
  | Raise _ => False
  end.
Proof.
  destruct (calculate_cost_range demo_config scenario_frame (friday 0 0 0)
              (mk_datetime 2024 11 10 0 0 0) "demo") as [costs |] eqn:Hrun.
  - destruct (inclusive_day_count demo_config scenario_frame "demo"
                (friday 0 0 0) (mk_datetime 2024 11 10 0 0 0))
      as [Hcosts _].
    + reflexivity.
    + apply Zle_bool_imp_le. reflexivity.
    + exact (proj1 (Hcosts costs Hrun)).
  - vm_compute in Hrun. discriminate.
Defined.

(** 2 kWh used on Friday 11 October 2024 at 15:00 under the "super_peak"
    tariff: the day has a cost, the breakdown has none. *)
Lemma unlisted_label_raises_witness :
  let df := [ reading "41032871534" "700813815#E1" "Usage"
                      (friday 15 0 0) (friday 15 30 0) (qc 2 1) ] in
  calculate_cost super_peak_config df (toordinal (friday 0 0 0)) "super"
  = Ok (qc 1 1)
  /\ is_raise (calculate_detailed_breakdown super_peak_config df
                 (friday 0 0 0) (friday 0 0 0) "super").
Proof.
  cbv zeta. split.
  - vm_compute; f_equal; apply Qc_is_canon; reflexivity.
  - apply (unlisted_label_raises super_peak_config "super"
             [ reading "41032871534" "700813815#E1" "Usage"
                       (friday 15 0 0) (friday 15 30 0) (qc 2 1) ]
             (friday 0 0 0) (friday 0 0 0) (toordinal (friday 0 0 0))
             (reading "41032871534" "700813815#E1" "Usage"
                      (friday 15 0 0) (friday 15 30 0) (qc 2 1))
             "super_peak").
    + left. reflexivity.
    + left. reflexivity.
    + reflexivity.
    + reflexivity.
    + intros [H | [H | H]]; discriminate.
Defined.

(** A usage reading of Monday 15 July 2024, a month the sample tariff
    lists under no season. *)
Lemma resolver_failure_aborts_witness :
  let df := [ reading "41032871534" "700813815#E1" "Usage"
                      (mk_datetime 2024 7 15 15 0 0)
                      (mk_datetime 2024 7 15 15 30 0) (qc 2 1) ] in
  is_raise (calculate_cost_range demo_config df
              (mk_datetime 2024 7 15 0 0 0) (mk_datetime 2024 7 15 0 0 0)
              "demo")
  /\ is_raise (calculate_detailed_breakdown demo_config df
                 (mk_datetime 2024 7 15 0 0 0) (mk_datetime 2024 7 15 0 0 0)
                 "demo").
Proof.
  cbv zeta.
  apply (Billing.resolver_failure_aborts demo_config "demo"
           [ reading "41032871534" "700813815#E1" "Usage"
                     (mk_datetime 2024 7 15 15 0 0)
                     (mk_datetime 2024 7 15 15 30 0) (qc 2 1) ]
           (reading "41032871534" "700813815#E1" "Usage"
                    (mk_datetime 2024 7 15 15 0 0)
                    (mk_datetime 2024 7 15 15 30 0) (qc 2 1))
           (toordinal (mk_datetime 2024 7 15 0 0 0))).
  - left. reflexivity.
  - reflexivity.
  - exists KeyError. reflexivity.
  - left. reflexivity.
Defined.

Lemma missing_vendor_aborts_witness :
  calculate_cost_range demo_config scenario_frame (friday 0 0 0)
    (friday 0 0 0) "nobody" = Raise KeyError
  /\ calculate_detailed_breakdown demo_config scenario_frame (friday 0 0 0)
       (friday 0 0 0) "nobody" = Raise KeyError.
Proof.
  apply (Billing.missing_vendor_aborts demo_config "nobody" scenario_frame
           (friday 0 0 0) (friday 0 0 0)).
  - reflexivity.
  - discriminate.
Defined.

End BillingMore.

(** ** The breakdown partition, with amounts added exactly *)

Module ExactPartition.

Local Open Scope string_scope.
Local Open Scope list_scope.
Local Open Scope Z_scope.

Lemma usage_kwh_nil (dates : list Z) : usage_kwh [] dates = 0%Qc.
Proof.
  induction dates as [| d rest IH]; cbn [usage_kwh date_data filter
                                          usage_kwh_rows]; [reflexivity|].
  rewrite IH. ring.
Qed.

Lemma existsb_not_in (x : Z) (l : list Z) :
  ~ In x l -> existsb (Z.eqb x) l = false.
Proof.
  intros Hnot. destruct (existsb (Z.eqb x) l) eqn:Hex; [|reflexivity].
  apply existsb_exists in Hex. destruct Hex as [y [Hy Heq]].
  apply Z.eqb_eq in Heq. subst y. contradiction.
Qed.

(** One more row in the frame adds its energy to the usage of a list of
    distinct days when it is a [Usage] reading of one of them. *)
Lemma usage_kwh_cons (r : row datetime) (df : frame) (dates : list Z) :
  NoDup dates ->
  usage_kwh (r :: df) dates
  = ((if is_usage r && existsb (Z.eqb (toordinal (StartDate r))) dates
      then ProfileReadValue r else 0) + usage_kwh df dates)%Qc.
Proof.
  induction 1 as [| d rest Hnotin _ IH]; cbn [usage_kwh existsb].
  - rewrite andb_false_r. ring.
  - rewrite IH. cbn [date_data filter].
    destruct (Z.eqb_spec (toordinal (StartDate r)) d) as [Heq | Hne].
    + subst d. rewrite (existsb_not_in _ _ Hnotin).
      cbn [orb usage_kwh_rows]. rewrite andb_false_r, andb_true_r.
      fold (date_data df (toordinal (StartDate r))).
      destruct (is_usage r); ring.
    + cbn [orb]. fold (date_data df d). ring.
Qed.

Lemma usage_kwh_filter (df : frame) (dates : list Z) :
  NoDup dates ->
  usage_kwh df dates
  = sum_values
      (filter (fun r => is_usage r
                        && existsb (Z.eqb (toordinal (StartDate r))) dates)
              df).
Proof.
  intros Hnodup. induction df as [| r rest IH]; cbn [filter].
  - rewrite usage_kwh_nil. reflexivity.
  - rewrite (usage_kwh_cons r rest dates Hnodup), IH.
    destruct (is_usage r && existsb (Z.eqb (toordinal (StartDate r))) dates).
    + rewrite BillingMore.sum_values_cons. reflexivity.
    + ring.
Qed.

Lemma billed_day_date_range (start_date end_date : datetime) (d : Z) :
  existsb (Z.eqb d) (date_range start_date end_date)
  = billed_day start_date end_date d.
Proof.
  unfold billed_day.
  destruct (existsb (Z.eqb d) (date_range start_date end_date)) eqn:Hex.
  - apply existsb_exists in Hex. destruct Hex as [y [Hy Heq]].
    apply Z.eqb_eq in Heq. subst y.
    apply BillingMore.date_range_In in Hy. destruct Hy as [H1 H2].
    symmetry. apply andb_true_intro. split; apply Z.leb_le; assumption.
  - symmetry. apply not_true_is_false. intros Hbilled.
    apply andb_prop in Hbilled. destruct Hbilled as [H1 H2].
    apply Z.leb_le in H1, H2.
    assert (Hin : In d (date_range start_date end_date))
      by (apply BillingMore.date_range_In; split; assumption).
    assert (Hex' : existsb (Z.eqb d) (date_range start_date end_date) = true).
    { apply existsb_exists. exists d. split; [exact Hin | apply Z.eqb_refl]. }
    rewrite Hex' in Hex. discriminate.
Qed.

(** The energy the two loops see, day by day, is the energy of the
    [Usage] readings that start on a billed day. *)
Lemma usage_kwh_billed (df : frame) (start_date end_date : datetime) :
  usage_kwh df (date_range start_date end_date)
  = sum_values (billed_usage df start_date end_date).
Proof.
  rewrite (usage_kwh_filter df _ (BillingMore.date_range_NoDup _ _)).
  unfold billed_usage. f_equal. apply filter_ext. intros r.
  rewrite billed_day_date_range. reflexivity.
Qed.

(** C5, amended.  For a well-formed tariff configuration and any readings,
    with amounts added exactly: a [Usage] reading adds its energy and its
    cost to exactly one of the buckets peak, off_peak and shoulder, the
    one [get_rate_type] names; the two aggregations return for the same
    inputs, and when they do, the energy of the three buckets adds up to
    the energy of the [Usage] readings that start on a billed day of the
    range, their cost to the usage cost of [calculate_cost_range], and
    the two net costs are equal. *)
Theorem breakdown_partition_exact (cfg : pricing_config) (df : frame)
    (vendor : string) :
  well_formed cfg ->
  (forall (r : row datetime) (b : buckets) (ub : dict (dict Qc)),
      RateTypeDescription r = "Usage" ->
      breakdown_rows cfg vendor [r] (to_usage_breakdown b) = Ok ub ->
      exists label rate,
        usage_label label
        /\ get_rate_type cfg vendor (StartDate r) = Ok label
        /\ get_rate cfg vendor (StartDate r) = Ok rate
        /\ ub = to_usage_breakdown
                  (add_usage b label (ProfileReadValue r)
                     (ProfileReadValue r * rate)%Qc))
  /\ forall start_date end_date,
       match calculate_cost_range cfg df start_date end_date vendor,
             calculate_detailed_breakdown cfg df start_date end_date vendor
       with
       | Ok costs, Ok detail =>
           exists b,
             breakdown detail = to_usage_breakdown b
             /\ (peak_kwh b + off_peak_kwh b + shoulder_kwh b)%Qc
                = sum_values (billed_usage df start_date end_date)
             /\ total_usage detail
                = sum_values (billed_usage df start_date end_date)
             /\ (peak_cost b + off_peak_cost b + shoulder_cost b)%Qc
                = total_usage_cost costs
             /\ total_cost detail = total_usage_cost costs
             /\ solar_credit b = total_solar_credit costs
             /\ total_supply_charges detail = cr_total_supply_charges costs
             /\ net_cost detail = cr_net_cost costs
       | Raise _, Raise _ => True
       | _, _ => False
       end.
Proof.
  intros Hwf.
  destruct (Billing.aggregations_agree cfg df vendor Hwf)
    as [Hone Hrange].
  split; [exact Hone|].
  intros start_date end_date. specialize (Hrange start_date end_date).
  destruct (calculate_cost_range cfg df start_date end_date vendor)
    as [costs|];
    destruct (calculate_detailed_breakdown cfg df start_date end_date vendor)
      as [detail|]; try exact Hrange.
  destruct Hrange as (b & Hb & Hk1 & Hk2 & Hrest).
  exists b. rewrite <- usage_kwh_billed.
  split; [exact Hb|]. split; [exact Hk1|]. split; [exact Hk2 | exact Hrest].
Qed.

(** The sample tariff over Friday 11 and Saturday 12 October 2024, with
    readings on the day before and two days after as well: 2 kWh at the
    peak rate (0.60) and 1 kWh at the weekend shoulder rate (0.25) are
    billed, 1 kWh exported earns 0.10, two days of supply charge are
    2.00; total usage 3 kWh, and both net costs are 2.75. *)
Lemma breakdown_partition_exact_witness :
  well_formed demo_config
  /\ match calculate_cost_range demo_config four_day_frame
             (friday 0 0 0) (mk_datetime 2024 10 12 0 0 0) "demo",
           calculate_detailed_breakdown demo_config four_day_frame
             (friday 0 0 0) (mk_datetime 2024 10 12 0 0 0) "demo" with
     | Ok costs, Ok detail =>
         net_cost detail = cr_net_cost costs
         /\ total_usage detail
            = sum_values (billed_usage four_day_frame (friday 0 0 0)
                            (mk_datetime 2024 10 12 0 0 0))
         /\ total_usage detail = qc 3 1
         /\ cr_net_cost costs = qc 11 4
     | _, _ => False
     end.
Proof.
  split; [exact Billing.demo_config_well_formed|].
  pose proof (proj2 (breakdown_partition_exact demo_config four_day_frame
                       "demo" Billing.demo_config_well_formed)
                (friday 0 0 0) (mk_datetime 2024 10 12 0 0 0)) as Hagree.
  destruct (calculate_cost_range demo_config four_day_frame
              (friday 0 0 0) (mk_datetime 2024 10 12 0 0 0) "demo")
    as [costs|e] eqn:Hcosts; [|vm_compute in Hcosts; discriminate].
  destruct (calculate_detailed_breakdown demo_config four_day_frame
              (friday 0 0 0) (mk_datetime 2024 10 12 0 0 0) "demo")
    as [detail|e] eqn:Hdetail; [|vm_compute in Hdetail; discriminate].
  destruct Hagree as (b & _ & _ & Hkwh & _ & _ & _ & _ & Hnet).
  split; [exact Hnet|]. split; [exact Hkwh|].
  vm_compute in Hcosts. vm_compute in Hdetail.
  injection Hcosts as <-. injection Hdetail as <-.
  split; apply Qc_is_canon; reflexivity.
Defined.

End ExactPartition.

(** ** The aggregation in binary64 *)

Module BillingFloat.

Import Corelib.Floats.PrimFloat.

Local Open Scope string_scope.
Local Open Scope list_scope.
Local Open Scope Z_scope.
Local Set Warnings "-inexact-float".

Lemma flat_config_well_formed : Float64.well_formed Float64.flat_config.
Proof.
  intros vendor v season by_day day_type table name details Hv Hs Hd Hn.
  destruct Hv as [Hv | []]. inversion Hv; subst; clear Hv.
  destruct Hs as [Hs | []]. inversion Hs; subst; clear Hs.
  destruct Hd as [Hd | []]. inversion Hd; subst; clear Hd.
  destruct Hn as [Hn | []]. inversion Hn; subst.
  right. left. reflexivity.
Qed.

(** C5, as stated, fails.  One weekday, 1 kWh used at 0.20 per kWh, 1 kWh
    exported at 0.10 per kWh, a supply charge of 1.00: the configuration
    is well formed and both aggregations return, [calculate_cost_range]
    with a net cost of (0.2 - 0.1) + 1.0 = 1.1 and
    [calculate_detailed_breakdown] with (0.2 + 1.0) - 0.1
    = 1.0999999999999999. *)
Lemma net_costs_differ_in_floats :
  Float64.well_formed Float64.flat_config
  /\ exists costs detail,
       Float64.calculate_cost_range Float64.flat_config Float64.flat_frame
         (friday 0 0 0) (friday 0 0 0) "flat" = Ok costs
       /\ Float64.calculate_detailed_breakdown Float64.flat_config
            Float64.flat_frame (friday 0 0 0) (friday 0 0 0) "flat"
          = Ok detail
       /\ Float64.total_usage_cost costs = 0.2%float
       /\ Float64.total_cost detail = 0.2%float
       /\ Float64.total_solar_credit costs = 0.1%float
       /\ Float64.cr_total_supply_charges costs = 1%float
       /\ Float64.total_supply_charges detail = 1%float
       /\ Float64.cr_net_cost costs = 1.1%float
       /\ Float64.net_cost detail = 1.0999999999999999%float
       /\ Float64.net_cost detail <> Float64.cr_net_cost costs.
Proof.
  split; [exact flat_config_well_formed|].
  eexists. eexists.
  split; [vm_compute; reflexivity|].
  split; [vm_compute; reflexivity|].
  cbn [Float64.total_usage_cost Float64.total_cost Float64.total_solar_credit
       Float64.cr_total_supply_charges Float64.total_supply_charges
       Float64.cr_net_cost Float64.net_cost].
  repeat (split; [reflexivity|]).
  intros Heq.
  assert (E : (1.0999999999999999 =? 1.1)%float = true)
    by (rewrite Heq; reflexivity).
  vm_compute in E. discriminate E.
Qed.

Section Days.

Variable cfg : Float64.pricing_config.
Variable df : Float64.frame.
Variable vendor : string.

Lemma float_cost_range_days_spec (dates : list Z) :
  forall st st',
    Float64.calculate_cost_range_days cfg df vendor dates st = Ok st' ->
    exists dc ds,
      Float64.rs_daily_costs st' = Float64.rs_daily_costs st ++ dc
      /\ Float64.rs_daily_solar st' = Float64.rs_daily_solar st ++ ds
      /\ map fst dc = dates
      /\ map fst ds = dates
      /\ Forall (fun p => Float64.calculate_cost cfg df (fst p) vendor
                          = Ok (snd p)) dc
      /\ Forall (fun p => Float64.calculate_solar_feedin cfg df (fst p) vendor
                          = Ok (snd p)) ds
      /\ Float64.rs_total_cost st'
         = fold_left add (map snd dc) (Float64.rs_total_cost st)
      /\ Float64.rs_total_solar st'
         = fold_left add (map snd ds) (Float64.rs_total_solar st)
      /\ Float64.rs_total_days st'
         = Float64.rs_total_days st + Z.of_nat (List.length dates)
      /\ (forall supply,
            Float64.get_supply_charge cfg vendor = Ok supply ->
            Float64.rs_total_supply_charges st'
            = fold_left add (repeat supply (List.length dates))
                        (Float64.rs_total_supply_charges st)).
Proof.
  induction dates as [| date rest IH]; intros st st' Hrun;
    cbn [Float64.calculate_cost_range_days] in Hrun.
  - injection Hrun as <-. exists [], []. rewrite !app_nil_r.
    repeat split; try constructor.
    cbn [List.length Z.of_nat]. lia.
  - destruct (Float64.calculate_cost cfg df date vendor) as [c |] eqn:Hc;
      cbn [bind] in Hrun; [|discriminate].
    destruct (Float64.calculate_solar_feedin cfg df date vendor)
      as [s |] eqn:Hs; cbn [bind] in Hrun; [|discriminate].
    destruct (Float64.get_supply_charge cfg vendor) as [p |] eqn:Hp;
      cbn [bind] in Hrun; [|discriminate].
    apply IH in Hrun.
    destruct Hrun as [dc [ds [Hdc [Hds [Hkc [Hks [Hvc [Hvs
                       [Htc [Hts [Hdays Hsupply]]]]]]]]]]].
    cbn [Float64.rs_daily_costs Float64.rs_daily_solar Float64.rs_total_cost
         Float64.rs_total_solar Float64.rs_total_days
         Float64.rs_total_supply_charges] in *.
    exists ((date, c) :: dc), ((date, s) :: ds).
    rewrite <- app_assoc in Hdc, Hds.
    repeat split.
    + exact Hdc.
    + exact Hds.
    + cbn [map fst]. rewrite Hkc. reflexivity.
    + cbn [map fst]. rewrite Hks. reflexivity.
    + constructor; [exact Hc | exact Hvc].
    + constructor; [exact Hs | exact Hvs].
    + exact Htc.
    + exact Hts.
    + rewrite Hdays. cbn [List.length]. lia.
    + intros supply [= <-]. rewrite (Hsupply p eq_refl). reflexivity.
Qed.

(** X10.  What [calculate_cost_range] records, in the arithmetic of the
    code: each day's entry is the result of [calculate_cost] and of
    [calculate_solar_feedin] for that day; the two totals are the entries
    added to 0.0 one after the other; ['total_days'] is the number of
    days billed; the supply charges are the vendor's daily charge added
    to 0.0 once per day; and ['net_cost'] is the usage total minus the
    credit, plus the supply charges, each operation rounded. *)
Theorem cost_range_totals (start_date end_date : datetime)
    (costs : Float64.cost_range) :
  Float64.calculate_cost_range cfg df start_date end_date vendor = Ok costs ->
  map fst (Float64.daily_costs costs) = date_range start_date end_date
  /\ map fst (Float64.daily_solar costs) = date_range start_date end_date
  /\ Forall (fun p => Float64.calculate_cost cfg df (fst p) vendor
                      = Ok (snd p))
            (Float64.daily_costs costs)
  /\ Forall (fun p => Float64.calculate_solar_feedin cfg df (fst p) vendor
                      = Ok (snd p))
            (Float64.daily_solar costs)
  /\ Float64.total_usage_cost costs
     = fold_left add (map snd (Float64.daily_costs costs)) 0%float
  /\ Float64.total_solar_credit costs
     = fold_left add (map snd (Float64.daily_solar costs)) 0%float
  /\ Float64.cr_total_days costs
     = Z.of_nat (List.length (date_range start_date end_date))
  /\ (forall supply,
        Float64.get_supply_charge cfg vendor = Ok supply ->
        Float64.cr_total_supply_charges costs
        = fold_left add
            (repeat supply (List.length (date_range start_date end_date)))
            0%float)
  /\ Float64.cr_net_cost costs
     = (Float64.total_usage_cost costs - Float64.total_solar_credit costs
        + Float64.cr_total_supply_charges costs)%float
  /\ Float64.cr_start_date costs = toordinal start_date
  /\ Float64.cr_end_date costs = toordinal end_date
  /\ Float64.cr_vendor costs = vendor.
Proof.
  unfold Float64.calculate_cost_range. intros Hrun.
  destruct (Float64.calculate_cost_range_days cfg df vendor
              (date_range start_date end_date)
              (Float64.mk_range_state [] [] 0%float 0%float 0%float 0))
    as [st |] eqn:Hdays; cbn [bind] in Hrun; [|discriminate].
  injection Hrun as <-.
  cbn [Float64.daily_costs Float64.daily_solar Float64.total_usage_cost
       Float64.total_solar_credit Float64.cr_total_days
       Float64.cr_total_supply_charges Float64.cr_net_cost
       Float64.cr_start_date Float64.cr_end_date Float64.cr_vendor].
  apply float_cost_range_days_spec in Hdays.
  destruct Hdays as [dc [ds [Hdc [Hds [Hkc [Hks [Hvc [Hvs
                      [Htc [Hts [Hn Hsupply]]]]]]]]]]].
  cbn [Float64.rs_daily_costs Float64.rs_daily_solar Float64.rs_total_cost
       Float64.rs_total_solar Float64.rs_total_days
       Float64.rs_total_supply_charges app] in *.
  rewrite Hdc, Hds.
  repeat split; try assumption; try reflexivity.
Qed.

Lemma float_breakdown_days_spec (dates : list Z) :
  forall sb sb',
    Float64.breakdown_days cfg df vendor dates sb = Ok sb' ->
    Float64.bs_total_days sb'
    = Float64.bs_total_days sb + Z.of_nat (List.length dates)
    /\ (forall supply,
          Float64.get_supply_charge cfg vendor = Ok supply ->
          Float64.bs_total_supply_charges sb'
          = fold_left add (repeat supply (List.length dates))
                      (Float64.bs_total_supply_charges sb)).
Proof.
  induction dates as [| date rest IH]; intros sb sb' Hrun;
    cbn [Float64.breakdown_days] in Hrun.
  - injection Hrun as <-. split; [cbn [List.length Z.of_nat]; lia|].
    intros supply _. reflexivity.
  - destruct (Float64.get_supply_charge cfg vendor) as [p |] eqn:Hp;
      cbn [bind] in Hrun; [|discriminate].
    destruct (Float64.breakdown_rows cfg vendor (Float64.date_data df date)
                (Float64.bs_usage_breakdown sb)) as [ub |];
      cbn [bind] in Hrun; [|discriminate].
    apply IH in Hrun. destruct Hrun as [Hdays Hsupply].
    cbn [Float64.bs_total_days Float64.bs_total_supply_charges] in *.
    split; [rewrite Hdays; cbn [List.length]; lia|].
    intros supply [= <-]. rewrite (Hsupply p eq_refl). reflexivity.
Qed.

(** The two day loops add the same supply charges in the same order. *)
Lemma float_supply_charges_agree (dates : list Z) :
  forall sc sc' sb sb',
    Float64.rs_total_supply_charges sc = Float64.bs_total_supply_charges sb ->
    Float64.rs_total_days sc = Float64.bs_total_days sb ->
    Float64.calculate_cost_range_days cfg df vendor dates sc = Ok sc' ->
    Float64.breakdown_days cfg df vendor dates sb = Ok sb' ->
    Float64.rs_total_supply_charges sc' = Float64.bs_total_supply_charges sb'
    /\ Float64.rs_total_days sc' = Float64.bs_total_days sb'.
Proof.
  induction dates as [| date rest IH]; intros sc sc' sb sb' Hs Hd Hc Hb;
    cbn [Float64.calculate_cost_range_days Float64.breakdown_days] in Hc, Hb.
  - injection Hc as <-. injection Hb as <-. split; assumption.
  - destruct (Float64.calculate_cost cfg df date vendor) as [c |];
      cbn [bind] in Hc; [|discriminate].
    destruct (Float64.calculate_solar_feedin cfg df date vendor) as [s |];
      cbn [bind] in Hc; [|discriminate].
    destruct (Float64.get_supply_charge cfg vendor) as [p |];
      cbn [bind] in Hc, Hb; [|discriminate].
    destruct (Float64.breakdown_rows cfg vendor (Float64.date_data df date)
                (Float64.bs_usage_breakdown sb)) as [ub |];
      cbn [bind] in Hb; [|discriminate].
    apply (IH _ _ _ _) with (3 := Hc) (4 := Hb);
      cbn [Float64.rs_total_supply_charges Float64.bs_total_supply_charges
           Float64.rs_total_days Float64.bs_total_days].
    + rewrite Hs. reflexivity.
    + rewrite Hd. reflexivity.
Qed.

(** X13.  What [calculate_detailed_breakdown] records besides the buckets,
    in the arithmetic of the code and whatever the tariff: ['total_days']
    is the number of days billed; the supply charges are the vendor's
    daily charge added to 0.0 once per day, the very number
    [calculate_cost_range] records; ['sub_total_cost'] is ['total_cost']
    plus the supply charges, and ['net_cost'] is that minus the credit
    of the solar bucket, each operation rounded. *)
Theorem breakdown_totals (start_date end_date : datetime)
    (detail : Float64.detailed_breakdown) :
  Float64.calculate_detailed_breakdown cfg df start_date end_date vendor
  = Ok detail ->
  let dates := date_range start_date end_date in
  Float64.total_days detail = Z.of_nat (List.length dates)
  /\ (forall supply,
        Float64.get_supply_charge cfg vendor = Ok supply ->
        Float64.total_supply_charges detail
        = fold_left add (repeat supply (List.length dates)) 0%float)
  /\ (forall costs,
        Float64.calculate_cost_range cfg df start_date end_date vendor
        = Ok costs ->
        Float64.total_supply_charges detail
        = Float64.cr_total_supply_charges costs
        /\ Float64.total_days detail = Float64.cr_total_days costs)
  /\ Float64.sub_total_cost detail
     = (Float64.total_cost detail + Float64.total_supply_charges detail)%float
  /\ (exists solar credit,
        getitem (Float64.breakdown detail) "solar" = Ok solar
        /\ getitem solar "credit" = Ok credit
        /\ Float64.net_cost detail
           = (Float64.sub_total_cost detail - credit)%float)
  /\ Float64.start_date detail = toordinal start_date
  /\ Float64.end_date detail = toordinal end_date
  /\ Float64.vendor_name detail = vendor.
Proof.
  intros Hrun dates. unfold Float64.calculate_detailed_breakdown in Hrun.
  fold dates in Hrun.
  destruct (Float64.breakdown_days cfg df vendor dates
              (Float64.mk_breakdown_state Float64.usage_breakdown_init
                 0%float 0)) as [sb |] eqn:Hdays;
    cbn [bind] in Hrun; [|discriminate].
  destruct (Float64.sum_periods "kwh" (Float64.bs_usage_breakdown sb)
              (values (Float64.bs_usage_breakdown sb)) 0%float)
    as [usage |] eqn:Husage; cbn [bind] in Hrun; [|discriminate].
  destruct (Float64.sum_periods "cost" (Float64.bs_usage_breakdown sb)
              (values (Float64.bs_usage_breakdown sb)) 0%float)
    as [cost |] eqn:Hcost; cbn [bind] in Hrun; [|discriminate].
  destruct (getitem (Float64.bs_usage_breakdown sb) "solar")
    as [solar |] eqn:Hsolar; cbn [bind] in Hrun; [|discriminate].
  destruct (getitem solar "credit") as [credit |] eqn:Hcredit;
    cbn [bind] in Hrun; [|discriminate].
  injection Hrun as <-.
  cbn [Float64.total_days Float64.total_supply_charges Float64.breakdown
       Float64.total_usage Float64.total_cost Float64.sub_total_cost
       Float64.net_cost Float64.start_date Float64.end_date
       Float64.vendor_name].
  destruct (float_breakdown_days_spec _ _ _ Hdays) as [Hn Hsupply].
  cbn [Float64.bs_total_days Float64.bs_total_supply_charges] in Hn, Hsupply.
  split; [exact Hn|]. split; [exact Hsupply|]. split.
  { intros costs Hcosts. unfold Float64.calculate_cost_range in Hcosts.
    fold dates in Hcosts.
    destruct (Float64.calculate_cost_range_days cfg df vendor dates
                (Float64.mk_range_state [] [] 0%float 0%float 0%float 0))
      as [sc |] eqn:Hrange; cbn [bind] in Hcosts; [|discriminate].
    injection Hcosts as <-.
    cbn [Float64.cr_total_supply_charges Float64.cr_total_days].
    destruct (float_supply_charges_agree dates
                (Float64.mk_range_state [] [] 0%float 0%float 0%float 0) sc
                (Float64.mk_breakdown_state Float64.usage_breakdown_init
                   0%float 0) sb eq_refl eq_refl Hrange Hdays) as [Hs Hd].
    split; symmetry; assumption. }
  split; [reflexivity|].
  split; [|repeat split].
  exists solar, credit. repeat split; assumption.
Qed.

End Days.

(** Ten days, from Friday 11 to Sunday 20 October 2024, at 0.10 per day
    and without readings: the supply charges come to 0.9999999999999999,
    not to 1.0. *)
Lemma cost_range_totals_witness :
  match Float64.calculate_cost_range Float64.dime_config [] (friday 0 0 0)
          (mk_datetime 2024 10 20 0 0 0) "dime" with
  | Ok costs =>
      Float64.cr_total_days costs = 10
      /\ Float64.cr_total_supply_charges costs
         = fold_left add (repeat 0.1%float 10) 0%float
      /\ Float64.cr_total_supply_charges costs = 0.9999999999999999%float
      /\ Float64.cr_net_cost costs = 0.9999999999999999%float
  | Raise _ => False
  end.
Proof.
  destruct (Float64.calculate_cost_range Float64.dime_config []
              (friday 0 0 0) (mk_datetime 2024 10 20 0 0 0) "dime")
    as [costs |] eqn:Hrun.
  - destruct (cost_range_totals Float64.dime_config [] "dime"
                (friday 0 0 0) (mk_datetime 2024 10 20 0 0 0) costs Hrun)
      as [_ [_ [_ [_ [_ [_ [Hdays [Hsupply _]]]]]]]].
    split; [exact Hdays|].
    pose proof (Hsupply 0.1%float eq_refl) as Hs.
    split; [exact Hs|].
    vm_compute in Hrun. injection Hrun as <-.
    split; reflexivity.
  - vm_compute in Hrun. discriminate.
Defined.

(** The sample day under the flat tariff: one day, a supply charge of
    1.0, a cost of 0.2, a sub-total of 1.2 and a net cost of
    1.0999999999999999. *)
Lemma breakdown_totals_witness :
  match Float64.calculate_detailed_breakdown Float64.flat_config
          Float64.flat_frame (friday 0 0 0) (friday 0 0 0) "flat" with
  | Ok detail =>
      Float64.total_days detail = 1
      /\ Float64.total_supply_charges detail = 1%float
      /\ Float64.sub_total_cost detail
         = (Float64.total_cost detail
            + Float64.total_supply_charges detail)%float
      /\ Float64.sub_total_cost detail = 1.2%float
      /\ Float64.net_cost detail = 1.0999999999999999%float
  | Raise _ => False
  end.
Proof.
  destruct (Float64.calculate_detailed_breakdown Float64.flat_config
              Float64.flat_frame (friday 0 0 0) (friday 0 0 0) "flat")
    as [detail |] eqn:Hrun.
  - destruct (breakdown_totals Float64.flat_config Float64.flat_frame "flat"
                (friday 0 0 0) (friday 0 0 0) detail Hrun)
      as [Hdays [Hsupply [_ [Hsub _]]]].
    split; [exact Hdays|].
    split; [exact (Hsupply 1%float eq_refl)|].
    split; [exact Hsub|].
    vm_compute in Hrun. injection Hrun as <-.
    split; reflexivity.
  - vm_compute in Hrun. discriminate.
Defined.

End BillingFloat.


(** ** More on the merge, the last entry date and the download *)

Module MergeMore.

Local Open Scope string_scope.
Local Open Scope list_scope.
Local Open Scope Z_scope.

(** *** The sort order *)

Lemma ascii_compare_lt_trans (a b c : ascii) :
  Ascii.compare a b = Lt -> Ascii.compare b c = Lt -> Ascii.compare a c = Lt.
Proof. unfold Ascii.compare. rewrite !N.compare_lt_iff. apply N.lt_trans. Qed.

Lemma string_compare_refl (s : string) : String.compare s s = Eq.
Proof.
  pose proof (String.compare_antisym s s) as H.
  destruct (String.compare s s); [reflexivity | discriminate | discriminate].
Qed.

Lemma string_compare_lt_trans (s1 : string) :
  forall s2 s3,
    String.compare s1 s2 = Lt -> String.compare s2 s3 = Lt ->
    String.compare s1 s3 = Lt.
Proof.
  induction s1 as [| c1 s1 IH]; intros [| c2 s2] [| c3 s3];
    cbn [String.compare]; try discriminate; try reflexivity.
  destruct (Ascii.compare c1 c2) eqn:H12; try discriminate.
  - apply Ascii.compare_eq_iff in H12. subst c2.
    destruct (Ascii.compare c1 c3); try discriminate; [apply IH | reflexivity].
  - intros _. destruct (Ascii.compare c2 c3) eqn:H23; try discriminate.
    + apply Ascii.compare_eq_iff in H23. subst c3. rewrite H12. reflexivity.
    + rewrite (ascii_compare_lt_trans _ _ _ H12 H23). reflexivity.
Qed.

Lemma lex_trans (s1 s2 s3 : string) (x y z : bool) :
  match String.compare s1 s2 with Lt => true | Gt => false | Eq => x end = true ->
  match String.compare s2 s3 with Lt => true | Gt => false | Eq => y end = true ->
  (x = true -> y = true -> z = true) ->
  match String.compare s1 s3 with Lt => true | Gt => false | Eq => z end = true.
Proof.
  destruct (String.compare s1 s2) eqn:H12; try discriminate;
    destruct (String.compare s2 s3) eqn:H23; try discriminate;
    intros Hx Hy Hz.
  - apply String.compare_eq_iff in H12, H23. subst s2 s3.
    rewrite string_compare_refl. exact (Hz Hx Hy).
  - apply String.compare_eq_iff in H12. subst s2. rewrite H23. reflexivity.
  - apply String.compare_eq_iff in H23. subst s3. rewrite H12. reflexivity.
  - rewrite (string_compare_lt_trans _ _ _ H12 H23). reflexivity.
Qed.

Lemma lex_total (s1 s2 : string) (x y : bool) :
  (x = false -> y = true) ->
  match String.compare s1 s2 with Lt => true | Gt => false | Eq => x end = false ->
  match String.compare s2 s1 with Lt => true | Gt => false | Eq => y end = true.
Proof.
  intros Hxy. rewrite (String.compare_antisym s2 s1).
  destruct (String.compare s1 s2); cbn [CompOpp]; try discriminate;
    [exact Hxy | reflexivity].
Qed.

Lemma sort_le_trans (a b c : row cell * datetime) :
  sort_le a b -> sort_le b c -> sort_le a c.
Proof.
  unfold sort_le, sort_leb. intros Hab Hbc.
  apply (lex_trans _ _ _ _ _ _ Hab Hbc). clear Hab Hbc. intros Hab Hbc.
  apply (lex_trans _ _ _ _ _ _ Hab Hbc). clear Hab Hbc. intros Hab Hbc.
  apply Z.leb_le in Hab, Hbc. apply Z.leb_le. lia.
Qed.

Lemma sort_le_total (a b : row cell * datetime) :
  sort_leb a b = false -> sort_le b a.
Proof.
  unfold sort_le, sort_leb. apply lex_total. apply lex_total.
  intros H. apply Z.leb_gt in H. apply Z.leb_le. lia.
Qed.

Lemma insert_sorted_sorted (x : row cell * datetime)
    (l : list (row cell * datetime)) :
  StronglySorted sort_le l -> StronglySorted sort_le (insert_sorted x l).
Proof.
  induction l as [| y rest IH]; intros Hsorted; cbn [insert_sorted].
  - constructor; constructor.
  - inversion Hsorted as [| y' rest' Hrest Hy]; subst.
    destruct (sort_leb x y) eqn:Hxy.
    + constructor; [exact Hsorted|]. constructor; [exact Hxy|].
      revert Hy. apply Forall_impl. intros z Hyz.
      exact (sort_le_trans _ _ _ Hxy Hyz).
    + constructor; [exact (IH Hrest)|].
      apply Forall_forall. intros z Hz.
      apply (Permutation_in _ (Merge.insert_sorted_perm x rest)) in Hz.
      destruct Hz as [<- | Hz]; [exact (sort_le_total _ _ Hxy)|].
      rewrite Forall_forall in Hy. exact (Hy z Hz).
Qed.

Lemma insertion_sort_sorted (l : list (row cell * datetime)) :
  StronglySorted sort_le (fold_right insert_sorted [] l).
Proof.
  induction l as [| x rest IH]; cbn [fold_right]; [constructor|].
  apply insert_sorted_sorted. exact IH.
Qed.

Lemma with_start_keyed (combined : list (row cell))
    (keyed : list (row cell * datetime)) :
  mapM with_start combined = Ok keyed ->
  Forall (fun p => with_start (fst p) = Ok p) keyed.
Proof.
  revert keyed. induction combined as [| r rest IH]; intros keyed;
    cbn [mapM].
  - intros [= <-]. constructor.
  - destruct (with_start r) as [p |] eqn:Hp; cbn [bind]; [|discriminate].
    destruct (mapM with_start rest) as [ps |]; cbn [bind]; [|discriminate].
    intros [= <-]. constructor; [|exact (IH ps eq_refl)].
    unfold with_start in Hp.
    destruct (to_datetime (StartDate r)) as [t |] eqn:Ht; cbn [bind] in Hp;
      [|discriminate].
    injection Hp as <-. cbn [fst]. unfold with_start. rewrite Ht. reflexivity.
Qed.

Lemma with_start_fst (keyed : list (row cell * datetime)) :
  Forall (fun p => with_start (fst p) = Ok p) keyed ->
  mapM with_start (map fst keyed) = Ok keyed.
Proof.
  induction 1 as [| p rest Hp _ IH]; cbn [map mapM]; [reflexivity|].
  rewrite Hp, IH. reflexivity.
Qed.

Lemma sort_values_sorted (combined sorted : list (row cell)) :
  sort_values combined = Ok sorted ->
  exists keyed,
    mapM with_start sorted = Ok keyed /\ StronglySorted sort_le keyed.
Proof.
  unfold sort_values. fold with_start.
  destruct (mapM with_start combined) as [keyed |] eqn:Hkeyed; cbn [bind];
    [|discriminate].
  intros [= <-]. exists (fold_right insert_sorted [] keyed).
  split; [|apply insertion_sort_sorted].
  apply with_start_fst.
  apply (Permutation_Forall
           (Permutation_sym (Merge.insertion_sort_perm keyed))).
  exact (with_start_keyed _ _ Hkeyed).
Qed.

Lemma combine_sorted (file : csv_file) (new_data : list (row string))
    (sorted : list (row cell)) (n : nat) :
  combine file new_data = Ok (Some (sorted, n)) ->
  exists combined, sort_values combined = Ok sorted.
Proof.
  destruct file as [rows |].
  - intros Hcombine. apply Merge.combine_existing in Hcombine.
    destruct Hcombine as [existing [kept [_ [_ [_ [Hsort _]]]]]].
    eexists. exact Hsort.
  - unfold combine.
    destruct (sort_values (map of_new new_data)) as [s |] eqn:Hsort;
      cbn [bind]; [|discriminate].
    intros [= <- _]. eexists. exact Hsort.
Qed.

(** X18.  After a first import that saved rows, the rows of the file are
    in the order of (NMI, RegisterCode, start time): each row is not
    after any later one. *)
Theorem written_rows_sorted (f : fault) (file' : csv_file)
    (new_data : list (row string)) (n : nat) :
  _append_to_csv f None new_data = (file', (true, Saved n)) ->
  exists sorted keyed,
    file' = Some (map csv_row sorted)
    /\ mapM with_start sorted = Ok keyed
    /\ StronglySorted sort_le keyed.
Proof.
  intros Hrun. apply Merge.append_success in Hrun.
  destruct Hrun as [[_ [_ Hmsg]] | [sorted [n' [Hcombine [_ [Hfile _]]]]]];
    [discriminate|].
  apply combine_sorted in Hcombine. destruct Hcombine as [combined Hsort].
  apply sort_values_sorted in Hsort. destruct Hsort as [keyed [Hkeyed Hs]].
  exists sorted, keyed. split; [exact Hfile|]. split; [exact Hkeyed | exact Hs].
Qed.

(** A first import of the readings of 00:30 and 00:00, in that order. *)
Lemma written_rows_sorted_witness :
  _append_to_csv NoFault None [at_0030 (qc 1 5); at_0000 (qc 174 1000)]
  = (Some [at_0000 (qc 174 1000); at_0030 (qc 1 5)], (true, Saved 2))
  /\ exists sorted keyed,
       Some [at_0000 (qc 174 1000); at_0030 (qc 1 5)]
       = Some (map csv_row sorted)
       /\ mapM with_start sorted = Ok keyed
       /\ StronglySorted sort_le keyed.
Proof.
  split; [reflexivity|].
  apply (written_rows_sorted NoFault
           (Some [at_0000 (qc 174 1000); at_0030 (qc 1 5)])
           [at_0030 (qc 1 5); at_0000 (qc 174 1000)] 2).
  reflexivity.
Defined.

(** *** What a merge adds *)

Lemma mapM_length {A B : Type} (f : A -> result B) (l : list A)
    (ys : list B) :
  mapM f l = Ok ys -> List.length ys = List.length l.
Proof.
  intros H. apply Merge.mapM_Forall2 in H. symmetry.
  exact (Forall2_length H).
Qed.

Lemma append_growth (f : fault) (file file' : csv_file)
    (new_data : list (row string)) (n : nat) :
  _append_to_csv f file new_data = (file', (true, Saved n)) ->
  exists rows',
    file' = Some rows'
    /\ List.length rows' = (List.length (file_rows file) + n)%nat
    /\ (n <= List.length new_data)%nat
    /\ (file <> None -> n <> 0%nat).
Proof.
  intros Hrun. apply Merge.append_success in Hrun.
  destruct Hrun as [[_ [_ Hmsg]] | [sorted [n' [Hcombine [_ [Hfile Hmsg]]]]]];
    [discriminate|].
  injection Hmsg as <-. exists (map csv_row sorted).
  split; [exact Hfile|]. rewrite length_map.
  destruct file as [rows |]; cbn [file_rows].
  - apply Merge.combine_existing in Hcombine.
    destruct Hcombine as [existing [kept [Hparse [Hkept [Hne [Hsort Hn]]]]]].
    apply Merge.sort_values_perm in Hsort.
    apply Permutation_length in Hsort.
    rewrite length_app, !length_map in Hsort.
    rewrite (mapM_length _ _ _ Hparse) in Hsort.
    apply Merge.remove_duplicates_filter in Hkept.
    destruct Hkept as [Hfilter _].
    split; [lia|]. split.
    + rewrite Hn, Hfilter. apply filter_length_le.
    + intros _. rewrite Hn. destruct kept; [contradiction | discriminate].
  - unfold combine in Hcombine.
    destruct (sort_values (map of_new new_data)) as [s |] eqn:Hsort;
      cbn [bind] in Hcombine; [|discriminate].
    injection Hcombine as <- <-.
    apply Merge.sort_values_perm in Hsort.
    apply Permutation_length in Hsort. rewrite length_map in Hsort.
    cbn [List.length]. split; [lia|]. split; [lia|].
    intros H. contradiction.
Qed.

(** X19.  A successful merge either reports that nothing was new and leaves
    the file as it was, or reports a count that is exactly the number of
    rows the file grew by; with a store present that count is at least 1
    and never more than the batch. *)
Theorem saved_count_is_growth (f : fault) (file file' : csv_file)
    (new_data : list (row string)) (msg : message) :
  _append_to_csv f file new_data = (file', (true, msg)) ->
  (msg = NoNewUnique /\ file' = file)
  \/ exists n rows',
       msg = Saved n
       /\ file' = Some rows'
       /\ List.length rows' = (List.length (file_rows file) + n)%nat
       /\ (n <= List.length new_data)%nat
       /\ (file <> None -> n <> 0%nat).
Proof.
  intros Hrun. destruct (Merge.append_success _ _ _ _ _ Hrun)
    as [[_ [Hfile Hmsg]] | [sorted [n [_ [_ [_ Hmsg]]]]]].
  - left. split; [exact Hmsg | exact Hfile].
  - right. subst msg. destruct (append_growth _ _ _ _ _ Hrun)
      as [rows' [Hfile [Hlen [Hle Hne]]]].
    exists n, rows'. repeat split; assumption.
Qed.

(** The reading of 00:00 is stored; a batch repeating it and adding that
    of 00:30 makes the file grow by one row. *)
Lemma saved_count_is_growth_witness :
  _append_to_csv NoFault (Some [at_0000 (qc 174 1000)])
    [at_0000 (qc 999 1000); at_0030 (qc 1 5)]
  = (Some [with_dates (at_0000 (qc 174 1000))
             "2021-11-04 00:00:00" "2021-11-04 00:30:00";
           at_0030 (qc 1 5)],
     (true, Saved 1))
  /\ ((Saved 1 = NoNewUnique
       /\ Some [with_dates (at_0000 (qc 174 1000))
                  "2021-11-04 00:00:00" "2021-11-04 00:30:00";
                at_0030 (qc 1 5)]
          = Some [at_0000 (qc 174 1000)])
      \/ exists n rows',
           Saved 1 = Saved n
           /\ Some [with_dates (at_0000 (qc 174 1000))
                      "2021-11-04 00:00:00" "2021-11-04 00:30:00";
                    at_0030 (qc 1 5)]
              = Some rows'
           /\ List.length rows'
              = (List.length (file_rows (Some [at_0000 (qc 174 1000)])) + n)%nat
           /\ (n <= List.length [at_0000 (qc 999 1000); at_0030 (qc 1 5)])%nat
           /\ (Some [at_0000 (qc 174 1000)] <> None -> n <> 0%nat)).
Proof.
  split; [reflexivity|].
  apply (saved_count_is_growth NoFault (Some [at_0000 (qc 174 1000)])
           (Some [with_dates (at_0000 (qc 174 1000))
                    "2021-11-04 00:00:00" "2021-11-04 00:30:00";
                  at_0030 (qc 1 5)])
           [at_0000 (qc 999 1000); at_0030 (qc 1 5)] (Saved 1)).
  reflexivity.
Defined.

(** *** Unreadable dates *)

Lemma mapM_error {A B : Type} (f : A -> result B) (l : list A) (e e0 : exn) :
  (forall y e', f y = Raise e' -> e' = e0) ->
  mapM f l = Raise e -> e = e0.
Proof.
  intros Hf. induction l as [| x rest IH]; cbn [mapM]; [discriminate|].
  destruct (f x) as [y | e1] eqn:Hx; cbn [bind].
  - destruct (mapM f rest) as [ys | e2]; cbn [bind]; [discriminate|].
    intros [= <-]. apply IH. reflexivity.
  - intros [= <-]. exact (Hf x e1 Hx).
Qed.

Lemma new_key_error (r : row string) (e : exn) :
  new_key r = Raise e -> e = ValueError.
Proof.
  unfold new_key.
  destruct (strptime (StartDate r)) as [t | e1] eqn:Ht; cbn [bind];
    [discriminate|].
  intros [= <-]. exact (Merge.strptime_error _ _ Ht).
Qed.

Lemma remove_duplicates_raise (existing_keys : list string)
    (new_data : list (row string)) (r : row string) (e : exn) :
  In r new_data ->
  strptime (StartDate r) = Raise e ->
  remove_duplicates existing_keys new_data = Raise ValueError.
Proof.
  intros Hin Hbad.
  induction new_data as [| r0 rest IH]; [destruct Hin|].
  cbn [remove_duplicates].
  destruct (new_key r0) as [k | e0] eqn:Hk; cbn [bind].
  - destruct Hin as [-> | Hin].
    + unfold new_key in Hk. rewrite Hbad in Hk. discriminate.
    + rewrite (IH Hin). reflexivity.
  - rewrite (new_key_error _ _ Hk). reflexivity.
Qed.

Lemma with_start_error (c : row cell) (e : exn) :
  with_start c = Raise e -> e = ValueError.
Proof.
  unfold with_start.
  destruct (to_datetime (StartDate c)) as [t | e1] eqn:Ht; cbn [bind];
    [discriminate|].
  intros [= <-]. destruct (StartDate c) as [s | t]; cbn [to_datetime] in Ht;
    [exact (Merge.strptime_error _ _ Ht) | discriminate].
Qed.

(** X20.  One batch row whose StartDate is in the spelling
    'YYYY-MM-DD HH:MM:SS' rejects the whole batch: the merge reports
    [ValueError] and leaves the file as it was, whatever the file holds
    and however a write would have gone. *)
Theorem unreadable_start_rejects_batch (f : fault) (file : csv_file)
    (new_data : list (row string)) (r : row string) (t : datetime) :
  In r new_data ->
  StartDate r = timestamp_str t ->
  _append_to_csv f file new_data = (file, (false, ErrorSaving ValueError)).
Proof.
  intros Hin Hiso.
  assert (Hbad : strptime (StartDate r) = Raise ValueError)
    by (rewrite Hiso; apply Merge.strptime_timestamp_str).
  assert (Hcombine : combine file new_data = Raise ValueError).
  { destruct file as [rows |]; unfold combine.
    - destruct (mapM parse_dates rows) as [existing | e1] eqn:Hparse;
        cbn [bind].
      + rewrite (remove_duplicates_raise _ _ _ _ Hin Hbad). reflexivity.
      + rewrite (mapM_error _ _ _ _ Merge.parse_dates_error Hparse).
        reflexivity.
    - unfold sort_values. fold with_start.
      rewrite (Merge.mapM_raise with_start (map of_new new_data) (of_new r)
                 ValueError with_start_error).
      + reflexivity.
      + apply in_map. exact Hin.
      + unfold with_start, of_new. cbn [with_dates StartDate to_datetime].
        rewrite Hbad. reflexivity. }
  unfold _append_to_csv. rewrite Hcombine. reflexivity.
Qed.

(** A batch of two rows, the second one dated in that spelling. *)
Lemma unreadable_start_rejects_batch_witness :
  _append_to_csv NoFault (Some [at_0000 (qc 174 1000)])
    [at_0030 (qc 1 5);
     converted "2021-11-04 01:00:00" "04/11/2021 01:30:00" (qc 1 4)]
  = (Some [at_0000 (qc 174 1000)], (false, ErrorSaving ValueError)).
Proof.
  apply (unreadable_start_rejects_batch NoFault
           (Some [at_0000 (qc 174 1000)])
           [at_0030 (qc 1 5);
            converted "2021-11-04 01:00:00" "04/11/2021 01:30:00" (qc 1 4)]
           (converted "2021-11-04 01:00:00" "04/11/2021 01:30:00" (qc 1 4))
           (mk_datetime 2021 11 4 1 0 0)).
  - right. left. reflexivity.
  - reflexivity.
Defined.

(** X21.  A stored row with a date in the spelling 'YYYY-MM-DD HH:MM:SS',
    in either column, disables the store: every merge fails with
    [ValueError] and leaves the file as it was, [get_last_entry_date]
    answers [None] for every NMI, and an update without [from_date]
    behaves as if nothing were stored: without a NEM12 file it reports
    that no data exists, with one it passes the whole batch to the
    merge, which fails. *)
Theorem unreadable_store (rows : list (row string)) (r : row string)
    (t : datetime) :
  In r rows ->
  StartDate r = timestamp_str t \/ EndDate r = timestamp_str t ->
  (forall f new_data,
      _append_to_csv f (Some rows) new_data
      = (Some rows, (false, ErrorSaving ValueError)))
  /\ (forall nmi, get_last_entry_date (Some rows) nmi = None)
  /\ (forall f nmi,
        download_and_update_data f (Some rows) nmi None None
        = (Some rows, (false, NoBaseline)))
  /\ (forall f nmi r0 batch,
        download_and_update_data f (Some rows) nmi
          (Some (Nem12Parsed (Ok (r0 :: batch)))) None
        = (Some rows, (false, AppendFailed (ErrorSaving ValueError)))).
Proof.
  intros Hin Hiso.
  assert (Hbad : parse_dates r = Raise ValueError).
  { unfold parse_dates. destruct Hiso as [Hiso | Hiso].
    - rewrite Hiso, Merge.strptime_timestamp_str. reflexivity.
    - destruct (strptime (StartDate r)) as [start | e] eqn:Hstart;
        cbn [bind].
      + rewrite Hiso, Merge.strptime_timestamp_str. reflexivity.
      + rewrite (Merge.strptime_error _ _ Hstart). reflexivity. }
  assert (Hparse : mapM parse_dates rows = Raise ValueError).
  { exact (Merge.mapM_raise parse_dates rows r ValueError
             Merge.parse_dates_error Hin Hbad). }
  assert (Hmerge : forall f new_data,
             _append_to_csv f (Some rows) new_data
             = (Some rows, (false, ErrorSaving ValueError))).
  { intros f new_data. unfold _append_to_csv, combine. rewrite Hparse.
    reflexivity. }
  assert (Hlast : forall nmi, get_last_entry_date (Some rows) nmi = None).
  { intros nmi. unfold get_last_entry_date. rewrite Hparse. reflexivity. }
  split; [exact Hmerge|]. split; [exact Hlast|]. split.
  - intros f nmi. unfold download_and_update_data. rewrite Hlast.
    reflexivity.
  - intros f nmi r0 batch. unfold download_and_update_data. rewrite Hlast.
    cbn [filter_from]. rewrite Hmerge. reflexivity.
Qed.

(** The file a merge into a store leaves behind: its first row carries
    ISO dates. *)
Lemma unreadable_store_witness :
  let rows := [ with_dates (at_0000 (qc 174 1000))
                  "2021-11-04 00:00:00" "2021-11-04 00:30:00";
                at_0030 (qc 1 5) ] in
  _append_to_csv NoFault (Some rows) [at_0100 (qc 1 4)]
  = (Some rows, (false, ErrorSaving ValueError))
  /\ get_last_entry_date (Some rows) "41032871534" = None
  /\ download_and_update_data NoFault (Some rows) "41032871534" None None
     = (Some rows, (false, NoBaseline)).
Proof.
  cbv zeta.
  destruct (unreadable_store
              [ with_dates (at_0000 (qc 174 1000))
                  "2021-11-04 00:00:00" "2021-11-04 00:30:00";
                at_0030 (qc 1 5) ]
              (with_dates (at_0000 (qc 174 1000))
                 "2021-11-04 00:00:00" "2021-11-04 00:30:00")
              (mk_datetime 2021 11 4 0 0 0) (or_introl eq_refl)
              (or_introl eq_refl))
    as [Hmerge [Hlast [Hnone _]]].
  split; [apply Hmerge|]. split; [apply Hlast | apply Hnone].
Defined.


(** X22.  The EndDate of a new row is written without having been read: a
    first import accepts a batch with an EndDate in the spelling
    'YYYY-MM-DD HH:MM:SS', and the file it leaves cannot be merged into
    nor asked for its last entry date any more. *)
Theorem unchecked_end_date (new_data file1 : list (row string))
    (r : row string) (t : datetime) (n : nat) :
  In r new_data ->
  EndDate r = timestamp_str t ->
  _append_to_csv NoFault None new_data = (Some file1, (true, Saved n)) ->
  Permutation file1 new_data
  /\ (forall f again,
        _append_to_csv f (Some file1) again
        = (Some file1, (false, ErrorSaving ValueError)))
  /\ (forall nmi, get_last_entry_date (Some file1) nmi = None).
Proof.
  intros Hin Hiso Hrun.
  assert (Hbad : strptime (EndDate r) = Raise ValueError)
    by (rewrite Hiso; apply Merge.strptime_timestamp_str).
  apply Merge.append_success in Hrun.
  destruct Hrun as [[_ [Hfile _]] | [sorted [n' [Hcombine [_ [Hfile _]]]]]];
    [discriminate|].
  injection Hfile as ->. unfold combine in Hcombine.
  destruct (sort_values (map of_new new_data)) as [s |] eqn:Hsort;
    cbn [bind] in Hcombine; [|discriminate].
  injection Hcombine as -> _.
  apply Merge.sort_values_perm in Hsort.
  assert (Hperm : Permutation (map csv_row sorted) new_data).
  { rewrite <- (Merge.map_csv_row_of_new new_data).
    apply Permutation_map. exact Hsort. }
  assert (Hparse : mapM parse_dates (map csv_row sorted) = Raise ValueError).
  { apply (Merge.mapM_raise parse_dates _ r ValueError
             Merge.parse_dates_error).
    - apply (Permutation_in _ (Permutation_sym Hperm)). exact Hin.
    - unfold parse_dates.
      destruct (strptime (StartDate r)) as [start | e1] eqn:Hstart;
        cbn [bind].
      + rewrite Hbad. reflexivity.
      + rewrite (Merge.strptime_error _ _ Hstart). reflexivity. }
  split; [exact Hperm|]. split.
  - intros f again. unfold _append_to_csv, combine. rewrite Hparse.
    reflexivity.
  - intros nmi. unfold get_last_entry_date. rewrite Hparse. reflexivity.
Qed.

(** One reading whose EndDate is spelt '2021-11-04 00:30:00'. *)
Lemma unchecked_end_date_witness :
  _append_to_csv NoFault None
    [converted "04/11/2021 00:00:00" "2021-11-04 00:30:00" (qc 174 1000)]
  = (Some [converted "04/11/2021 00:00:00" "2021-11-04 00:30:00"
             (qc 174 1000)],
     (true, Saved 1))
  /\ _append_to_csv NoFault
       (Some [converted "04/11/2021 00:00:00" "2021-11-04 00:30:00"
                (qc 174 1000)])
       [at_0030 (qc 1 5)]
     = (Some [converted "04/11/2021 00:00:00" "2021-11-04 00:30:00"
                (qc 174 1000)],
        (false, ErrorSaving ValueError)).
Proof.
  split; [reflexivity|].
  apply (proj1 (proj2
           (unchecked_end_date
              [converted "04/11/2021 00:00:00" "2021-11-04 00:30:00"
                 (qc 174 1000)]
              [converted "04/11/2021 00:00:00" "2021-11-04 00:30:00"
                 (qc 174 1000)]
              (converted "04/11/2021 00:00:00" "2021-11-04 00:30:00"
                 (qc 174 1000))
              (mk_datetime 2021 11 4 0 30 0) 1
              (or_introl eq_refl) eq_refl eq_refl))).
Defined.





(** *** The last entry date *)




(** *** The update *)

Lemma filter_from_spec (threshold : Z) (batch kept : list (row string)) :
  filter_from (Some threshold) batch = Ok kept ->
  kept = filter (starts_from threshold) batch.
Proof.
  revert kept. induction batch as [| r rest IH]; intros kept;
    cbn [filter_from filter].
  - intros [= <-]. reflexivity.
  - unfold starts_from at 1.
    destruct (strptime (StartDate r)) as [start |]; cbn [bind];
      [|discriminate].
    destruct (filter_from (Some threshold) rest) as [kept' |]; cbn [bind];
      [|discriminate].
    intros [= <-]. rewrite (IH kept' eq_refl).
    destruct (to_seconds start >=? threshold); reflexivity.
Qed.




(** X27.  A first import with an explicit [from_date] writes exactly the batch
    rows that start at or after it, and reports their number. *)
Theorem explicit_from_date_first_import (nmi : string)
    (batch : list (row string)) (from_date : datetime) (file' : csv_file)
    (k : nat) :
  download_and_update_data NoFault None nmi (Some (Nem12Parsed (Ok batch)))
    (Some from_date)
  = (file', (true, Added k)) ->
  exists rows',
    file' = Some rows'
    /\ Permutation rows' (filter (starts_from (to_seconds from_date)) batch)
    /\ k = List.length rows'
    /\ rows' <> [].
Proof.
  unfold download_and_update_data.
  destruct batch as [| r0 batch]; [discriminate|].
  destruct (filter_from (Some (to_seconds from_date)) (r0 :: batch))
    as [kept |] eqn:Hfilter; [|discriminate].
  apply filter_from_spec in Hfilter.
  destruct kept as [| k0 kept]; [discriminate|].
  unfold _append_to_csv, combine.
  destruct (sort_values (map of_new (k0 :: kept))) as [sorted |] eqn:Hsort;
    cbn [bind]; [|discriminate].
  cbn [to_csv]. intros [= <- <-].
  apply Merge.sort_values_perm in Hsort.
  assert (Hperm : Permutation (map csv_row sorted) (k0 :: kept)).
  { rewrite <- (Merge.map_csv_row_of_new (k0 :: kept)).
    apply Permutation_map. exact Hsort. }
  exists (map csv_row sorted). split; [reflexivity|].
  split; [rewrite <- Hfilter; exact Hperm|].
  split; [symmetry; exact (Permutation_length Hperm)|].
  intros Hnil. rewrite Hnil in Hperm. apply Permutation_nil in Hperm.
  discriminate.
Qed.

(** Three readings, imported from 00:30 on. *)
Lemma explicit_from_date_first_import_witness :
  download_and_update_data NoFault None "41032871534"
    (Some (Nem12Parsed
             (Ok [at_0000 (qc 174 1000); at_0030 (qc 1 5); at_0100 (qc 1 4)])))
    (Some (mk_datetime 2021 11 4 0 30 0))
  = (Some [at_0030 (qc 1 5); at_0100 (qc 1 4)], (true, Added 2))
  /\ exists rows',
       Some [at_0030 (qc 1 5); at_0100 (qc 1 4)] = Some rows'
       /\ Permutation rows'
            (filter (starts_from (to_seconds (mk_datetime 2021 11 4 0 30 0)))
                    [at_0000 (qc 174 1000); at_0030 (qc 1 5);
                     at_0100 (qc 1 4)])
       /\ 2%nat = List.length rows'
       /\ rows' <> [].
Proof.
  split; [reflexivity|].
  apply (explicit_from_date_first_import "41032871534"
           [at_0000 (qc 174 1000); at_0030 (qc 1 5); at_0100 (qc 1 4)]
           (mk_datetime 2021 11 4 0 30 0)
           (Some [at_0030 (qc 1 5); at_0100 (qc 1 4)]) 2).
  reflexivity.
Defined.

End MergeMore.

(** ** Persisting *)

Module Persist.

Local Open Scope string_scope.
Local Open Scope list_scope.
Local Open Scope Z_scope.






End Persist.


(** ** The converter *)

Module Converter.

Local Open Scope string_scope.
Local Open Scope list_scope.
Local Open Scope Z_scope.

Lemma digit_value_digit_char (n : Z) :
  digit_value (digit_char n) = Some (n mod 10).
Proof.
  unfold digit_char.
  assert (Hrange : 0 <= n mod 10 < 10) by (apply Z.mod_pos_bound; lia).
  assert (Hcases : n mod 10 = 0 \/ n mod 10 = 1 \/ n mod 10 = 2
                   \/ n mod 10 = 3 \/ n mod 10 = 4 \/ n mod 10 = 5
                   \/ n mod 10 = 6 \/ n mod 10 = 7 \/ n mod 10 = 8
                   \/ n mod 10 = 9) by lia.
  repeat (destruct Hcases as [-> | Hcases]; [reflexivity|]).
  rewrite Hcases. reflexivity.
Qed.

Lemma two_digits_pad (n : Z) :
  0 <= n < 100 ->
  two_digits (digit_char (n / 10)) (digit_char n) = Some n.
Proof.
  intros Hn. unfold two_digits. rewrite !digit_value_digit_char.
  f_equal. rewrite (Z.mod_small (n / 10) 10).
  - pose proof (Z.div_mod n 10). lia.
  - split; [apply Z.div_pos; lia | apply Z.div_lt_upper_bound; lia].
Qed.

Lemma days_in_month_le (y m : Z) : days_in_month y m <= 31.
Proof.
  unfold days_in_month. destruct (m =? 2); [destruct (is_leap y); lia|].
  destruct ((m =? 4) || (m =? 6) || (m =? 9) || (m =? 11)); lia.
Qed.

Lemma is_datetime_bounds (t : datetime) :
  is_datetime t ->
  1000 <= year t <= 9999 /\ 1 <= month t <= 12 /\ 1 <= day t <= 31
  /\ 0 <= hour t <= 23 /\ 0 <= minute t <= 59 /\ 0 <= second t <= 59.
Proof.
  unfold is_datetime, valid_datetime. intros [Hvalid [Hy [Hh [Hm Hs]]]].
  repeat (apply andb_prop in Hvalid; destruct Hvalid as [Hvalid ?]).
  repeat match goal with
         | H : (_ <=? _) = true |- _ => apply Z.leb_le in H
         end.
  pose proof (days_in_month_le (year t) (month t)). lia.
Qed.

Lemma is_timestamp_is_datetime (t : datetime) :
  is_timestamp t -> is_datetime t.
Proof.
  unfold is_timestamp, is_datetime. intros [Hvalid [Hyear Htime]].
  split; [exact Hvalid|]. split; [lia | exact Htime].
Qed.

Lemma strptime_strftime_dmy (t : datetime) :
  is_datetime t -> strptime (strftime_dmy t) = Ok t.
Proof.
  intros Ht. pose proof (is_datetime_bounds t Ht) as Hb.
  destruct Ht as [Hvalid _].
  destruct t as [y m d h n s]. cbn [year month day hour minute second] in *.
  cbv [strptime strftime_dmy pad4 pad2 append list_ascii_of_string
       year month day hour minute second].
  rewrite !two_digits_pad; try lia.
  - rewrite <- (Z.div_mod y 100) by lia. rewrite Hvalid. reflexivity.
  - apply Z.mod_pos_bound. lia.
  - split; [apply Z.div_pos; lia | apply Z.div_lt_upper_bound; lia].
Qed.

(** X28.  What the converter writes is what the merge and the parser read: the
    text [strftime('%d/%m/%Y %H:%M:%S')] prints for a timestamp of whole
    seconds with a year of four digits is parsed back to that timestamp,
    so two such timestamps are never printed alike. *)
Theorem strftime_strptime_round_trip (t : datetime) :
  is_timestamp t ->
  strptime (strftime_dmy t) = Ok t
  /\ forall t', is_timestamp t' -> strftime_dmy t' = strftime_dmy t -> t' = t.
Proof.
  intros Ht. apply is_timestamp_is_datetime in Ht.
  split; [exact (strptime_strftime_dmy t Ht)|].
  intros t' Ht' Heq. apply is_timestamp_is_datetime in Ht'.
  pose proof (strptime_strftime_dmy t' Ht') as Hback.
  rewrite Heq, (strptime_strftime_dmy t Ht) in Hback.
  injection Hback as ->. reflexivity.
Qed.

(** 4 November 2021, 00:30:00. *)
Lemma strftime_strptime_round_trip_witness :
  strftime_dmy (mk_datetime 2021 11 4 0 30 0) = "04/11/2021 00:30:00"
  /\ strptime (strftime_dmy (mk_datetime 2021 11 4 0 30 0))
     = Ok (mk_datetime 2021 11 4 0 30 0).
Proof.
  split; [reflexivity|].
  refine (proj1 (strftime_strptime_round_trip
                   (mk_datetime 2021 11 4 0 30 0) _)).
  unfold is_timestamp. cbn [year hour minute second].
  split; [reflexivity | lia].
Defined.

Lemma convert_row_parses (r : nem12_row) :
  is_datetime (t_start r) -> is_datetime (t_end r) ->
  parse_dates (convert_row r)
  = Ok (with_dates (convert_row r) (t_start r) (t_end r)).
Proof.
  intros Hstart Hend. unfold parse_dates.
  change (StartDate (convert_row r)) with (strftime_dmy (t_start r)).
  change (EndDate (convert_row r)) with (strftime_dmy (t_end r)).
  rewrite (strptime_strftime_dmy (t_start r) Hstart).
  rewrite (strptime_strftime_dmy (t_end r) Hend).
  reflexivity.
Qed.

(** X29.  The two dates of a row the converter builds from two timestamps
    of whole seconds are parsed back to these timestamps, its calendar
    columns are those of its start, and its quarter lies between 1 and
    4. *)
Theorem converted_row_reads_back (r : nem12_row) :
  is_timestamp (t_start r) -> is_timestamp (t_end r) ->
  exists e,
    parse_dates (convert_row r) = Ok e
    /\ StartDate e = t_start r
    /\ EndDate e = t_end r
    /\ Start_Day e = day (StartDate e)
    /\ Start_Month e = month (StartDate e)
    /\ Start_Year e = year (StartDate e)
    /\ 1 <= Start_Quarter e <= 4.
Proof.
  intros Hstart Hend.
  apply is_timestamp_is_datetime in Hstart, Hend.
  exists (with_dates (convert_row r) (t_start r) (t_end r)).
  split; [exact (convert_row_parses r Hstart Hend)|].
  cbn [with_dates StartDate EndDate Start_Day Start_Month Start_Year
       Start_Quarter convert_row].
  repeat (split; [reflexivity|]).
  pose proof (is_datetime_bounds _ Hstart) as [_ [Hmonth _]].
  assert (0 <= (month (t_start r) - 1) / 3 < 4)
    by (split; [apply Z.div_pos; lia | apply Z.div_lt_upper_bound; lia]).
  lia.
Qed.

Lemma converted_row_reads_back_witness :
  exists e,
    parse_dates (convert_row nem_e1) = Ok e
    /\ StartDate e = mk_datetime 2021 11 4 0 0 0
    /\ EndDate e = mk_datetime 2021 11 4 0 30 0
    /\ Start_Day e = day (StartDate e)
    /\ Start_Month e = month (StartDate e)
    /\ Start_Year e = year (StartDate e)
    /\ 1 <= Start_Quarter e <= 4.
Proof.
  apply (converted_row_reads_back nem_e1).
  - unfold is_timestamp. cbn. split; [reflexivity | lia].
  - unfold is_timestamp. cbn. split; [reflexivity | lia].
Defined.

(** X30.  A converted batch is accepted by a first import: every row is
    written, the message counts the whole batch, and the file can be
    read back with both date columns parsed. *)
Theorem converted_batch_imports (batch : list nem12_row) :
  Forall (fun r => is_datetime (t_start r) /\ is_datetime (t_end r)) batch ->
  exists rows' frame,
    _append_to_csv NoFault None (_convert_nem12_to_csv_format batch)
    = (Some rows', (true, Saved (List.length batch)))
    /\ Permutation rows' (_convert_nem12_to_csv_format batch)
    /\ mapM parse_dates rows' = Ok frame.
Proof.
  intros Hbatch. unfold _convert_nem12_to_csv_format.
  assert (Hparse : Forall (fun c => exists e, parse_dates c = Ok e)
                          (map convert_row batch)).
  { apply Forall_map. revert Hbatch. apply Forall_impl.
    intros r [Hstart Hend]. eexists.
    exact (convert_row_parses r Hstart Hend). }
  assert (Hkeyed : exists keyed,
             mapM with_start (map of_new (map convert_row batch)) = Ok keyed).
  { apply Merge.mapM_total. apply Forall_map. apply Forall_map.
    revert Hbatch. apply Forall_impl. intros r [Hstart _].
    unfold with_start, of_new.
    cbn [with_dates StartDate to_datetime convert_row].
    rewrite (strptime_strftime_dmy (t_start r) Hstart).
    eexists. reflexivity. }
  destruct Hkeyed as [keyed Hkeyed].
  assert (Hsort : sort_values (map of_new (map convert_row batch))
                  = Ok (map fst (fold_right insert_sorted [] keyed))).
  { unfold sort_values. fold with_start. rewrite Hkeyed. reflexivity. }
  assert (Hperm : Permutation
                    (map csv_row (map fst (fold_right insert_sorted [] keyed)))
                    (map convert_row batch)).
  { pose proof (Permutation_map csv_row (Merge.sort_values_perm _ _ Hsort))
      as Hp.
    rewrite Merge.map_csv_row_of_new in Hp. exact Hp. }
  destruct (Merge.mapM_total parse_dates
              (map csv_row (map fst (fold_right insert_sorted [] keyed))))
    as [frame Hframe].
  { apply (Permutation_Forall (Permutation_sym Hperm)). exact Hparse. }
  exists (map csv_row (map fst (fold_right insert_sorted [] keyed))), frame.
  split; [|split; [exact Hperm | exact Hframe]].
  unfold _append_to_csv, combine. rewrite Hsort. cbn [bind to_csv].
  rewrite length_map. reflexivity.
Qed.

(** The B1 and the E1 channel of one half hour. *)
Lemma converted_batch_imports_witness :
  exists rows' frame,
    _append_to_csv NoFault None (_convert_nem12_to_csv_format [nem_b1; nem_e1])
    = (Some rows', (true, Saved 2))
    /\ Permutation rows' (_convert_nem12_to_csv_format [nem_b1; nem_e1])
    /\ mapM parse_dates rows' = Ok frame.
Proof.
  apply (converted_batch_imports [nem_b1; nem_e1]).
  repeat constructor; cbn; lia.
Defined.

End Converter.

(** ** Importing a batch again *)

Module Reimport.

Local Open Scope string_scope.
Local Open Scope list_scope.
Local Open Scope Z_scope.




End Reimport.
